(** * diasend-nightscout-bridge: the synchronisation core of [src/index.ts]

    A shallow embedding of [identifyTreatments], [getDiasendPatientData],
    [syncDiasendGlucoseToNightscout], [syncDiasendDataToNightscout],
    [startSynchronization] and [startPumpSettingsSynchronization], and the
    properties the specification states about them.

    Conventions of the embedding:
    - a [Date], a dayjs value and a [created_at] string are all read as a
      number of milliseconds ([Z]); unparsable dates are outside the model;
    - a JS object that is compared with [===] carries its reference ([oid]);
    - a JS object used as a dictionary is a [gmap] over its own string keys;
      where the code looks a name up with [in] or [o[k]], the members the
      object inherits from [Object.prototype] are found as well;
    - an [async] function is a computation that records the collaborator
      calls it performs, allocates object references and either returns or
      throws; a handler called inside [Promise.all] says whether it returns
      a promise or throws before it has returned one. *)

From Stdlib Require Import ZArith Lia.
From stdpp Require Import base option list strings gmap sorting.

Set Default Proof Using "Type".

(** ** Results of fallible code *)

Inductive Result (A : Type) : Type :=
| Ok (a : A)
| Throw (message : string).
Arguments Ok {A} a.
Arguments Throw {A} message.

Definition try_catch {A} (body : Result A) (handler : string -> Result A) : Result A :=
  match body with
  | Ok a => Ok a
  | Throw e => handler e
  end.

(** ** Data model *)

(** Modelled from the spec: the record declarations of [diasend.ts] are not
    among the sources.  Section 3 gives the four kinds of a patient record. *)
Inductive RecordType : Type := glucose | carb | insulin_bolus | insulin_basal.

#[global] Instance RecordType_eq_dec : EqDecision RecordType.
Proof. solve_decision. Defined.

(** Modelled from the spec: the device declaration of [diasend.ts].  Section 3
    only needs the identity of the device. *)
Record DeviceData : Type := { serial : string }.

#[global] Instance DeviceData_eq_dec : EqDecision DeviceData.
Proof. solve_decision. Defined.

(** Modelled from the spec: [PatientRecord] of [diasend.ts].  Section 3: a
    kind, a creation timestamp and a kind-specific value (glucose value, carb
    grams, bolus units, basal rate); the value is optional because Section
    4.2 lists "missing required fields" among the causes of a failed
    resolution. *)
Record PatientRecord : Type := {
  type : RecordType;
  created_at : Z;
  value : option Z;
}.

(** Modelled from the spec: what [getPatientData] of [diasend.ts] resolves to;
    [getDiasendPatientData] reads [device] and [data] of each element. *)
Record DeviceRecords : Type := {
  batch_device : DeviceData;
  batch_data : list PatientRecord;
}.

(** [{ ...r, device: record.device }]: a fresh object, so it has a reference
    of its own. *)
Record PatientRecordWithDeviceData : Type := {
  oid : nat;
  data : PatientRecord;
  device : DeviceData;
}.

#[global] Instance PatientRecord_eq_dec : EqDecision PatientRecord.
Proof. solve_decision. Defined.

#[global] Instance PatientRecordWithDeviceData_eq_dec :
  EqDecision PatientRecordWithDeviceData.
Proof. solve_decision. Defined.

Definition rtype (r : PatientRecordWithDeviceData) : RecordType := type (data r).
Definition rcreated_at (r : PatientRecordWithDeviceData) : Z := created_at (data r).

(** [a === b] on two record objects. *)
Definition same_object (a b : PatientRecordWithDeviceData) : bool :=
  Nat.eqb (oid a) (oid b).

(** Modelled from the spec: the treatment declarations of [nightscout.ts] are
    not among the sources.  Section 3: a treatment is derived from one or
    two patient records, which it references. *)
Inductive Treatment : Type :=
| MealBolusTreatment (carbRecord bolusRecord : PatientRecordWithDeviceData)
| CorrectionBolusTreatment (bolusRecord : PatientRecordWithDeviceData)
| CarbCorrectionTreatment (carbRecord : PatientRecordWithDeviceData).

Definition contributors (t : Treatment) : list PatientRecordWithDeviceData :=
  match t with
  | MealBolusTreatment c b => [c; b]
  | CorrectionBolusTreatment b => [b]
  | CarbCorrectionTreatment c => [c]
  end.

(** Modelled from the spec: [Entry] of [nightscout.ts]; timestamp, value and
    source-device tag. *)
Record Entry : Type := {
  date : Z;
  sgv : Z;
  entry_device : string;
}.

(** Modelled from the spec: an entry of a basal schedule, declared in
    [nightscout.ts].  Section 3: a time of day and a rate. *)
Record TimeBasedValue : Type := {
  time : nat;
  rate : Z;
}.

(** Modelled from the spec: [ProfileConfig] of [nightscout.ts].  The code
    names [basal] only; every other own property is kept, by name, in a
    dictionary. *)
Record ProfileConfig : Type := {
  basal : option (list TimeBasedValue);
  config_fields : gmap string string;
}.

(** Modelled from the spec: [Profile] of [nightscout.ts].  The code names
    [defaultProfile] and [store]; every other own property is kept, by name,
    in a dictionary. *)
Record Profile : Type := {
  defaultProfile : string;
  store : gmap string ProfileConfig;
  profile_fields : gmap string string;
}.

(** ** [Array.prototype] as used by the code *)

Section Arrays.
Context {A : Type}.

(** [Array.prototype.sort(compare)]: stable; [x] is placed before the first
    element it does not compare greater than. *)
Fixpoint sort_insert (compare : A -> A -> Z) (x : A) (l : list A) : list A :=
  match l with
  | [] => [x]
  | y :: l' =>
      if (compare x y <=? 0)%Z then x :: y :: l'
      else y :: sort_insert compare x l'
  end.

Fixpoint Array_sort (compare : A -> A -> Z) (l : list A) : list A :=
  match l with
  | [] => []
  | x :: l' => sort_insert compare x (Array_sort compare l')
  end.

(** [l.indexOf(x)] with the equality test [same]; [-1] when absent. *)
Fixpoint indexOf_from (same : A -> A -> bool) (l : list A) (x : A) (i : Z) : Z :=
  match l with
  | [] => (-1)%Z
  | y :: l' => if same y x then i else indexOf_from same l' x (i + 1)%Z
  end.

Definition Array_indexOf (same : A -> A -> bool) (l : list A) (x : A) : Z :=
  indexOf_from same l x 0%Z.
End Arrays.

(** ** identifyTreatments *)

Definition isCarbOrBolus (r : PatientRecordWithDeviceData) : bool :=
  match rtype r with
  | insulin_bolus | carb => true
  | _ => false
  end.

(** The outcome of [diasendRecordToNightscoutTreatment(record, allRecords)]:
    a treatment, [undefined], or an exception. *)
Definition Resolver : Type :=
  PatientRecordWithDeviceData -> list PatientRecordWithDeviceData ->
  Result (option Treatment).

Record Identified : Type := {
  treatments : list Treatment;
  unprocessedRecords : list PatientRecordWithDeviceData;
}.

Section IdentifyTreatments.
Variable diasendRecordToNightscoutTreatment : Resolver.

(** The callback of [reduce].  The accumulator [treatments] and the
    captured array [unprocessedRecords] are threaded together. *)
Definition identifyStep (allRecords : list PatientRecordWithDeviceData)
    (acc : Identified) (record : PatientRecordWithDeviceData) : Result Identified :=
  try_catch
    (match diasendRecordToNightscoutTreatment record allRecords with
     | Ok (Some treatment) =>
         Ok {| treatments := treatments acc ++ [treatment];
               unprocessedRecords := unprocessedRecords acc |}
     | Ok None => Ok acc
     | Throw e => Throw e
     end)
    (fun _ =>
       Ok {| treatments := treatments acc;
             unprocessedRecords := unprocessedRecords acc ++ [record] |}).

Fixpoint reduceM (allRecords : list PatientRecordWithDeviceData)
    (acc : Identified) (l : list PatientRecordWithDeviceData) : Result Identified :=
  match l with
  | [] => Ok acc
  | record :: l' =>
      match identifyStep allRecords acc record with
      | Ok acc' => reduceM allRecords acc' l'
      | Throw e => Throw e
      end
  end.

Definition identifyTreatments (records : list PatientRecordWithDeviceData)
    : Result Identified :=
  let allRecords := List.filter isCarbOrBolus records in
  reduceM allRecords {| treatments := []; unprocessedRecords := [] |} allRecords.
End IdentifyTreatments.

(** ** Asynchronous code and its collaborators *)

(** Modelled from the spec: the pump settings of [diasend.ts]; only the basal
    schedule is named by the spec. *)
Record PumpSettings : Type := {
  pump_basal : list TimeBasedValue;
}.

(** A call to a collaborator outside [index.ts], with its arguments. *)
Inductive Call : Type :=
| CallObtainDiasendAccessToken (clientId clientSecret username password : string)
| CallGetPatientData (accessToken : string) (dateFrom dateTo : Z)
| CallEntriesHandler (entries : list Entry)
| CallTreatmentsHandler (treatments : list Treatment)
| CallProfileLoader
| CallProfileHandler (profile : Profile)
| CallGetAuthenticatedScrapingClient (username password : string)
| CallGetPumpSettings (userId : string).

(** What a computation can read and change besides its arguments: the next
    free object reference and the wall clock. *)
Record Runtime : Type := {
  nextRef : nat;
  now : Z;
}.

Record Run (A : Type) : Type := {
  calls : list Call;
  after : Runtime;
  outcome : Result A;
}.
Arguments calls {A} _.
Arguments after {A} _.
Arguments outcome {A} _.

Definition Async (A : Type) : Type := Runtime -> Run A.

(** An [async] function: started in a runtime it performs calls, leaves a
    runtime behind and returns or throws. *)
Definition ret {A} (a : A) : Async A :=
  fun rt => {| calls := []; after := rt; outcome := Ok a |}.

Definition throw {A} (e : string) : Async A :=
  fun rt => {| calls := []; after := rt; outcome := Throw e |}.

Definition bind {A B} (m : Async A) (f : A -> Async B) : Async B :=
  fun rt =>
    let r := m rt in
    match outcome r with
    | Ok a =>
        let r' := f a (after r) in
        {| calls := calls r ++ calls r'; after := after r'; outcome := outcome r' |}
    | Throw e => {| calls := calls r; after := after r; outcome := Throw e |}
    end.

Notation "'let*' x ':=' m 'in' k" := (bind m (fun x => k))
  (at level 10, x name, m at level 100, k at level 200).

(** [await collaborator(...)]: the call is recorded, its result awaited. *)
Definition await {A} (c : Call) (r : Result A) : Async A :=
  fun rt => {| calls := [c]; after := rt; outcome := r |}.

(** Synchronous code inside an [async] function. *)
Definition lift {A} (r : Result A) : Async A :=
  fun rt => {| calls := []; after := rt; outcome := r |}.

(** What calling a function typed as returning a promise does: it returns a
    promise, which fulfils or, at some moment, rejects; or it throws before
    it has returned one.  A lone [await f(x)] does not tell the last two
    apart; [Promise.all([f(x), g(y)])] does. *)
Inductive Answer (A : Type) : Type :=
| Fulfils (a : A)
| Rejects (reason : string) (moment : Z)
| ThrowsSync (message : string).
Arguments Fulfils {A} a.
Arguments Rejects {A} reason moment.
Arguments ThrowsSync {A} message.

(** [await f(x)]: what the caller gets. *)
Definition settled {A} (p : Answer A) : Result A :=
  match p with
  | Fulfils a => Ok a
  | Rejects e _ => Throw e
  | ThrowsSync e => Throw e
  end.

Definition throwsSync {A} (p : Answer A) : bool :=
  match p with
  | ThrowsSync _ => true
  | _ => false
  end.

(** [Promise.all([a, b])] of two promises: it fulfils with both values when
    both fulfil, and rejects with the reason of the one that rejects first. *)
Definition Promise_all {A B} (pa : Answer A) (pb : Answer B) : Result (A * B) :=
  match pa, pb with
  | Fulfils a, Fulfils b => Ok (a, b)
  | Rejects ea ta, Rejects eb tb => if (ta <=? tb)%Z then Throw ea else Throw eb
  | Rejects e _, _ => Throw e
  | _, Rejects e _ => Throw e
  | ThrowsSync e, _ => Throw e
  | _, ThrowsSync e => Throw e
  end.

(** [await Promise.all([f(x), g(y)])]: the array literal is evaluated first,
    left to right.  When [f(x)] throws, [g] is never called; when [g(y)]
    throws, [f] has been called and the error is that of [g]; otherwise both
    calls have been made and their promises are awaited together. *)
Definition await_all {A B} (ca : Call) (pa : Answer A) (cb : Call) (pb : Answer B)
    : Async (A * B) :=
  fun rt =>
    match pa, pb with
    | ThrowsSync e, _ => {| calls := [ca]; after := rt; outcome := Throw e |}
    | _, ThrowsSync e => {| calls := [ca; cb]; after := rt; outcome := Throw e |}
    | _, _ => {| calls := [ca; cb]; after := rt; outcome := Promise_all pa pb |}
    end.

(** [new Date()] and [dayjs()]. *)
Definition clock : Async Z :=
  fun rt => {| calls := []; after := rt; outcome := Ok (now rt) |}.

(** [{ ...r, device }] for every element of a device batch, in order. *)
Fixpoint withDevice (d : DeviceData) (l : list PatientRecord) (ref : nat)
    : list PatientRecordWithDeviceData :=
  match l with
  | [] => []
  | r :: l' => {| oid := ref; data := r; device := d |} :: withDevice d l' (S ref)
  end.

Fixpoint flatMapRecords (batches : list DeviceRecords) (ref : nat)
    : list PatientRecordWithDeviceData :=
  match batches with
  | [] => []
  | b :: batches' =>
      withDevice (batch_device b) (batch_data b) ref
        ++ flatMapRecords batches' (ref + length (batch_data b))
  end.

Definition allocRecords (batches : list DeviceRecords)
    : Async (list PatientRecordWithDeviceData) :=
  fun rt =>
    let records := flatMapRecords batches (nextRef rt) in
    {| calls := [];
       after := {| nextRef := nextRef rt + length records; now := now rt |};
       outcome := Ok records |}.

Definition EntriesHandler : Type := list Entry -> Result (list Entry).
Definition ProfileLoader : Type := unit -> Result Profile.
(** The two handlers that are called inside [Promise.all]. *)
Definition TreatmentsHandler : Type := list Treatment -> Answer (option (list Treatment)).
Definition ProfileHandler : Type := Profile -> Answer Profile.

(** [config]: the part of [./config] the code reads.  The module is not among
    the sources; its values are parameters of the embedding. *)
Record Config : Type := {
  config_diasend_username : option string;
  config_diasend_password : option string;
  config_diasend_clientId : string;
  config_diasend_clientSecret : string;
  config_nightscout_profileName : option string;
}.

(** The functions imported from [./diasend] and [./nightscout].  They perform
    the network requests and are not among the sources: parameters of the
    embedding, each returning or throwing. *)
Record Services : Type := {
  obtainDiasendAccessToken : string -> string -> string -> string -> Result string;
  getPatientData : string -> Z -> Z -> Result (list DeviceRecords);
  getAuthenticatedScrapingClient : string -> string -> Result string;
  getPumpSettings : string -> Result PumpSettings;
  reportEntriesToNightscout : EntriesHandler;
  reportTreatmentsToNightscout : TreatmentsHandler;
  fetchProfile : ProfileLoader;
  updateProfile : ProfileHandler;
}.

(** The functions imported from [./adapter], which is not among the sources:
    parameters of the embedding.  [SpecAdapter] below gives them the
    behaviour the specification describes. *)
Record Adapter : Type := {
  diasendRecordToNightscoutTreatment : Resolver;
  diasendGlucoseRecordToNightscoutEntry : PatientRecordWithDeviceData -> Entry;
  updateBasalProfile :
    list TimeBasedValue -> list PatientRecordWithDeviceData -> list TimeBasedValue;
  updateNightScoutProfileWithPumpSettings :
    Profile -> PumpSettings -> bool -> string -> Profile;
}.

(** The argument bag of the two cycle functions: [BaseSyncDiasendArgs],
    [SyncDiasendGlucoseToNightscoutArgs], [SyncDiasendDataToNightScoutArgs] and
    [NightscoutProfileOptions] together; [None] is an absent property. *)
Record SyncArgs : Type := {
  diasendUsername : option string;
  diasendPassword : option string;
  diasendClientId : option string;
  diasendClientSecret : option string;
  dateFrom : option Z;
  dateTo : option Z;
  nightscoutEntriesHandler : option EntriesHandler;
  nightscoutTreatmentsHandler : option TreatmentsHandler;
  previousRecords : option (list PatientRecordWithDeviceData);
  nightscoutProfileName : option string;
  nightscoutProfileLoader : option ProfileLoader;
  nightscoutProfileHandler : option ProfileHandler;
}.

Definition noArgs : SyncArgs :=
  {| diasendUsername := None; diasendPassword := None;
     diasendClientId := None; diasendClientSecret := None;
     dateFrom := None; dateTo := None;
     nightscoutEntriesHandler := None; nightscoutTreatmentsHandler := None;
     previousRecords := None; nightscoutProfileName := None;
     nightscoutProfileLoader := None; nightscoutProfileHandler := None |}.

(** [!s] for an optional string: [undefined] and [""] are falsy. *)
Definition notConfigured (s : option string) : bool :=
  match s with
  | None => true
  | Some s => if decide (s = "") then true else false
  end.

(** A parameter default: it applies when the argument is [undefined]. *)
Definition orDefault {A} (arg : option A) (dflt : A) : A :=
  match arg with Some a => a | None => dflt end.

(** A parameter default that may itself be [undefined]. *)
Definition orElse {A} (arg dflt : option A) : option A :=
  match arg with Some a => Some a | None => dflt end.

(** [ToPropertyKey] of an optional string: [undefined] becomes ["undefined"]. *)
Definition propertyKey (s : option string) : string := orDefault s "undefined".

Definition withDateFrom (args : SyncArgs) (d : option Z) : SyncArgs :=
  {| diasendUsername := diasendUsername args; diasendPassword := diasendPassword args;
     diasendClientId := diasendClientId args;
     diasendClientSecret := diasendClientSecret args;
     dateFrom := d; dateTo := dateTo args;
     nightscoutEntriesHandler := nightscoutEntriesHandler args;
     nightscoutTreatmentsHandler := nightscoutTreatmentsHandler args;
     previousRecords := previousRecords args;
     nightscoutProfileName := nightscoutProfileName args;
     nightscoutProfileLoader := nightscoutProfileLoader args;
     nightscoutProfileHandler := nightscoutProfileHandler args |}.

Definition withDateTo (args : SyncArgs) (d : option Z) : SyncArgs :=
  {| diasendUsername := diasendUsername args; diasendPassword := diasendPassword args;
     diasendClientId := diasendClientId args;
     diasendClientSecret := diasendClientSecret args;
     dateFrom := dateFrom args; dateTo := d;
     nightscoutEntriesHandler := nightscoutEntriesHandler args;
     nightscoutTreatmentsHandler := nightscoutTreatmentsHandler args;
     previousRecords := previousRecords args;
     nightscoutProfileName := nightscoutProfileName args;
     nightscoutProfileLoader := nightscoutProfileLoader args;
     nightscoutProfileHandler := nightscoutProfileHandler args |}.

Definition withPreviousRecords (args : SyncArgs)
    (l : option (list PatientRecordWithDeviceData)) : SyncArgs :=
  {| diasendUsername := diasendUsername args; diasendPassword := diasendPassword args;
     diasendClientId := diasendClientId args;
     diasendClientSecret := diasendClientSecret args;
     dateFrom := dateFrom args; dateTo := dateTo args;
     nightscoutEntriesHandler := nightscoutEntriesHandler args;
     nightscoutTreatmentsHandler := nightscoutTreatmentsHandler args;
     previousRecords := l;
     nightscoutProfileName := nightscoutProfileName args;
     nightscoutProfileLoader := nightscoutProfileLoader args;
     nightscoutProfileHandler := nightscoutProfileHandler args |}.

(** The comparators handed to [sort]: latest first. *)
Definition byDateDescending (a b : Entry) : Z := (date b - date a)%Z.
Definition byCreatedAtDescending (r1 r2 : PatientRecordWithDeviceData) : Z :=
  (rcreated_at r2 - rcreated_at r1)%Z.

Definition isGlucose (r : PatientRecordWithDeviceData) : bool :=
  bool_decide (rtype r = glucose).
Definition isBasal (r : PatientRecordWithDeviceData) : bool :=
  bool_decide (rtype r = insulin_basal).

(** [const interval = 5 * 60 * 1000]. *)
Definition interval : Z := (5 * 60 * 1000)%Z.

Module Glucose.
(** What [syncDiasendGlucoseToNightscout] resolves to. *)
Record result : Type := {
  entries : list Entry;
  latestRecordDate : option Z;
}.
End Glucose.

Module Sync.
(** What [syncDiasendDataToNightscout] resolves to. *)
Record result : Type := {
  treatments : list Treatment;
  profile : Profile;
  latestRecordDate : option Z;
  unprocessedRecords : list PatientRecordWithDeviceData;
}.
End Sync.

(** ** Property lookup on a dictionary object *)

(** The string-keyed members every plain object inherits from
    [Object.prototype]. *)
Definition Object_prototype : list string :=
  ["constructor"; "hasOwnProperty"; "isPrototypeOf"; "propertyIsEnumerable";
   "toLocaleString"; "toString"; "valueOf"; "__proto__";
   "__defineGetter__"; "__defineSetter__"; "__lookupGetter__"; "__lookupSetter__"].

(** What [o[k]] finds on a plain object [o]: an own property, a member of
    [Object.prototype], or nothing ([undefined]). *)
Inductive Property (A : Type) : Type :=
| OwnProperty (a : A)
| InheritedProperty
| NoProperty.
Arguments OwnProperty {A} a.
Arguments InheritedProperty {A}.
Arguments NoProperty {A}.

Definition getProperty {A} (o : gmap string A) (k : string) : Property A :=
  match o !! k with
  | Some a => OwnProperty a
  | None => if bool_decide (k ∈ Object_prototype) then InheritedProperty else NoProperty
  end.

(** [k in o]: own and inherited properties alike. *)
Definition hasProperty {A} (o : gmap string A) (k : string) : bool :=
  match getProperty o k with
  | NoProperty => false
  | _ => true
  end.

(** A member of [Object.prototype] read as a [ProfileConfig]: it has no
    [basal] and no own enumerable property for a spread to copy. *)
Definition inheritedMember : ProfileConfig :=
  {| basal := None; config_fields := ∅ |}.

(** [existingProfileConfig], as the code goes on to use it; [None] is
    [undefined]. *)
Definition asProfileConfig (p : Property ProfileConfig) : option ProfileConfig :=
  match p with
  | OwnProperty c => Some c
  | InheritedProperty => Some inheritedMember
  | NoProperty => None
  end.

(** [{ ...existingProfileConfig, basal }]. *)
Definition withBasal (c : ProfileConfig) (b : list TimeBasedValue) : ProfileConfig :=
  {| basal := Some b; config_fields := config_fields c |}.

(** [{ ...existingProfile, store }]. *)
Definition withStore (p : Profile) (s : gmap string ProfileConfig) : Profile :=
  {| defaultProfile := defaultProfile p; store := s; profile_fields := profile_fields p |}.

Section Cycles.
Context (config : Config) (services : Services) (adapter : Adapter).

Definition getDiasendPatientData (diasendUsername diasendPassword : option string)
    (diasendClientId diasendClientSecret : string) (dateFrom dateTo : Z)
    : Async (list PatientRecordWithDeviceData) :=
  if notConfigured diasendUsername then throw "Diasend Username not configured"
  else if notConfigured diasendPassword then throw "Diasend Password not configured"
  else
    let username := orDefault diasendUsername "" in
    let password := orDefault diasendPassword "" in
    let* diasendAccessToken :=
      await (CallObtainDiasendAccessToken diasendClientId diasendClientSecret
               username password)
            (obtainDiasendAccessToken services diasendClientId diasendClientSecret
               username password) in
    let* records :=
      await (CallGetPatientData diasendAccessToken dateFrom dateTo)
            (getPatientData services diasendAccessToken dateFrom dateTo) in
    allocRecords records.

Definition syncDiasendGlucoseToNightscout (args : SyncArgs) : Async Glucose.result :=
  let* today := clock in
  let diasendUsername := orElse (diasendUsername args) (config_diasend_username config) in
  let diasendPassword := orElse (diasendPassword args) (config_diasend_password config) in
  let diasendClientId := orDefault (diasendClientId args) (config_diasend_clientId config) in
  let diasendClientSecret :=
    orDefault (diasendClientSecret args) (config_diasend_clientSecret config) in
  let nightscoutEntriesHandler :=
    orDefault (nightscoutEntriesHandler args) (reportEntriesToNightscout services) in
  let dateFrom := orDefault (dateFrom args) (today - 10 * 60 * 1000)%Z in
  let dateTo := orDefault (dateTo args) today in
  let* records :=
    getDiasendPatientData diasendUsername diasendPassword diasendClientId
      diasendClientSecret dateFrom dateTo in
  let nightscoutEntries :=
    map (diasendGlucoseRecordToNightscoutEntry adapter) (List.filter isGlucose records) in
  let* entries :=
    await (CallEntriesHandler nightscoutEntries)
          (nightscoutEntriesHandler nightscoutEntries) in
  if (0 <? length entries)%nat then
    let sorted := Array_sort byDateDescending entries in
    ret {| Glucose.entries := sorted;
           Glucose.latestRecordDate := date <$> head sorted |}
  else
    ret {| Glucose.entries := entries; Glucose.latestRecordDate := None |}.

Definition syncDiasendDataToNightscout (args : SyncArgs) : Async Sync.result :=
  let* today := clock in
  let diasendUsername := orElse (diasendUsername args) (config_diasend_username config) in
  let diasendPassword := orElse (diasendPassword args) (config_diasend_password config) in
  let diasendClientId := orDefault (diasendClientId args) (config_diasend_clientId config) in
  let diasendClientSecret :=
    orDefault (diasendClientSecret args) (config_diasend_clientSecret config) in
  let nightscoutTreatmentsHandler :=
    orDefault (nightscoutTreatmentsHandler args) (reportTreatmentsToNightscout services) in
  let nightscoutProfileName :=
    propertyKey
      (orElse (nightscoutProfileName args) (config_nightscout_profileName config)) in
  let nightscoutProfileHandler :=
    orDefault (nightscoutProfileHandler args) (updateProfile services) in
  let nightscoutProfileLoader :=
    orDefault (nightscoutProfileLoader args) (fetchProfile services) in
  let dateFrom := orDefault (dateFrom args) (today - 10 * 60 * 1000)%Z in
  let dateTo := orDefault (dateTo args) today in
  let previousRecords := orDefault (previousRecords args) [] in
  let* fetched :=
    getDiasendPatientData diasendUsername diasendPassword diasendClientId
      diasendClientSecret dateFrom dateTo in
  let records := List.filter (fun r => negb (isGlucose r)) fetched in
  (* [sort] reorders [records] in place *)
  let sorted :=
    if (0 <? length records)%nat then Array_sort byCreatedAtDescending records
    else records in
  let latestRecordDate :=
    if (0 <? length records)%nat then rcreated_at <$> head sorted else None in
  (* [records.unshift(...previousRecords)] *)
  let records := previousRecords ++ sorted in
  let* identified :=
    lift (identifyTreatments (diasendRecordToNightscoutTreatment adapter) records) in
  let* existingProfile := await CallProfileLoader (nightscoutProfileLoader tt) in
  let existingProfileConfig :=
    asProfileConfig
      (if hasProperty (store existingProfile) nightscoutProfileName
       then getProperty (store existingProfile) nightscoutProfileName
       else getProperty (store existingProfile) (defaultProfile existingProfile)) in
  let basalRecords := List.filter isBasal records in
  match existingProfileConfig with
  | None => throw "TypeError: Cannot read properties of undefined (reading 'basal')"
  | Some existingProfileConfig =>
      let updatedBasalProfile :=
        updateBasalProfile adapter
          (orDefault (basal existingProfileConfig) []) basalRecords in
      let updatedProfile :=
        withStore existingProfile
          (<[nightscoutProfileName := withBasal existingProfileConfig updatedBasalProfile]>
             (store existingProfile)) in
      let* reported :=
        await_all
          (CallTreatmentsHandler (treatments identified))
          (nightscoutTreatmentsHandler (treatments identified))
          (CallProfileHandler updatedProfile)
          (nightscoutProfileHandler updatedProfile) in
      ret {| Sync.treatments := orDefault (fst reported) [];
             Sync.profile := snd reported;
             Sync.latestRecordDate := latestRecordDate;
             Sync.unprocessedRecords :=
               List.filter
                 (fun record =>
                    (Array_indexOf same_object previousRecords record =? -1)%Z)
                 (unprocessedRecords identified) |}
  end.

(** The step function of the "Entries" loop. *)
Definition entriesStep (state : SyncArgs) : Async SyncArgs :=
  let args := withDateTo state None in
  let* r := syncDiasendGlucoseToNightscout (withDateTo args (dateTo state)) in
  ret (withDateFrom args
         match Glucose.latestRecordDate r with
         | Some latestRecordDate => Some (latestRecordDate + 1000)%Z
         | None => dateFrom args
         end).

(** The step function of the "Treatments" loop. *)
Definition treatmentsStep (state : SyncArgs) : Async SyncArgs :=
  let args := withDateTo state None in
  let* r := syncDiasendDataToNightscout (withDateTo args (dateTo state)) in
  ret (withPreviousRecords
         (withDateFrom args
            match Sync.latestRecordDate r with
            | Some latestRecordDate => Some (latestRecordDate + 1000)%Z
            | None => dateFrom args
            end)
         (Some (Sync.unprocessedRecords r))).
End Cycles.

(** ** The Looper and the two entry points *)

(** Modelled from the spec: [Looper.ts] is not among the sources.  Section
    4.1: a looper is built from a polling interval, a step function and a
    label; [loop] invokes the step with the current state, waits, and repeats
    with the returned state.  What happens when a step fails is left open by
    the spec, which lists three policies. *)
Record Looper (S : Type) : Type := {
  intervalMs : Z;
  loopingFun : S -> Async S;
  label : string;
}.
Arguments intervalMs {S} _.
Arguments loopingFun {S} _.
Arguments label {S} _.

(** Modelled from the spec: a looper on which [loop(initialState)] has been
    called. *)
Record Loop (S : Type) : Type := {
  looper : Looper S;
  initialState : S;
}.
Arguments looper {S} _.
Arguments initialState {S} _.

(** Modelled from the spec: the three policies on a failed step that Section
    4.1 leaves the implementer to choose from. *)
Inductive StepFailurePolicy : Type :=
| LogAndContinue
| LogAndRetryImmediately
| PropagateAndTerminate.

(** Modelled from the spec: the wait between two iterations.  How long a step
    takes is not modelled; the next iteration starts one interval later. *)
Definition afterWaiting {S} (L : Looper S) (rt : Runtime) : Runtime :=
  {| nextRef := nextRef rt; now := (now rt + Z.max 0 (intervalMs L))%Z |}.

(** Modelled from the spec: [Looper.loop] of [Looper.ts].  The iterations a
    loop performs when [stop] takes effect after [iterations] of them, one
    [Run] per invocation of the step; each iteration starts from the state
    the previous one returned. *)
Fixpoint Looper_loop {S} (policy : StepFailurePolicy) (L : Looper S)
    (iterations : nat) (state : S) (rt : Runtime) : list (Run S) :=
  match iterations with
  | O => []
  | S n =>
      let r := loopingFun L state rt in
      r :: match outcome r with
           | Ok state' => Looper_loop policy L n state' (afterWaiting L (after r))
           | Throw _ =>
               match policy with
               | LogAndContinue => Looper_loop policy L n state (afterWaiting L (after r))
               | LogAndRetryImmediately => Looper_loop policy L n state (after r)
               | PropagateAndTerminate => []
               end
           end
  end.

(** The arguments of [startPumpSettingsSynchronization]. *)
Record PumpSettingsArgs : Type := {
  pump_diasendUsername : option string;
  pump_diasendPassword : option string;
  pump_pollingIntervalMs : option Z;
  pump_nightscoutProfileName : option string;
  pump_nightscoutProfileLoader : option ProfileLoader;
  pump_nightscoutProfileHandler : option ProfileHandler;
  pump_importBasalRate : option bool;
}.

Section EntryPoints.
Context (config : Config) (services : Services) (adapter : Adapter).

(** [startSynchronization] builds both loopers and calls [loop] on each; the
    function it returns only stops them.  The model returns the loops that
    were started. *)
Definition startSynchronization (pollingIntervalMs : option Z) (args : SyncArgs)
    (rt : Runtime) : Result (list (Loop SyncArgs)) :=
  let pollingIntervalMs := orDefault pollingIntervalMs interval in
  let dateFrom := orDefault (dateFrom args) (now rt - interval)%Z in
  let entriesLoop :=
    {| looper := {| intervalMs := pollingIntervalMs;
                    loopingFun := entriesStep config services adapter;
                    label := "Entries" |};
       initialState := withDateFrom args (Some dateFrom) |} in
  let treatmentsLoop :=
    {| looper := {| intervalMs := pollingIntervalMs;
                    loopingFun := treatmentsStep config services adapter;
                    label := "Treatments" |};
       initialState := withDateFrom args (Some dateFrom) |} in
  Ok [entriesLoop; treatmentsLoop].

(** The step function of the "Pump Settings" loop. *)
Definition pumpSettingsStep (diasendUsername diasendPassword : string)
    (nightscoutProfileName : string) (nightscoutProfileLoader : ProfileLoader)
    (nightscoutProfileHandler : ProfileHandler) (importBasalRate : bool)
    (_ : unit) : Async unit :=
  let* userId :=
    await (CallGetAuthenticatedScrapingClient diasendUsername diasendPassword)
          (getAuthenticatedScrapingClient services diasendUsername diasendPassword) in
  let* pumpSettings :=
    await (CallGetPumpSettings userId) (getPumpSettings services userId) in
  let* existing := await CallProfileLoader (nightscoutProfileLoader tt) in
  let updatedNightscoutProfile :=
    updateNightScoutProfileWithPumpSettings adapter existing pumpSettings
      importBasalRate nightscoutProfileName in
  let* _ :=
    await (CallProfileHandler updatedNightscoutProfile)
          (settled (nightscoutProfileHandler updatedNightscoutProfile)) in
  ret tt.

(** [startPumpSettingsSynchronization]: throws, returns [undefined] without
    starting a loop, or starts its loop. *)
Definition startPumpSettingsSynchronization (args : PumpSettingsArgs)
    : Result (list (Loop unit)) :=
  let diasendUsername :=
    orElse (pump_diasendUsername args) (config_diasend_username config) in
  let diasendPassword :=
    orElse (pump_diasendPassword args) (config_diasend_password config) in
  let pollingIntervalMs := orDefault (pump_pollingIntervalMs args) (12 * 3600 * 1000)%Z in
  let nightscoutProfileName :=
    orElse (pump_nightscoutProfileName args) (config_nightscout_profileName config) in
  let nightscoutProfileLoader :=
    orDefault (pump_nightscoutProfileLoader args) (fetchProfile services) in
  let nightscoutProfileHandler :=
    orDefault (pump_nightscoutProfileHandler args) (updateProfile services) in
  let importBasalRate := orDefault (pump_importBasalRate args) true in
  if notConfigured diasendUsername then Throw "Diasend Username not configured"
  else if notConfigured diasendPassword then Throw "Diasend Password not configured"
  else if notConfigured nightscoutProfileName then Ok []
  else
    Ok [{| looper :=
             {| intervalMs := pollingIntervalMs;
                loopingFun :=
                  pumpSettingsStep (orDefault diasendUsername "")
                    (orDefault diasendPassword "")
                    (orDefault nightscoutProfileName "")
                    nightscoutProfileLoader nightscoutProfileHandler importBasalRate;
                label := "Pump Settings" |};
           initialState := tt |}].
End EntryPoints.

(** ** The adapter, as the specification describes it *)

Module SpecAdapter.

(** Modelled from the spec: Section 4.2, "kind-complementary". *)
Definition complementary (a b : RecordType) : bool :=
  match a, b with
  | carb, insulin_bolus | insulin_bolus, carb => true
  | _, _ => false
  end.

(** Modelled from the spec: Section 4.2, a counterpart is "a same-device,
    kind-complementary record within a bounded time proximity". *)
Definition correlates (proximity : Z) (r c : PatientRecordWithDeviceData) : bool :=
  bool_decide (device c = device r)
  && complementary (rtype r) (rtype c)
  && (Z.abs (rcreated_at c - rcreated_at r) <=? proximity)%Z.

(** Modelled from the spec: the record a MealBolusTreatment pairs with
    [record], "a same-device, kind-complementary record within a bounded
    time proximity" of Section 4.2.  When several records correlate the spec
    gives no rule (Section 9, open question); the first of the batch is
    taken. *)
Definition counterpartOf (proximity : Z)
    (allRecords : list PatientRecordWithDeviceData)
    (record : PatientRecordWithDeviceData) : option PatientRecordWithDeviceData :=
  List.find (correlates proximity record) allRecords.

(** Modelled from the spec: the bolus record [bolus] emits a
    MealBolusTreatment that references [record]. *)
Definition pairedWith (proximity : Z) (allRecords : list PatientRecordWithDeviceData)
    (record bolus : PatientRecordWithDeviceData) : bool :=
  bool_decide (rtype bolus = insulin_bolus)
  && bool_decide (is_Some (value (data bolus)))
  && bool_decide (counterpartOf proximity allRecords bolus = Some record).

(** Modelled from the spec: [diasendRecordToNightscoutTreatment] of
    [adapter.ts], which is not among the sources.  Section 4.2: with a
    counterpart a MealBolusTreatment referencing both records is emitted,
    and the counterpart is not emitted on its own; without one the
    single-record correction treatment is emitted; resolution fails when a
    required field is missing, of the record or of the counterpart its
    treatment needs.  The spec leaves the proximity bound open (a parameter
    here) and does not say which of the two records emits the meal bolus:
    here the bolus record does, and the carb record it references yields
    [undefined].  A carb record that no meal bolus references is emitted on
    its own.  The other causes of failure the spec mentions are not
    described well enough to be modelled. *)
Definition diasendRecordToNightscoutTreatment (proximity : Z) : Resolver :=
  fun record allRecords =>
    match value (data record) with
    | None => Throw "missing required field"
    | Some _ =>
        match rtype record with
        | insulin_bolus =>
            match counterpartOf proximity allRecords record with
            | Some counterpart =>
                match value (data counterpart) with
                | Some _ => Ok (Some (MealBolusTreatment counterpart record))
                | None => Throw "missing required field"
                end
            | None => Ok (Some (CorrectionBolusTreatment record))
            end
        | carb =>
            if existsb (pairedWith proximity allRecords record) allRecords
            then Ok None
            else Ok (Some (CarbCorrectionTreatment record))
        | _ => Ok None
        end
    end.

(** Modelled from the spec: [diasendGlucoseRecordToNightscoutEntry] of
    [adapter.ts].  Section 3: an entry is produced 1:1 from a glucose
    record. *)
Definition diasendGlucoseRecordToNightscoutEntry (r : PatientRecordWithDeviceData)
    : Entry :=
  {| date := rcreated_at r;
     sgv := orDefault (value (data r)) 0%Z;
     entry_device := serial (device r) |}.

Section BasalMerge.
(** How an observed basal record becomes a (time-of-day, rate) pair is an
    open question of the spec (bucketing granularity): a parameter. *)
Variable toTimeBasedValue : PatientRecordWithDeviceData -> TimeBasedValue.

Definition toPair (v : TimeBasedValue) : nat * Z := (time v, rate v).
Definition ofPair (p : nat * Z) : TimeBasedValue := {| time := p.1; rate := p.2 |}.

(** Modelled from the spec: the schedule a sequence of pairs denotes when a
    later pair overrides an earlier one with the same time of day. *)
Definition laterWins (l : list (nat * Z)) : gmap nat Z :=
  list_to_map (reverse l).

Definition earlierTime (a b : nat * Z) : Prop := a.1 <= b.1.

#[global] Instance earlierTime_dec a b : Decision (earlierTime a b).
Proof. unfold earlierTime. apply _. Defined.

(** Modelled from the spec: the schedule as a sequence ordered by time of
    day, ascending. *)
Definition scheduleOf (m : gmap nat Z) : list TimeBasedValue :=
  ofPair <$> merge_sort earlierTime (map_to_list m).

(** Modelled from the spec: [updateBasalProfile] of [adapter.ts], which is
    not among the sources.  Section 4.3: the observed records are
    converted into pairs; a new pair overrides an existing pair with the
    same time of day, the other existing pairs are retained, and the
    result is sorted by time of day without duplicates; the existing
    schedule is not modified, a new sequence is returned. *)
Definition updateBasalProfile (basalProfile : list TimeBasedValue)
    (basalRecords : list PatientRecordWithDeviceData) : list TimeBasedValue :=
  scheduleOf
    (laterWins ((toPair <$> basalProfile)
                  ++ (toPair <$> (toTimeBasedValue <$> basalRecords)))).
End BasalMerge.

(** Modelled from the spec: the bucketing Section 4.3 gives as an example,
    the minute of the day. *)
Definition minuteOfDay (r : PatientRecordWithDeviceData) : TimeBasedValue :=
  {| time := Z.to_nat ((rcreated_at r / 60000) mod 1440);
     rate := orDefault (value (data r)) 0%Z |}.

(** Modelled from the spec: [updateNightScoutProfileWithPumpSettings] of
    [adapter.ts].  Section 4.4: the pump-settings pipeline merges the basal
    schedule of the scraped settings into the named profile when the flag
    is set. *)
Definition updateNightScoutProfileWithPumpSettings (p : Profile) (s : PumpSettings)
    (importBasalRate : bool) (nightscoutProfileName : string) : Profile :=
  match store p !! nightscoutProfileName with
  | Some c =>
      if importBasalRate
      then withStore p (<[nightscoutProfileName := withBasal c (pump_basal s)]> (store p))
      else p
  | None => p
  end.

Definition adapter (proximity : Z) : Adapter :=
  Build_Adapter
    (diasendRecordToNightscoutTreatment proximity)
    diasendGlucoseRecordToNightscoutEntry
    (updateBasalProfile minuteOfDay)
    updateNightScoutProfileWithPumpSettings.
End SpecAdapter.

(** ** What the claims speak about *)

(** The three outcomes of resolving one record against the batch. *)
Definition resolvedTreatment (resolve : Resolver)
    (allRecords : list PatientRecordWithDeviceData)
    (r : PatientRecordWithDeviceData) : option Treatment :=
  match resolve r allRecords with
  | Ok (Some t) => Some t
  | _ => None
  end.

Definition deferred (resolve : Resolver)
    (allRecords : list PatientRecordWithDeviceData)
    (r : PatientRecordWithDeviceData) : bool :=
  match resolve r allRecords with
  | Throw _ => true
  | Ok _ => false
  end.

Definition skipped (resolve : Resolver)
    (allRecords : list PatientRecordWithDeviceData)
    (r : PatientRecordWithDeviceData) : bool :=
  match resolve r allRecords with
  | Ok None => true
  | _ => false
  end.

(** A record contributes to a list of treatments when one of them references
    it. *)
Definition contributesTo (r : PatientRecordWithDeviceData) (ts : list Treatment) : Prop :=
  exists t, In t ts /\ In r (contributors t).

(** Partition completeness as the specification words it: every carb or bolus
    record of the batch contributes to a treatment or is unprocessed, and not
    both. *)
Definition partitionComplete (records : list PatientRecordWithDeviceData)
    (out : Identified) : Prop :=
  forall r, In r records -> isCarbOrBolus r = true ->
    (contributesTo r (treatments out) /\ ~ In r (unprocessedRecords out))
    \/ (~ contributesTo r (treatments out) /\ In r (unprocessedRecords out)).


(** Modelled from the spec: Section 4.2, "the counterpart must not be
    independently re-emitted", and Section 7, a record is "never dropped
    silently": no treatment is returned for a record only when the record is
    the counterpart in the treatment of another record of the batch. *)
Definition undefinedOnlyForCounterpart (resolve : Resolver)
    (allRecords : list PatientRecordWithDeviceData) : Prop :=
  forall r, In r allRecords -> resolve r allRecords = Ok None ->
    exists r' t, In r' allRecords /\ resolve r' allRecords = Ok (Some t)
                 /\ In r (contributors t).

(** Modelled from the spec: Section 3, an unresolved record "never
    duplicates an identity already resolved in that same cycle": a record
    whose resolution fails is in no treatment returned for the batch. *)
Definition failedNotReferenced (resolve : Resolver)
    (allRecords : list PatientRecordWithDeviceData) : Prop :=
  forall r e, In r allRecords -> resolve r allRecords = Throw e ->
    forall r' t, In r' allRecords -> resolve r' allRecords = Ok (Some t) ->
      ~ In r (contributors t).


(** ** Concrete batches and collaborators used in the examples *)

Module Records.
Definition pump : DeviceData := {| serial := "pump" |}.

Definition mkRecord (ref : nat) (k : RecordType) (t : Z) (v : option Z)
    : PatientRecordWithDeviceData :=
  {| oid := ref;
     data := {| type := k; created_at := t; value := v |};
     device := pump |}.

(** Five minutes; the scenario of Section 8 pairs records two minutes
    apart. *)
Definition proximity : Z := 300000%Z.

Definition resolver : Resolver :=
  SpecAdapter.diasendRecordToNightscoutTreatment proximity.

(** One bolus and two carb records of one device at the same instant. *)
Definition bolus : PatientRecordWithDeviceData := mkRecord 0 insulin_bolus 1000 (Some 4%Z).
Definition carbs1 : PatientRecordWithDeviceData := mkRecord 1 carb 1000 (Some 30%Z).
Definition carbs2 : PatientRecordWithDeviceData := mkRecord 2 carb 1000 (Some 15%Z).
Definition meal : list PatientRecordWithDeviceData := [bolus; carbs1; carbs2].

(** A bolus whose amount is missing, after a lone carb record and before a
    lone bolus an hour later. *)
Definition lateCarbs : PatientRecordWithDeviceData := mkRecord 3 carb 0 (Some 10%Z).
Definition brokenBolus : PatientRecordWithDeviceData :=
  mkRecord 4 insulin_bolus 1800000 None.
Definition correction : PatientRecordWithDeviceData :=
  mkRecord 5 insulin_bolus 3600000 (Some 2%Z).
Definition mixed : list PatientRecordWithDeviceData :=
  [lateCarbs; brokenBolus; correction].
End Records.

(** ** The stages of one treatments cycle, by name *)

(** The latest of a list of timestamps; [None] for the empty list. *)
Fixpoint latest (l : list Z) : option Z :=
  match l with
  | [] => None
  | t :: l' => Some (match latest l' with Some m => Z.max t m | None => t end)
  end.

Section CycleStages.
Context (config : Config) (services : Services) (adapter : Adapter).

(** The fetch a cycle begins with, the parameter defaults applied. *)
Definition cycleFetch (args : SyncArgs) (rt : Runtime)
    : Run (list PatientRecordWithDeviceData) :=
  getDiasendPatientData services
    (orElse (diasendUsername args) (config_diasend_username config))
    (orElse (diasendPassword args) (config_diasend_password config))
    (orDefault (diasendClientId args) (config_diasend_clientId config))
    (orDefault (diasendClientSecret args) (config_diasend_clientSecret config))
    (orDefault (dateFrom args) (now rt - 10 * 60 * 1000)%Z)
    (orDefault (dateTo args) (now rt))
    rt.

(** The freshly fetched records the treatments cycle keeps. *)
Definition freshRecords (fetched : list PatientRecordWithDeviceData)
    : list PatientRecordWithDeviceData :=
  List.filter (fun r => negb (isGlucose r)) fetched.

(** [records] once the carried-forward records are put in front. *)
Definition cycleRecords (args : SyncArgs) (fetched : list PatientRecordWithDeviceData)
    : list PatientRecordWithDeviceData :=
  orDefault (previousRecords args) []
    ++ Array_sort byCreatedAtDescending (freshRecords fetched).

Definition cycleProfileName (args : SyncArgs) : string :=
  propertyKey (orElse (nightscoutProfileName args) (config_nightscout_profileName config)).

(** [existingProfileConfig]; [None] is [undefined]. *)
Definition mergeBase (name : string) (existingProfile : Profile) : option ProfileConfig :=
  asProfileConfig
    (if hasProperty (store existingProfile) name
     then getProperty (store existingProfile) name
     else getProperty (store existingProfile) (defaultProfile existingProfile)).

(** The treatments a cycle hands to the treatments handler. *)
Definition cycleTreatments (args : SyncArgs) (fetched : list PatientRecordWithDeviceData)
    : list Treatment :=
  match identifyTreatments (diasendRecordToNightscoutTreatment adapter)
          (cycleRecords args fetched) with
  | Ok identified => treatments identified
  | Throw _ => []
  end.

(** [updatedProfile]. *)
Definition cycleProfile (name : string) (existingProfile : Profile)
    (existingProfileConfig : ProfileConfig)
    (records : list PatientRecordWithDeviceData) : Profile :=
  withStore existingProfile
    (<[name := withBasal existingProfileConfig
                 (updateBasalProfile adapter
                    (orDefault (basal existingProfileConfig) [])
                    (List.filter isBasal records))]>
       (store existingProfile)).
End CycleStages.

(** The records of a cycle's fresh fetch that did not end up among the
    unprocessed ones: those the cycle resolved or reported. *)
Definition reportedRecords (fetched : list PatientRecordWithDeviceData)
    (res : Sync.result) : list PatientRecordWithDeviceData :=
  List.filter
    (fun r => negb (existsb (same_object r) (Sync.unprocessedRecords res)))
    (freshRecords fetched).

(** The cursor rule as the specification words it: the latest timestamp among
    the resolved and reported records only. *)
Definition cursorOverReportedOnly (fetched : list PatientRecordWithDeviceData)
    (res : Sync.result) : Prop :=
  Sync.latestRecordDate res = latest (rcreated_at <$> reportedRecords fetched res).

Module Sample.
Import Records.

Definition config : Config :=
  {| config_diasend_username := Some "patient";
     config_diasend_password := Some "secret";
     config_diasend_clientId := "client";
     config_diasend_clientSecret := "client-secret";
     config_nightscout_profileName := Some "Diasend" |}.

Definition baseConfig : ProfileConfig :=
  {| basal := Some [{| time := 0; rate := 500%Z |}];
     config_fields := {["dia" := "4"]} |}.

Definition loadedProfile : Profile :=
  {| defaultProfile := "Default";
     store := {["Default" := baseConfig]};
     profile_fields := {["units" := "mmol"]} |}.

(** Collaborators that succeed: the source returns [batches], the sink
    echoes what it is sent and serves [loadedProfile]. *)
Definition services (batches : list DeviceRecords) : Services :=
  {| obtainDiasendAccessToken := fun _ _ _ _ => Ok "token";
     getPatientData := fun _ _ _ => Ok batches;
     getAuthenticatedScrapingClient := fun _ _ => Ok "user-id";
     getPumpSettings := fun _ => Ok {| pump_basal := [] |};
     reportEntriesToNightscout := fun entries => Ok entries;
     reportTreatmentsToNightscout := fun treatments => Fulfils (Some treatments);
     fetchProfile := fun _ => Ok loadedProfile;
     updateProfile := fun profile => Fulfils profile |}.

Definition adapter : Adapter := SpecAdapter.adapter proximity.

Definition start : Runtime := {| nextRef := 100; now := 7200000%Z |}.

Definition from (t : Z) : SyncArgs := withDateFrom noArgs (Some t).

(** A fetch whose only record is a bolus without its amount. *)
Definition brokenFetch : list DeviceRecords :=
  [{| batch_device := pump;
      batch_data := [{| type := insulin_bolus; created_at := 1800000; value := None |}] |}].

(** A fetch with a glucose reading, a basal rate, carbs and a bolus. *)
Definition dayFetch : list DeviceRecords :=
  [{| batch_device := pump;
      batch_data :=
        [{| type := glucose; created_at := 1000000; value := Some 110%Z |};
         {| type := insulin_basal; created_at := 1200000; value := Some 800%Z |};
         {| type := carb; created_at := 1500000; value := Some 30%Z |};
         {| type := insulin_bolus; created_at := 1500000; value := Some 4%Z |};
         {| type := glucose; created_at := 1900000; value := Some 140%Z |}] |}].
End Sample.

Module SecondCycle.
Import Records Sample.

(** A second cycle: the bolus deferred by the first one is handed back,
    and the source returns another bolus without its amount. *)
Definition retry : SyncArgs :=
  withPreviousRecords (from 1800001) (Some [brokenBolus]).

(** A profile that already has an entry under the configured name. *)
Definition namedProfile : Profile :=
  {| defaultProfile := "Default";
     store := {["Default" := baseConfig;
                "Diasend" := {| basal := None; config_fields := {["dia" := "5"]} |}]};
     profile_fields := {["units" := "mmol"]} |}.

Definition withProfile (p : Profile) : SyncArgs :=
  {| diasendUsername := None; diasendPassword := None;
     diasendClientId := None; diasendClientSecret := None;
     dateFrom := Some 0%Z; dateTo := None;
     nightscoutEntriesHandler := None; nightscoutTreatmentsHandler := None;
     previousRecords := None; nightscoutProfileName := None;
     nightscoutProfileLoader := Some (fun _ => Ok p);
     nightscoutProfileHandler := None |}.
End SecondCycle.

(** ** The two feeds of [startSynchronization] *)

Inductive Feed : Type := EntriesFeed | TreatmentsFeed.

Section Feeds.
Context (config : Config) (services : Services) (adapter : Adapter).

Definition stepOf (feed : Feed) : SyncArgs -> Async SyncArgs :=
  match feed with
  | EntriesFeed => entriesStep config services adapter
  | TreatmentsFeed => treatmentsStep config services adapter
  end.

(** The timestamps the [latestRecordDate] of a cycle is taken over: those of
    the entries the sink echoes in the entries feed; those of the freshly
    fetched records other than glucose records in the treatments feed,
    whether the cycle resolves them, defers them or merges them as basal
    records. *)
Definition cursorTimestamps (feed : Feed) (state : SyncArgs) (rt : Runtime)
    : Result (list Z) :=
  match feed with
  | EntriesFeed =>
      match outcome (syncDiasendGlucoseToNightscout config services adapter state rt) with
      | Ok r => Ok (date <$> Glucose.entries r)
      | Throw e => Throw e
      end
  | TreatmentsFeed =>
      match outcome (cycleFetch config services state rt) with
      | Ok fetched => Ok (rcreated_at <$> freshRecords fetched)
      | Throw e => Throw e
      end
  end.

(** The records a treatments cycle processes in the words of Section 4.4,
    "resolved/reported": the records its treatments are derived from and the
    basal records it merges into the profile, carried forward or fresh. *)
Definition processedRecords (state : SyncArgs) (rt : Runtime)
    : list PatientRecordWithDeviceData :=
  match outcome (cycleFetch config services state rt) with
  | Ok fetched =>
      flat_map contributors (cycleTreatments adapter state fetched)
        ++ List.filter isBasal (cycleRecords state fetched)
  | Throw _ => []
  end.

(** Cursor monotonicity as the specification words it, for a step of the
    treatments feed: when no fetched record is stamped before the current
    [dateFrom], the next [dateFrom] strictly exceeds it if the cycle
    processed a record, and equals it if the cycle processed none. *)
Definition cursorFollowsProcessed (state : SyncArgs) (rt : Runtime) : Prop :=
  forall d fetched next,
    dateFrom state = Some d ->
    outcome (cycleFetch config services state rt) = Ok fetched ->
    (forall r, In r fetched -> (d <= rcreated_at r)%Z) ->
    outcome (treatmentsStep config services adapter state rt) = Ok next ->
    (processedRecords state rt <> [] ->
       exists d', dateFrom next = Some d' /\ (d < d')%Z)
    /\ (processedRecords state rt = [] -> dateFrom next = Some d).
End Feeds.

(** ** Missing credentials *)

(** A credential is absent when, the configured default applied, it is
    [undefined] or empty. *)
Definition credentialsMissing (config : Config) (username password : option string)
    : bool :=
  notConfigured (orElse username (config_diasend_username config))
  || notConfigured (orElse password (config_diasend_password config)).

(** The start-up rule as the specification words it: the entry point fails and
    starts no loop. *)
Definition noLoopStarted {S} (r : Result (list (Loop S))) : Prop :=
  match r with
  | Throw _ => True
  | Ok loops => loops = []
  end.

(** A step that fails without having called any collaborator. *)
Definition failsBeforeAnyCall {S} (run : Run S) : Prop :=
  calls run = [] /\ exists e, outcome run = Throw e.

Module NoCredentials.
(** A configuration without a diasend username. *)
Definition config : Config :=
  {| config_diasend_username := None;
     config_diasend_password := Some "secret";
     config_diasend_clientId := "client";
     config_diasend_clientSecret := "client-secret";
     config_nightscout_profileName := Some "Diasend" |}.

Definition pumpArgs : PumpSettingsArgs :=
  {| pump_diasendUsername := None; pump_diasendPassword := None;
     pump_pollingIntervalMs := None; pump_nightscoutProfileName := None;
     pump_nightscoutProfileLoader := None; pump_nightscoutProfileHandler := None;
     pump_importBasalRate := None |}.
End NoCredentials.

(** ** Carry-forward along a run of the treatments loop *)

(** The references of the records a cycle hands to the next one; none when the
    step failed. *)
Definition carriedForward (run : Run SyncArgs) : list nat :=
  match outcome run with
  | Ok next => oid <$> orDefault (previousRecords next) []
  | Throw _ => []
  end.

(** ** The profile as objects *)

(** [Profile], its [store] and each [ProfileConfig] are separate objects; the
    loaded profile is reachable by whoever loaded it, so whether the cycle
    writes to those objects or builds new ones can be observed.  The object
    heap below makes the difference visible. *)
Module ProfileObjects.

Inductive Object : Type :=
| ProfileObject (defaultProfile : string) (store : nat) (fields : gmap string string)
| StoreObject (entries : gmap string nat)
| ConfigObject (basal : option (list TimeBasedValue)) (fields : gmap string string).

(** An object literal: a new object at a reference not in use. *)
Definition alloc (heap : gmap nat Object) (o : Object) : nat * gmap nat Object :=
  let ref := fresh (dom heap) in
  (ref, <[ref := o]> heap).

(** The three nested object literals of lines 217 to 226, with their
    spreads: a new configuration with the own properties of
    [existingProfileConfig] and the merged [basal], a new store with the
    entries of the loaded one and the new configuration under the name, and a
    new profile with the properties of the loaded one and the new store. *)
Definition objectLiterals (merged : list TimeBasedValue)
    (configFields : gmap string string) (nightscoutProfileName : string)
    (entries : gmap string nat) (defaultProfile : string)
    (fields : gmap string string) (heap : gmap nat Object) : nat * gmap nat Object :=
  let (newConfig, heap1) := alloc heap (ConfigObject (Some merged) configFields) in
  let (newStore, heap2) :=
    alloc heap1 (StoreObject (<[nightscoutProfileName := newConfig]> entries)) in
  alloc heap2 (ProfileObject defaultProfile newStore fields).

(** Lines 205 to 226 of [syncDiasendDataToNightscout] on objects:
    [existingProfileConfig] is looked up, an own entry of the store or a
    member of [Object.prototype], and [updatedProfile] is built.  [merge]
    stands for [updateBasalProfile(_, basalRecords)], which returns a new
    sequence.  [None] is a [TypeError] on a missing object. *)
Definition updatedProfile (merge : list TimeBasedValue -> list TimeBasedValue)
    (nightscoutProfileName : string) (heap : gmap nat Object) (existingProfile : nat)
    : option (nat * gmap nat Object) :=
  match heap !! existingProfile with
  | Some (ProfileObject defaultProfile storeRef fields) =>
      match heap !! storeRef with
      | Some (StoreObject entries) =>
          let existingProfileConfig :=
            if hasProperty entries nightscoutProfileName
            then getProperty entries nightscoutProfileName
            else getProperty entries defaultProfile in
          match existingProfileConfig with
          | OwnProperty configRef =>
              match heap !! configRef with
              | Some (ConfigObject basal configFields) =>
                  Some (objectLiterals (merge (orDefault basal [])) configFields
                          nightscoutProfileName entries defaultProfile fields heap)
              | _ => None
              end
          | InheritedProperty =>
              Some (objectLiterals (merge []) ∅
                      nightscoutProfileName entries defaultProfile fields heap)
          | NoProperty => None
          end
      | _ => None
      end
  | _ => None
  end.

(** The values the objects stand for. *)
Definition readConfig (heap : gmap nat Object) (ref : nat) : option ProfileConfig :=
  match heap !! ref with
  | Some (ConfigObject basal fields) => Some {| basal := basal; config_fields := fields |}
  | _ => None
  end.

Definition readProfile (heap : gmap nat Object) (ref : nat) : option Profile :=
  match heap !! ref with
  | Some (ProfileObject defaultProfile storeRef fields) =>
      match heap !! storeRef with
      | Some (StoreObject entries) =>
          if bool_decide (map_Forall (fun _ c => is_Some (readConfig heap c)) entries)
          then Some {| defaultProfile := defaultProfile;
                       store := omap (readConfig heap) entries;
                       profile_fields := fields |}
          else None
      | _ => None
      end
  | _ => None
  end.

(** Every object of [heap] is still there, unchanged, in [heap']. *)
Definition extends (heap heap' : gmap nat Object) : Prop :=
  forall ref o, heap !! ref = Some o -> heap' !! ref = Some o.

End ProfileObjects.

(** ** The effective arguments of a cycle *)

Section Effective.
Context (config : Config).

(** The credentials and client identification a cycle uses, the defaults of
    [config] applied. *)
Definition effectiveUsername (args : SyncArgs) : string :=
  orDefault (orElse (diasendUsername args) (config_diasend_username config)) "".
Definition effectivePassword (args : SyncArgs) : string :=
  orDefault (orElse (diasendPassword args) (config_diasend_password config)) "".
Definition effectiveClientId (args : SyncArgs) : string :=
  orDefault (diasendClientId args) (config_diasend_clientId config).
Definition effectiveClientSecret (args : SyncArgs) : string :=
  orDefault (diasendClientSecret args) (config_diasend_clientSecret config).

(** The window a cycle fetches: ten minutes back when [dateFrom] is absent,
    up to the present when [dateTo] is. *)
Definition windowStart (args : SyncArgs) (rt : Runtime) : Z :=
  orDefault (dateFrom args) (now rt - 10 * 60 * 1000)%Z.
Definition windowEnd (args : SyncArgs) (rt : Runtime) : Z :=
  orDefault (dateTo args) (now rt).

Definition tokenCall (args : SyncArgs) : Call :=
  CallObtainDiasendAccessToken (effectiveClientId args) (effectiveClientSecret args)
    (effectiveUsername args) (effectivePassword args).

Definition fetchCall (token : string) (args : SyncArgs) (rt : Runtime) : Call :=
  CallGetPatientData token (windowStart args rt) (windowEnd args rt).
End Effective.

(** What [await Promise.all([f(x), g(y)])] gives its caller. *)
Definition settledTogether {A B} (pa : Answer A) (pb : Answer B) : Result (A * B) :=
  match pa, pb with
  | ThrowsSync e, _ => Throw e
  | _, ThrowsSync e => Throw e
  | _, _ => Promise_all pa pb
  end.

(** The calls that go to the source, diasend. *)
Definition isSourceCall (c : Call) : bool :=
  match c with
  | CallObtainDiasendAccessToken _ _ _ _ | CallGetPatientData _ _ _ => true
  | _ => false
  end.

(** The records of the device batches, each with its device, in order. *)
Definition taggedRecords (batches : list DeviceRecords)
    : list (DeviceData * PatientRecord) :=
  concat ((fun b => pair (batch_device b) <$> batch_data b) <$> batches).

(** Collaborators of which one fails. *)
Module Faulty.
Import Sample.

Definition noToken : Services :=
  {| obtainDiasendAccessToken := fun _ _ _ _ => Throw "401 Unauthorized";
     getPatientData := fun _ _ _ => Ok dayFetch;
     getAuthenticatedScrapingClient := fun _ _ => Ok "user-id";
     getPumpSettings := fun _ => Ok {| pump_basal := [] |};
     reportEntriesToNightscout := fun entries => Ok entries;
     reportTreatmentsToNightscout := fun treatments => Fulfils (Some treatments);
     fetchProfile := fun _ => Ok loadedProfile;
     updateProfile := fun profile => Fulfils profile |}.

Definition noProfile : Services :=
  {| obtainDiasendAccessToken := fun _ _ _ _ => Ok "token";
     getPatientData := fun _ _ _ => Ok dayFetch;
     getAuthenticatedScrapingClient := fun _ _ => Ok "user-id";
     getPumpSettings := fun _ => Ok {| pump_basal := [] |};
     reportEntriesToNightscout := fun entries => Ok entries;
     reportTreatmentsToNightscout := fun treatments => Fulfils (Some treatments);
     fetchProfile := fun _ => Throw "profile unavailable";
     updateProfile := fun profile => Fulfils profile |}.

Definition rejectingTreatments : Services :=
  {| obtainDiasendAccessToken := fun _ _ _ _ => Ok "token";
     getPatientData := fun _ _ _ => Ok dayFetch;
     getAuthenticatedScrapingClient := fun _ _ => Ok "user-id";
     getPumpSettings := fun _ => Ok {| pump_basal := [] |};
     reportEntriesToNightscout := fun entries => Ok entries;
     reportTreatmentsToNightscout := fun _ => Rejects "500 Internal Server Error" 0;
     fetchProfile := fun _ => Ok loadedProfile;
     updateProfile := fun profile => Fulfils profile |}.

Definition throwingTreatments : Services :=
  {| obtainDiasendAccessToken := fun _ _ _ _ => Ok "token";
     getPatientData := fun _ _ _ => Ok dayFetch;
     getAuthenticatedScrapingClient := fun _ _ => Ok "user-id";
     getPumpSettings := fun _ => Ok {| pump_basal := [] |};
     reportEntriesToNightscout := fun entries => Ok entries;
     reportTreatmentsToNightscout := fun _ => ThrowsSync "sink not configured";
     fetchProfile := fun _ => Ok loadedProfile;
     updateProfile := fun profile => Fulfils profile |}.

Definition noPumpSettings : Services :=
  {| obtainDiasendAccessToken := fun _ _ _ _ => Ok "token";
     getPatientData := fun _ _ _ => Ok dayFetch;
     getAuthenticatedScrapingClient := fun _ _ => Ok "user-id";
     getPumpSettings := fun _ => Throw "scraping failed";
     reportEntriesToNightscout := fun entries => Ok entries;
     reportTreatmentsToNightscout := fun treatments => Fulfils (Some treatments);
     fetchProfile := fun _ => Ok loadedProfile;
     updateProfile := fun profile => Fulfils profile |}.
End Faulty.

(** The error a run ends with, if it throws. *)
Definition thrown {A} (r : Result A) : option string :=
  match r with
  | Throw e => Some e
  | Ok _ => None
  end.

(** The calls and the error of the cycle a step of a feed runs. *)
Definition cycleCalls (config : Config) (services : Services) (adapter : Adapter)
    (feed : Feed) (state : SyncArgs) (rt : Runtime) : list Call :=
  match feed with
  | EntriesFeed => calls (syncDiasendGlucoseToNightscout config services adapter state rt)
  | TreatmentsFeed => calls (syncDiasendDataToNightscout config services adapter state rt)
  end.

Definition cycleError (config : Config) (services : Services) (adapter : Adapter)
    (feed : Feed) (state : SyncArgs) (rt : Runtime) : option string :=
  match feed with
  | EntriesFeed =>
      thrown (outcome (syncDiasendGlucoseToNightscout config services adapter state rt))
  | TreatmentsFeed =>
      thrown (outcome (syncDiasendDataToNightscout config services adapter state rt))
  end.

(** Arguments whose username is given, and empty. *)
Module EmptyUsername.
Definition args : SyncArgs :=
  {| diasendUsername := Some ""; diasendPassword := None;
     diasendClientId := None; diasendClientSecret := None;
     dateFrom := None; dateTo := None;
     nightscoutEntriesHandler := None; nightscoutTreatmentsHandler := None;
     previousRecords := None; nightscoutProfileName := None;
     nightscoutProfileLoader := None; nightscoutProfileHandler := None |}.
End EmptyUsername.

(** A sink that stores the treatments and answers with nothing. *)
Module SilentSink.
Import Sample.

Definition services : Services :=
  {| obtainDiasendAccessToken := fun _ _ _ _ => Ok "token";
     getPatientData := fun _ _ _ => Ok dayFetch;
     getAuthenticatedScrapingClient := fun _ _ => Ok "user-id";
     getPumpSettings := fun _ => Ok {| pump_basal := [] |};
     reportEntriesToNightscout := fun entries => Ok entries;
     reportTreatmentsToNightscout := fun _ => Fulfils None;
     fetchProfile := fun _ => Ok loadedProfile;
     updateProfile := fun _ => Fulfils loadedProfile |}.
End SilentSink.
(** * Properties *)

(** ** identifyTreatments *)

Section IdentifyTreatmentsFacts.
Variable resolve : Resolver.
Variable allRecords : list PatientRecordWithDeviceData.

Lemma identifyStep_cases acc record :
  identifyStep resolve allRecords acc record =
    Ok {| treatments :=
            treatments acc ++ option_list (resolvedTreatment resolve allRecords record);
          unprocessedRecords :=
            unprocessedRecords acc
              ++ (if deferred resolve allRecords record then [record] else []) |}.
Proof.
  unfold identifyStep, resolvedTreatment, deferred.
  destruct (resolve record allRecords) as [[t|]|e]; simpl;
    rewrite ?app_nil_r; try reflexivity.
  destruct acc; reflexivity.
Qed.

Lemma reduceM_spec l : forall acc,
  reduceM resolve allRecords acc l =
    Ok {| treatments :=
            treatments acc ++ omap (resolvedTreatment resolve allRecords) l;
          unprocessedRecords :=
            unprocessedRecords acc ++ List.filter (deferred resolve allRecords) l |}.
Proof.
  induction l as [|record l IH]; intros acc.
  - simpl. rewrite !app_nil_r. destruct acc; reflexivity.
  - cbn [reduceM]. rewrite identifyStep_cases, IH. cbn [treatments unprocessedRecords].
    rewrite <- !app_assoc. f_equal. f_equal.
    + cbn [omap list_omap]. destruct (resolvedTreatment _ _ _); reflexivity.
    + cbn [List.filter]. destruct (deferred _ _ _); reflexivity.
Qed.
End IdentifyTreatmentsFacts.

Lemma identifyTreatments_spec resolve records :
  let allRecords := List.filter isCarbOrBolus records in
  identifyTreatments resolve records =
    Ok {| treatments := omap (resolvedTreatment resolve allRecords) allRecords;
          unprocessedRecords := List.filter (deferred resolve allRecords) allRecords |}.
Proof.
  intros allRecords. unfold identifyTreatments. fold allRecords.
  rewrite reduceM_spec. reflexivity.
Qed.

Lemma outcome_trichotomy resolve allRecords r :
  (is_Some (resolvedTreatment resolve allRecords r)
     /\ deferred resolve allRecords r = false /\ skipped resolve allRecords r = false)
  \/ (resolvedTreatment resolve allRecords r = None
     /\ deferred resolve allRecords r = true /\ skipped resolve allRecords r = false)
  \/ (resolvedTreatment resolve allRecords r = None
     /\ deferred resolve allRecords r = false /\ skipped resolve allRecords r = true).
Proof.
  unfold resolvedTreatment, deferred, skipped.
  destruct (resolve r allRecords) as [[t|]|e]; eauto 6.
Qed.

Lemma outcome_lengths resolve allRecords l :
  length (omap (resolvedTreatment resolve allRecords) l)
    + length (List.filter (deferred resolve allRecords) l)
    + length (List.filter (skipped resolve allRecords) l)
  = length l.
Proof.
  induction l as [|r l IH]; [reflexivity|].
  cbn [omap list_omap List.filter].
  destruct (outcome_trichotomy resolve allRecords r) as [([t Ht] & -> & ->)|[(-> & -> & ->)|(-> & -> & ->)]];
    try rewrite Ht; simpl; lia.
Qed.


(** The treatments [identifyTreatments] returns are those the resolver
    returned for the records of the filtered batch, and no others. *)
Lemma identified_treatment resolve records out t :
  identifyTreatments resolve records = Ok out ->
  In t (treatments out) <->
  exists r, In r (List.filter isCarbOrBolus records)
            /\ resolve r (List.filter isCarbOrBolus records) = Ok (Some t).
Proof.
  rewrite identifyTreatments_spec. intros [= <-]. cbn [treatments].
  rewrite <- list_elem_of_In, list_elem_of_omap. unfold resolvedTreatment. split.
  - intros (r & Hr & Ht). exists r. split; [apply list_elem_of_In, Hr|].
    destruct (resolve r _) as [[t'|]|e]; congruence.
  - intros (r & Hr & Ht). exists r. split; [apply list_elem_of_In, Hr|].
    rewrite Ht. reflexivity.
Qed.

Lemma identified_unprocessed resolve records out r :
  identifyTreatments resolve records = Ok out ->
  In r (unprocessedRecords out) <->
  In r (List.filter isCarbOrBolus records)
  /\ exists e, resolve r (List.filter isCarbOrBolus records) = Throw e.
Proof.
  rewrite identifyTreatments_spec. intros [= <-]. cbn [unprocessedRecords].
  rewrite filter_In. unfold deferred.
  destruct (resolve r _) as [o|e]; split; intros [Hr H]; split; eauto;
    try discriminate H. destruct H as [e H]. discriminate H.
Qed.


(** Conversely, the last two parts of the contract are needed: where the
    partition is complete, the resolver has returned [undefined] only for
    records another record's treatment references, and has failed on no
    record that a treatment references. *)
Lemma partition_complete_needs_contract
    (resolve : Resolver) (records : list PatientRecordWithDeviceData) (out : Identified) :
  identifyTreatments resolve records = Ok out ->
  partitionComplete records out ->
  undefinedOnlyForCounterpart resolve (List.filter isCarbOrBolus records)
  /\ failedNotReferenced resolve (List.filter isCarbOrBolus records).
Proof.
  intros Hout Hpartition. split.
  - intros r Hr Hnone. pose proof Hr as Hall. apply filter_In in Hr as [Hr Hk].
    destruct (Hpartition r Hr Hk) as [[(t & Ht & Hc) _]|[_ Hu]].
    + apply (identified_treatment _ _ _ _ Hout) in Ht as (r' & Hr' & Ht).
      exists r', t. auto.
    + apply (identified_unprocessed _ _ _ _ Hout) in Hu as [_ [e He]]. congruence.
  - intros r e Hr He r' t Hr' Ht Hc. pose proof Hr as Hall.
    apply filter_In in Hr as [Hr Hk].
    destruct (Hpartition r Hr Hk) as [[_ Hnot]|[Hnot _]].
    + apply Hnot. apply (identified_unprocessed _ _ _ _ Hout). eauto.
    + apply Hnot. exists t. split; [|exact Hc].
      apply (identified_treatment _ _ _ _ Hout). eauto.
Qed.



(** C5: when resolving the record [r] throws, [identifyTreatments] still
    returns; [r] is appended to [unprocessedRecords] once, at its place among
    the records that failed, and every other record of the batch is
    processed as its own outcome says, whatever happened to [r]. *)
Theorem identifyTreatments_isolates_failure
    (resolve : Resolver) (records before after : list PatientRecordWithDeviceData)
    (r : PatientRecordWithDeviceData) (e : string) :
  List.filter isCarbOrBolus records = before ++ r :: after ->
  resolve r (before ++ r :: after) = Throw e ->
  exists out,
    identifyTreatments resolve records = Ok out
    /\ unprocessedRecords out =
         List.filter (deferred resolve (before ++ r :: after)) before
           ++ r :: List.filter (deferred resolve (before ++ r :: after)) after
    /\ treatments out =
         omap (resolvedTreatment resolve (before ++ r :: after)) before
           ++ omap (resolvedTreatment resolve (before ++ r :: after)) after.
Proof.
  intros Hsplit Hthrow. eexists. split; [apply identifyTreatments_spec|].
  rewrite Hsplit. cbn [treatments unprocessedRecords]. split.
  - rewrite List.filter_app. cbn [List.filter].
    unfold deferred at 2. rewrite Hthrow. reflexivity.
  - rewrite omap_app. cbn [omap list_omap].
    unfold resolvedTreatment at 2. rewrite Hthrow. reflexivity.
Qed.

Lemma identifyTreatments_isolates_failure_witness :
  exists out,
    identifyTreatments Records.resolver Records.mixed = Ok out
    /\ unprocessedRecords out = [Records.brokenBolus]
    /\ treatments out =
         [CarbCorrectionTreatment Records.lateCarbs;
          CorrectionBolusTreatment Records.correction].
Proof.
  destruct (identifyTreatments_isolates_failure Records.resolver Records.mixed
              [Records.lateCarbs] [Records.correction] Records.brokenBolus
              "missing required field" eq_refl eq_refl)
    as (out & Hout & Hu & Ht).
  exists out. split; [exact Hout|]. split; [exact Hu|exact Ht].
Defined.

(** ** Asynchronous computations *)

Lemma bind_outcome_Ok {A B} (m : Async A) (f : A -> Async B) rt b :
  outcome (bind m f rt) = Ok b ->
  exists a, outcome (m rt) = Ok a /\ outcome (f a (after (m rt))) = Ok b.
Proof.
  unfold bind. destruct (outcome (m rt)) as [a|e] eqn:Hm; cbn [outcome]; intros H.
  - exists a. split; [reflexivity|exact H].
  - discriminate H.
Qed.

Lemma bind_calls_Ok {A B} (m : Async A) (f : A -> Async B) rt a :
  outcome (m rt) = Ok a ->
  calls (bind m f rt) = calls (m rt) ++ calls (f a (after (m rt))).
Proof. unfold bind. intros ->. reflexivity. Qed.

Lemma bind_Throw {A B} (m : Async A) (f : A -> Async B) rt e :
  outcome (m rt) = Throw e ->
  outcome (bind m f rt) = Throw e /\ calls (bind m f rt) = calls (m rt).
Proof. unfold bind. intros ->. split; reflexivity. Qed.

Lemma bind_calls {A B} (m : Async A) (f : A -> Async B) rt :
  calls (bind m f rt) =
    match outcome (m rt) with
    | Ok a => calls (m rt) ++ calls (f a (after (m rt)))
    | Throw _ => calls (m rt)
    end.
Proof. unfold bind. destruct (outcome (m rt)); reflexivity. Qed.

Lemma bind_after {A B} (m : Async A) (f : A -> Async B) rt :
  after (bind m f rt) =
    match outcome (m rt) with
    | Ok a => after (f a (after (m rt)))
    | Throw _ => after (m rt)
    end.
Proof. unfold bind. destruct (outcome (m rt)); reflexivity. Qed.

(** ** Sorting *)

Lemma sort_insert_head {A} (compare : A -> A -> Z) x l :
  head (sort_insert compare x l) =
    match l with
    | [] => Some x
    | y :: _ => if (compare x y <=? 0)%Z then Some x else Some y
    end.
Proof. destruct l as [|y l]; simpl; [reflexivity|]. destruct (_ <=? _)%Z; reflexivity. Qed.

Lemma sort_insert_Permutation {A} (compare : A -> A -> Z) x l :
  sort_insert compare x l ≡ₚ x :: l.
Proof.
  induction l as [|y l IH]; simpl; [reflexivity|].
  destruct (_ <=? _)%Z; [reflexivity|].
  rewrite IH. apply Permutation_swap.
Qed.

Lemma Array_sort_Permutation {A} (compare : A -> A -> Z) l :
  Array_sort compare l ≡ₚ l.
Proof.
  induction l as [|x l IH]; simpl; [reflexivity|].
  rewrite sort_insert_Permutation, IH. reflexivity.
Qed.

Lemma Array_sort_In {A} (compare : A -> A -> Z) l x :
  In x (Array_sort compare l) <-> In x l.
Proof.
  rewrite <- !list_elem_of_In. rewrite (Array_sort_Permutation compare l). reflexivity.
Qed.

(** Sorting with a latest-first comparator does sort: every element is
    stamped no earlier than those after it. *)
Lemma Array_sort_descending {A} (stamp : A -> Z) (l : list A) :
  StronglySorted (fun a b => (stamp b <= stamp a)%Z)
    (Array_sort (fun a b => (stamp b - stamp a)%Z) l).
Proof.
  induction l as [|x l IH]; [constructor|]. cbn [Array_sort].
  induction IH as [|y s Hs IHs Hy]; cbn [sort_insert]; [repeat constructor|].
  destruct (Z.leb_spec (stamp y - stamp x) 0) as [Hle|Hgt].
  - constructor; [constructor; assumption|].
    constructor; [lia|].
    eapply Forall_impl; [exact Hy|]. cbn. intros z Hz. lia.
  - constructor; [exact IHs|].
    rewrite (sort_insert_Permutation _ x s). constructor; [lia|exact Hy].
Qed.

(** The first element of a batch sorted latest-first carries the latest
    timestamp of the batch. *)
Lemma head_sorted_latest {A} (stamp : A -> Z) (l : list A) :
  stamp <$> head (Array_sort (fun a b => (stamp b - stamp a)%Z) l) = latest (stamp <$> l).
Proof.
  induction l as [|x l IH]; [reflexivity|].
  cbn [Array_sort fmap list_fmap latest]. rewrite <- IH, sort_insert_head.
  destruct (Array_sort _ l) as [|y s]; [reflexivity|].
  cbn [head fmap option_fmap option_map].
  destruct (Z.leb_spec (stamp y - stamp x) 0); cbn; f_equal; lia.
Qed.

Lemma latest_None l : latest l = None <-> l = [].
Proof. destruct l; simpl; split; congruence. Qed.

Lemma latest_is_max l m :
  latest l = Some m -> In m l /\ forall t, In t l -> (t <= m)%Z.
Proof.
  revert m. induction l as [|t l IH]; intros m; [discriminate|].
  cbn [latest]. destruct (latest l) as [m'|] eqn:Hl.
  - intros [= <-]. destruct (IH m' eq_refl) as [Hin Hmax]. split.
    + destruct (Z.max_spec t m') as [[_ ->]|[_ ->]]; simpl; auto.
    + intros t' [<-|Ht']; [lia|]. specialize (Hmax t' Ht'). lia.
  - intros [= <-]. apply latest_None in Hl as ->. split; [simpl; auto|].
    intros t' [<-|[]]. lia.
Qed.

(** ** The profile as objects *)

Section ProfileObjectsFacts.
Import ProfileObjects.

Lemma alloc_fresh heap o : heap !! (alloc heap o).1 = None.
Proof. apply not_elem_of_dom, is_fresh. Qed.

Lemma alloc_lookup heap o : (alloc heap o).2 !! (alloc heap o).1 = Some o.
Proof. apply lookup_insert_eq. Qed.

Lemma alloc_extends heap o : extends heap (alloc heap o).2.
Proof.
  intros ref x Hx. cbn [alloc snd]. rewrite lookup_insert_ne; [exact Hx|].
  intros Heq. pose proof (alloc_fresh heap o) as Hfresh. cbn [alloc fst] in Hfresh.
  rewrite Heq in Hfresh. congruence.
Qed.

Lemma extends_trans h1 h2 h3 : extends h1 h2 -> extends h2 h3 -> extends h1 h3.
Proof. intros H12 H23 ref o Ho. apply H23, H12, Ho. Qed.

Lemma readConfig_extends heap heap' ref c :
  extends heap heap' -> readConfig heap ref = Some c -> readConfig heap' ref = Some c.
Proof.
  intros Hext. unfold readConfig.
  destruct (heap !! ref) as [o|] eqn:Ho; [|discriminate].
  rewrite (Hext _ _ Ho). auto.
Qed.

Lemma readStore_extends heap heap' (entries : gmap string nat) :
  extends heap heap' ->
  map_Forall (fun _ c => is_Some (readConfig heap c)) entries ->
  map_Forall (fun _ c => is_Some (readConfig heap' c)) entries
  /\ omap (readConfig heap') entries = omap (readConfig heap) entries.
Proof.
  intros Hext Hall. split.
  - intros k r Hk. destruct (Hall k r Hk) as [c Hc].
    exists c. exact (readConfig_extends _ _ _ _ Hext Hc).
  - apply map_eq. intros k. rewrite !lookup_omap.
    destruct (entries !! k) as [r|] eqn:Hk; [|reflexivity]. cbn.
    destruct (Hall k r Hk) as [c Hc].
    rewrite Hc. exact (readConfig_extends _ _ _ _ Hext Hc).
Qed.

Lemma readProfile_extends heap heap' ref p :
  extends heap heap' -> readProfile heap ref = Some p -> readProfile heap' ref = Some p.
Proof.
  intros Hext. unfold readProfile.
  destruct (heap !! ref) as [[d s f| |]|] eqn:Hp; try discriminate.
  destruct (heap !! s) as [[| entries|]|] eqn:Hs; try discriminate.
  case_bool_decide as Hall; [|discriminate]. intros Hread.
  rewrite (Hext _ _ Hp), (Hext _ _ Hs).
  destruct (readStore_extends _ _ _ Hext Hall) as [Hall' ->].
  case_bool_decide as Hall2.
  - exact Hread.
  - exfalso. exact (Hall2 Hall').
Qed.

(** Looking a name up among the entries of a store object finds what looking
    it up in the store they stand for finds. *)
Lemma getProperty_readStore heap (entries : gmap string nat) k :
  map_Forall (fun _ c => is_Some (readConfig heap c)) entries ->
  match getProperty entries k with
  | OwnProperty configRef =>
      exists c, readConfig heap configRef = Some c
                /\ getProperty (omap (readConfig heap) entries) k = OwnProperty c
  | InheritedProperty =>
      getProperty (omap (readConfig heap) entries) k = InheritedProperty
  | NoProperty => getProperty (omap (readConfig heap) entries) k = NoProperty
  end.
Proof.
  intros Hall. unfold getProperty. rewrite lookup_omap.
  destruct (entries !! k) as [r|] eqn:Hk; cbn.
  - destruct (Hall k r Hk) as [c Hc]. exists c. rewrite Hc. split; reflexivity.
  - destruct (bool_decide _); reflexivity.
Qed.

(** The three object literals allocate three new objects and write to no
    other; the new profile reads as the loaded one with the new entry. *)
Lemma objectLiterals_spec merged configFields name entries d f heap :
  map_Forall (fun _ c => is_Some (readConfig heap c)) entries ->
  exists newRef heap',
    objectLiterals merged configFields name entries d f heap = (newRef, heap')
    /\ extends heap heap'
    /\ heap !! newRef = None
    /\ readProfile heap' newRef
       = Some {| defaultProfile := d;
                 store := <[name := {| basal := Some merged;
                                        config_fields := configFields |}]>
                            (omap (readConfig heap) entries);
                 profile_fields := f |}.
Proof.
  intros Hall. unfold objectLiterals.
  set (config' := ConfigObject (Some merged) configFields).
  destruct (alloc heap config') as [newConfig heap1] eqn:H1.
  set (store' := StoreObject (<[name := newConfig]> entries)).
  destruct (alloc heap1 store') as [newStore heap2] eqn:H2.
  destruct (alloc heap2 (ProfileObject d newStore f)) as [newProfile heap3] eqn:H3.
  pose proof (alloc_extends heap config') as E1. rewrite H1 in E1.
  pose proof (alloc_lookup heap config') as L1. rewrite H1 in L1.
  pose proof (alloc_extends heap1 store') as E2. rewrite H2 in E2.
  pose proof (alloc_lookup heap1 store') as L2. rewrite H2 in L2.
  pose proof (alloc_extends heap2 (ProfileObject d newStore f)) as E3. rewrite H3 in E3.
  pose proof (alloc_lookup heap2 (ProfileObject d newStore f)) as L3. rewrite H3 in L3.
  pose proof (alloc_fresh heap2 (ProfileObject d newStore f)) as F3. rewrite H3 in F3.
  cbn [fst snd] in *.
  assert (E : extends heap heap3) by eauto using extends_trans.
  exists newProfile, heap3. split; [reflexivity|]. split; [exact E|]. split.
  { destruct (heap !! newProfile) as [o|] eqn:Ho; [|reflexivity].
    rewrite (E2 _ _ (E1 _ _ Ho)) in F3. discriminate F3. }
  unfold readProfile. rewrite L3, (E3 _ _ L2). subst store' config'.
  destruct (readStore_extends heap heap3 entries E Hall) as [Hall3 Hstore3].
  assert (Hnew : readConfig heap3 newConfig
                 = Some {| basal := Some merged; config_fields := configFields |}).
  { unfold readConfig. rewrite (E3 _ _ (E2 _ _ L1)). reflexivity. }
  case_bool_decide as Hall'.
  - rewrite (omap_insert_Some _ _ _ _ _ Hnew), Hstore3. reflexivity.
  - exfalso. apply Hall'.
    apply map_Forall_insert_2; [rewrite Hnew; eauto|exact Hall3].
Qed.

(** Built on objects, the updated profile is the one the cycle hands to the
    profile handler, it is a new object, and every object that existed
    before, the loaded profile with its store and its configurations among
    them, is what it was. *)
Lemma updatedProfile_refines merge name heap ref p base :
  readProfile heap ref = Some p ->
  mergeBase name p = Some base ->
  exists newRef heap',
    updatedProfile merge name heap ref = Some (newRef, heap')
    /\ extends heap heap'
    /\ heap !! newRef = None
    /\ readProfile heap' newRef
       = Some (withStore p
                 (<[name := withBasal base (merge (orDefault (basal base) []))]>
                    (store p)))
    /\ readProfile heap' ref = Some p.
Proof.
  intros Hread Hbase. pose proof Hread as Hread0.
  unfold readProfile in Hread. unfold updatedProfile.
  destruct (heap !! ref) as [[d s f| |]|] eqn:Hp; try discriminate.
  destruct (heap !! s) as [[| entries|]|] eqn:Hs; try discriminate.
  case_bool_decide as Hall; [|discriminate]. injection Hread as <-.
  unfold mergeBase in Hbase. cbn [store defaultProfile] in Hbase.
  pose proof (getProperty_readStore heap entries name Hall) as Hname.
  pose proof (getProperty_readStore heap entries d Hall) as Hdefault.
  unfold hasProperty in *.
  assert (Hbuild : forall merged configFields,
            withBasal base (merge (orDefault (basal base) []))
            = {| basal := Some merged; config_fields := configFields |} ->
            exists newRef heap',
              Some (objectLiterals merged configFields name entries d f heap)
              = Some (newRef, heap')
              /\ extends heap heap'
              /\ heap !! newRef = None
              /\ readProfile heap' newRef
                 = Some (withStore
                           {| defaultProfile := d;
                              store := omap (readConfig heap) entries;
                              profile_fields := f |}
                           (<[name := withBasal base (merge (orDefault (basal base) []))]>
                              (omap (readConfig heap) entries)))
              /\ readProfile heap' ref
                 = Some {| defaultProfile := d;
                           store := omap (readConfig heap) entries;
                           profile_fields := f |}).
  { intros merged configFields Heq.
    destruct (objectLiterals_spec merged configFields name entries d f heap Hall)
      as (newRef & heap' & -> & E & Hfresh & Hnew).
    exists newRef, heap'. split; [reflexivity|]. split; [exact E|].
    split; [exact Hfresh|]. split; [rewrite Heq; exact Hnew|].
    exact (readProfile_extends _ _ _ _ E Hread0). }
  assert (Hown : forall configRef c,
            readConfig heap configRef = Some c -> base = c ->
            exists newRef heap',
              match heap !! configRef with
              | Some (ConfigObject basal configFields) =>
                  Some (objectLiterals (merge (orDefault basal [])) configFields
                          name entries d f heap)
              | _ => None
              end = Some (newRef, heap')
              /\ extends heap heap'
              /\ heap !! newRef = None
              /\ readProfile heap' newRef
                 = Some (withStore
                           {| defaultProfile := d;
                              store := omap (readConfig heap) entries;
                              profile_fields := f |}
                           (<[name := withBasal base (merge (orDefault (basal base) []))]>
                              (omap (readConfig heap) entries)))
              /\ readProfile heap' ref
                 = Some {| defaultProfile := d;
                           store := omap (readConfig heap) entries;
                           profile_fields := f |}).
  { intros configRef c Hc ->. unfold readConfig in Hc.
    destruct (heap !! configRef) as [[| |b cf]|]; try discriminate Hc.
    injection Hc as <-. apply Hbuild. reflexivity. }
  destruct (getProperty entries name) as [configRef| |].
  - destruct Hname as (c & Hc & Hget). rewrite Hget in Hbase.
    cbn in Hbase. injection Hbase as Hbase. exact (Hown configRef c Hc (eq_sym Hbase)).
  - rewrite Hname in Hbase. cbn in Hbase. injection Hbase as <-.
    apply Hbuild. reflexivity.
  - rewrite Hname in Hbase.
    destruct (getProperty entries d) as [configRef| |].
    + destruct Hdefault as (c & Hc & Hget). rewrite Hget in Hbase.
      cbn in Hbase. injection Hbase as Hbase.
      exact (Hown configRef c Hc (eq_sym Hbase)).
    + rewrite Hdefault in Hbase. cbn in Hbase. injection Hbase as <-.
      apply Hbuild. reflexivity.
    + rewrite Hdefault in Hbase. discriminate Hbase.
Qed.

End ProfileObjectsFacts.

(** ** One treatments cycle, stage by stage *)

Lemma sorted_when_nonempty {A} (compare : A -> A -> Z) (l : list A) :
  (if (0 <? length l)%nat then Array_sort compare l else l) = Array_sort compare l.
Proof. destruct l; reflexivity. Qed.

Lemma latest_when_nonempty (l : list PatientRecordWithDeviceData) :
  (if (0 <? length l)%nat
   then rcreated_at <$> head (Array_sort byCreatedAtDescending l)
   else None) = latest (rcreated_at <$> l).
Proof.
  destruct l as [|x l]; [reflexivity|].
  change (0 <? length (x :: l))%nat with true. cbv iota.
  apply (head_sorted_latest rcreated_at).
Qed.

Lemma syncDiasendDataToNightscout_inv config services adapter args rt res :
  outcome (syncDiasendDataToNightscout config services adapter args rt) = Ok res ->
  exists fetched identified existingProfile existingProfileConfig echoed,
    let records := cycleRecords args fetched in
    let updatedProfile :=
      cycleProfile adapter (cycleProfileName config args) existingProfile
        existingProfileConfig records in
    outcome (cycleFetch config services args rt) = Ok fetched
    /\ identifyTreatments (diasendRecordToNightscoutTreatment adapter) records
       = Ok identified
    /\ orDefault (nightscoutProfileLoader args) (fetchProfile services) tt
       = Ok existingProfile
    /\ mergeBase (cycleProfileName config args) existingProfile
       = Some existingProfileConfig
    /\ orDefault (nightscoutTreatmentsHandler args)
         (reportTreatmentsToNightscout services) (treatments identified)
       = Fulfils echoed
    /\ orDefault (nightscoutProfileHandler args) (updateProfile services) updatedProfile
       = Fulfils (Sync.profile res)
    /\ calls (syncDiasendDataToNightscout config services adapter args rt)
       = calls (cycleFetch config services args rt)
           ++ [CallProfileLoader;
               CallTreatmentsHandler (treatments identified);
               CallProfileHandler updatedProfile]
    /\ Sync.treatments res = orDefault echoed []
    /\ Sync.latestRecordDate res = latest (rcreated_at <$> freshRecords fetched)
    /\ Sync.unprocessedRecords res =
         List.filter
           (fun record =>
              (Array_indexOf same_object (orDefault (previousRecords args) []) record
                 =? -1)%Z)
           (unprocessedRecords identified).
Proof.
  intros Hrun. unfold syncDiasendDataToNightscout in *.
  rewrite (bind_calls_Ok clock _ rt (now rt) eq_refl).
  apply bind_outcome_Ok in Hrun as (today & [= <-] & Hrun).
  cbn [clock after calls app] in *.
  apply bind_outcome_Ok in Hrun as (fetched & Hfetch & Hrun).
  rewrite (bind_calls_Ok _ _ rt fetched Hfetch).
  fold (cycleFetch config services args rt) in *.
  set (rt1 := after (cycleFetch config services args rt)) in *.
  cbv beta in *.
  rewrite !sorted_when_nonempty, !latest_when_nonempty in *.
  fold (freshRecords fetched) in *. fold (cycleRecords args fetched) in *.
  fold (cycleProfileName config args) in *.
  apply bind_outcome_Ok in Hrun as Hid. destruct Hid as (identified & Hid & Hrun').
  rewrite (bind_calls_Ok _ _ rt1 identified Hid).
  cbn [lift outcome after calls app] in Hid, Hrun' |- *.
  clear Hrun. rename Hrun' into Hrun.
  apply bind_outcome_Ok in Hrun as Hload. destruct Hload as (existingProfile & Hload & Hrun').
  rewrite (bind_calls_Ok _ _ rt1 existingProfile Hload).
  cbn [await outcome after calls app] in Hload, Hrun' |- *.
  clear Hrun. rename Hrun' into Hrun.
  fold (mergeBase (cycleProfileName config args) existingProfile) in *.
  destruct (mergeBase (cycleProfileName config args) existingProfile)
    as [existingProfileConfig|] eqn:Hbase; [|discriminate Hrun].
  fold (cycleProfile adapter (cycleProfileName config args) existingProfile
          existingProfileConfig (cycleRecords args fetched)) in *.
  apply bind_outcome_Ok in Hrun as Hrep. destruct Hrep as (reported & Hrep & Hrun').
  rewrite (bind_calls_Ok _ _ rt1 reported Hrep).
  cbn [ret outcome calls app] in Hrun' |- *. clear Hrun. injection Hrun' as <-.
  destruct (orDefault (nightscoutTreatmentsHandler args) _ _)
    as [echoed|ea ta|ea] eqn:Ht;
    destruct (orDefault (nightscoutProfileHandler args) _ _)
      as [stored|eb tb|eb] eqn:Hp;
    cbn [await_all Promise_all outcome calls] in Hrep |- *;
    try destruct (ta <=? tb)%Z; try discriminate Hrep.
  injection Hrep as <-.
  exists fetched, identified, existingProfile, existingProfileConfig, echoed.
  cbn zeta. cbn [Sync.treatments Sync.profile Sync.latestRecordDate
                  Sync.unprocessedRecords fst snd].
  repeat split; assumption || reflexivity.
Qed.

(** The collaborator calls of a cycle, whether it returns or throws: the
    profile loader is called once the fetch has returned; once the merge
    base has been found the treatments handler is called with the
    treatments, and then, unless that call throws at once, the profile
    handler with the updated profile. *)
Lemma syncDiasendDataToNightscout_calls config services adapter args rt :
  let run := syncDiasendDataToNightscout config services adapter args rt in
  let fetch := cycleFetch config services args rt in
  match outcome fetch with
  | Throw _ => calls run = calls fetch
  | Ok fetched =>
      exists identified,
        identifyTreatments (diasendRecordToNightscoutTreatment adapter)
          (cycleRecords args fetched) = Ok identified
        /\ match orDefault (nightscoutProfileLoader args) (fetchProfile services) tt with
           | Throw _ => calls run = calls fetch ++ [CallProfileLoader]
           | Ok existingProfile =>
               match mergeBase (cycleProfileName config args) existingProfile with
               | None => calls run = calls fetch ++ [CallProfileLoader]
               | Some base =>
                   calls run =
                     calls fetch
                       ++ CallProfileLoader
                       :: CallTreatmentsHandler (treatments identified)
                       :: if throwsSync
                               (orDefault (nightscoutTreatmentsHandler args)
                                  (reportTreatmentsToNightscout services)
                                  (treatments identified))
                          then []
                          else [CallProfileHandler
                                  (cycleProfile adapter (cycleProfileName config args)
                                     existingProfile base (cycleRecords args fetched))]
               end
           end
  end.
Proof.
  intros run fetch. subst run. unfold syncDiasendDataToNightscout.
  rewrite bind_calls. cbn [clock outcome after calls app]. cbv beta.
  rewrite bind_calls. fold (cycleFetch config services args rt). fold fetch.
  destruct (outcome fetch) as [fetched|e]; [|reflexivity].
  rewrite !sorted_when_nonempty.
  fold (freshRecords fetched). fold (cycleRecords args fetched).
  fold (cycleProfileName config args).
  rewrite bind_calls. cbn [lift outcome after calls app].
  rewrite identifyTreatments_spec. eexists. split; [reflexivity|].
  rewrite bind_calls. cbn [await outcome after calls].
  destruct (orDefault (nightscoutProfileLoader args) _ _) as [existingProfile|e];
    [|reflexivity].
  fold (mergeBase (cycleProfileName config args) existingProfile).
  destruct (mergeBase (cycleProfileName config args) existingProfile) as [base|];
    [|reflexivity].
  rewrite bind_calls.
  fold (cycleProfile adapter (cycleProfileName config args) existingProfile base
          (cycleRecords args fetched)).
  destruct (orDefault (nightscoutTreatmentsHandler args) _ _) as [echoed|ea ta|ea];
    destruct (orDefault (nightscoutProfileHandler args) _ _) as [stored|eb tb|eb];
    cbn [await_all Promise_all throwsSync outcome after calls];
    try destruct (ta <=? tb)%Z; cbn [ret calls app]; rewrite ?app_nil_r; reflexivity.
Qed.

(** [identifyTreatments] returns for every batch, so the treatments of a
    cycle are those it returns. *)
Lemma cycleTreatments_identified adapter args fetched identified :
  identifyTreatments (diasendRecordToNightscoutTreatment adapter)
    (cycleRecords args fetched) = Ok identified ->
  cycleTreatments adapter args fetched = treatments identified.
Proof. unfold cycleTreatments. intros ->. reflexivity. Qed.

Lemma cycleFetch_previousRecords config services args prev rt :
  cycleFetch config services (withPreviousRecords args prev) rt
  = cycleFetch config services args rt.
Proof. reflexivity. Qed.

(** C2, as stated, fails: a cycle whose only fetched record cannot be
    resolved reports nothing and defers that record, yet its cursor is that
    record's timestamp. *)
Lemma latestRecordDate_counts_unprocessed :
  exists fetched res,
    outcome (cycleFetch Sample.config (Sample.services Sample.brokenFetch)
               (Sample.from 0) Sample.start) = Ok fetched
    /\ outcome (syncDiasendDataToNightscout Sample.config
                  (Sample.services Sample.brokenFetch) Sample.adapter
                  (Sample.from 0) Sample.start) = Ok res
    /\ Sync.treatments res = []
    /\ rcreated_at <$> Sync.unprocessedRecords res = [1800000%Z]
    /\ Sync.latestRecordDate res = Some 1800000%Z
    /\ ~ cursorOverReportedOnly fetched res.
Proof.
  eexists. eexists.
  split; [vm_compute; reflexivity|].
  split; [vm_compute; reflexivity|].
  split; [reflexivity|]. split; [reflexivity|]. split; [reflexivity|].
  vm_compute. discriminate.
Qed.

(** C2 (amended): the [latestRecordDate] of a cycle is the latest [created_at]
    among all freshly fetched records that are not glucose records, resolved
    or not ([null] when there is none); the carried-forward
    [previousRecords] do not contribute: another choice of them leaves it
    unchanged. *)
Theorem latestRecordDate_over_fresh_records
    (config : Config) (services : Services) (adapter : Adapter)
    (args : SyncArgs) (rt : Runtime) (res : Sync.result) :
  outcome (syncDiasendDataToNightscout config services adapter args rt) = Ok res ->
  exists fetched,
    outcome (cycleFetch config services args rt) = Ok fetched
    /\ Sync.latestRecordDate res = latest (rcreated_at <$> freshRecords fetched)
    /\ forall prev res',
         outcome (syncDiasendDataToNightscout config services adapter
                    (withPreviousRecords args prev) rt) = Ok res' ->
         Sync.latestRecordDate res' = Sync.latestRecordDate res.
Proof.
  intros Hrun.
  destruct (syncDiasendDataToNightscout_inv _ _ _ _ _ _ Hrun)
    as (fetched & identified & existingProfile & existingProfileConfig & echoed
          & Hfetch & _ & _ & _ & _ & _ & _ & _ & Hlatest & _).
  exists fetched. split; [exact Hfetch|]. split; [exact Hlatest|].
  intros prev res' Hrun'.
  destruct (syncDiasendDataToNightscout_inv _ _ _ _ _ _ Hrun')
    as (fetched' & identified' & existingProfile' & existingProfileConfig' & echoed'
          & Hfetch' & _ & _ & _ & _ & _ & _ & _ & Hlatest' & _).
  rewrite cycleFetch_previousRecords, Hfetch in Hfetch'.
  injection Hfetch' as <-. congruence.
Qed.

Lemma latestRecordDate_over_fresh_records_witness :
  exists res,
    outcome (syncDiasendDataToNightscout Sample.config
               (Sample.services Sample.dayFetch) Sample.adapter
               (Sample.from 0) Sample.start) = Ok res
    /\ Sync.latestRecordDate res = Some 1500000%Z.
Proof.
  destruct (outcome (syncDiasendDataToNightscout Sample.config
               (Sample.services Sample.dayFetch) Sample.adapter
               (Sample.from 0) Sample.start)) as [res|e] eqn:Hrun;
    [|vm_compute in Hrun; discriminate Hrun].
  exists res. split; [reflexivity|].
  destruct (latestRecordDate_over_fresh_records _ _ _ _ _ _ Hrun)
    as (fetched & Hfetch & Hlatest & _).
  vm_compute in Hfetch. injection Hfetch as Hfetch. subst fetched.
  rewrite Hlatest. reflexivity.
Defined.

Ltac cycle_stages H :=
  destruct (syncDiasendDataToNightscout_inv _ _ _ _ _ _ H)
    as (fetched & identified & existingProfile & existingProfileConfig & echoed
          & Hfetch & Hidentified & Hloaded & Hbase & Hechoed & Hstored
          & Hcalls & Htreatments & Hlatest & Hunprocessed);
  cbv zeta in Hidentified, Hstored, Hcalls.

(** *** Carried-forward records *)

Lemma indexOf_from_bounds {A} (same : A -> A -> bool) l x i :
  (0 <= i)%Z ->
  indexOf_from same l x i = (-1)%Z \/ (i <= indexOf_from same l x i)%Z.
Proof.
  revert i. induction l as [|y l IH]; intros i Hi; simpl; [auto|].
  destruct (same y x); [right; lia|].
  destruct (IH (i + 1)%Z ltac:(lia)); [auto|right; lia].
Qed.

Lemma indexOf_from_absent {A} (same : A -> A -> bool) l x i :
  (0 <= i)%Z ->
  indexOf_from same l x i = (-1)%Z <-> forall y, In y l -> same y x = false.
Proof.
  revert i. induction l as [|y l IH]; intros i Hi; simpl.
  - split; [intros _ y []|reflexivity].
  - destruct (same y x) eqn:Hy.
    + split; [lia|]. intros H. specialize (H y (or_introl eq_refl)). congruence.
    + rewrite IH by lia. split.
      * intros H z [<-|Hz]; auto.
      * intros H z Hz. apply H. auto.
Qed.

Lemma Array_indexOf_absent {A} (same : A -> A -> bool) l x :
  Array_indexOf same l x = (-1)%Z <-> forall y, In y l -> same y x = false.
Proof. apply indexOf_from_absent. lia. Qed.

Lemma same_object_false a b : same_object a b = false <-> oid a <> oid b.
Proof. unfold same_object. apply Nat.eqb_neq. Qed.

Lemma freshRecords_no_glucose fetched r :
  In r (freshRecords fetched) -> rtype r <> glucose.
Proof.
  unfold freshRecords. rewrite filter_In. intros [_ Hr] Hg.
  unfold isGlucose in Hr. rewrite bool_decide_eq_true_2 in Hr by exact Hg.
  discriminate Hr.
Qed.

Lemma cycleRecords_In args fetched r :
  In r (cycleRecords args fetched) <->
  In r (orDefault (previousRecords args) []) \/ In r (freshRecords fetched).
Proof. unfold cycleRecords. rewrite in_app_iff, Array_sort_In. reflexivity. Qed.

(** C4: no record that the cycle returns in [unprocessedRecords] is one of the
    objects of its [previousRecords]; what it returns are freshly fetched
    records of this very cycle, so a record is carried forward once at
    most. *)
Theorem no_duplicate_carry_forward
    (config : Config) (services : Services) (adapter : Adapter)
    (args : SyncArgs) (rt : Runtime) (res : Sync.result) :
  outcome (syncDiasendDataToNightscout config services adapter args rt) = Ok res ->
  (forall r p,
     In r (Sync.unprocessedRecords res) ->
     In p (orDefault (previousRecords args) []) ->
     oid r <> oid p)
  /\ exists fetched,
       outcome (cycleFetch config services args rt) = Ok fetched
       /\ forall r, In r (Sync.unprocessedRecords res) -> In r (freshRecords fetched).
Proof.
  intros Hrun. cycle_stages Hrun.
  assert (Hnew : forall r, In r (Sync.unprocessedRecords res) ->
            forall p, In p (orDefault (previousRecords args) []) -> oid r <> oid p).
  { intros r Hr p Hp. rewrite Hunprocessed in Hr. apply filter_In in Hr as [_ Hr].
    apply Z.eqb_eq in Hr. rewrite Array_indexOf_absent in Hr.
    specialize (Hr p Hp). apply same_object_false in Hr. congruence. }
  split; [intros r p Hr Hp; exact (Hnew r Hr p Hp)|].
  exists fetched. split; [exact Hfetch|]. intros r Hr.
  pose proof (Hnew r Hr) as Hne.
  rewrite Hunprocessed in Hr. apply filter_In in Hr as [Hr _].
  rewrite identifyTreatments_spec in Hidentified. injection Hidentified as <-.
  cbn [unprocessedRecords] in Hr.
  apply filter_In in Hr as [Hr _]. apply filter_In in Hr as [Hr _].
  apply cycleRecords_In in Hr as [Hp|Hf]; [|exact Hf].
  exfalso. exact (Hne r Hp eq_refl).
Qed.

Lemma no_duplicate_carry_forward_witness :
  exists res,
    outcome (syncDiasendDataToNightscout Sample.config
               (Sample.services Sample.brokenFetch) Sample.adapter
               SecondCycle.retry Sample.start) = Ok res
    /\ (oid <$> Sync.unprocessedRecords res = [100])
    /\ forall r, In r (Sync.unprocessedRecords res) -> oid r <> oid Records.brokenBolus.
Proof.
  destruct (outcome (syncDiasendDataToNightscout Sample.config
               (Sample.services Sample.brokenFetch) Sample.adapter
               SecondCycle.retry Sample.start)) as [res|e] eqn:Hrun;
    [|vm_compute in Hrun; discriminate Hrun].
  exists res. split; [reflexivity|].
  destruct (no_duplicate_carry_forward _ _ _ _ _ _ Hrun) as [Hnew _].
  split.
  - vm_compute in Hrun. injection Hrun as <-. reflexivity.
  - intros r Hr. apply (Hnew r Records.brokenBolus Hr). simpl. auto.
Defined.

(** *** The calls to the two handlers *)

Lemma cycleFetch_calls config services args rt c :
  In c (calls (cycleFetch config services args rt)) ->
  (exists i s u p, c = CallObtainDiasendAccessToken i s u p)
  \/ (exists t a b, c = CallGetPatientData t a b).
Proof.
  unfold cycleFetch, getDiasendPatientData.
  destruct (notConfigured _); [intros []|].
  destruct (notConfigured _); [intros []|].
  unfold bind, await, allocRecords. cbn [outcome calls after].
  destruct (obtainDiasendAccessToken _ _ _ _ _) as [token|e]; cbn [calls app].
  - destruct (getPatientData _ _ _ _) as [batches|e]; cbn [calls app In].
    + intros [<-|[<-|[]]]; eauto 8.
    + intros [<-|[<-|[]]]; eauto 8.
  - intros [<-|[]]. eauto 8.
Qed.

Lemma cycleFetch_calls_no_handler config services args rt :
  (forall p, ~ In (CallProfileHandler p) (calls (cycleFetch config services args rt)))
  /\ (forall ts, ~ In (CallTreatmentsHandler ts)
                    (calls (cycleFetch config services args rt))).
Proof.
  split; intros x Hx;
    apply cycleFetch_calls in Hx as [(?&?&?&?&Hx)|(?&?&?&Hx)]; discriminate Hx.
Qed.

(** The profile handler is called in a cycle exactly when the fetch has
    returned, the profile has been loaded, it has a merge base and the call
    of the treatments handler has not thrown at once; it is then called
    once, with [cycleProfile]. *)
Lemma profile_handler_call config services adapter args rt p :
  In (CallProfileHandler p)
     (calls (syncDiasendDataToNightscout config services adapter args rt))
  <-> exists fetched existingProfile base,
        outcome (cycleFetch config services args rt) = Ok fetched
        /\ orDefault (nightscoutProfileLoader args) (fetchProfile services) tt
           = Ok existingProfile
        /\ mergeBase (cycleProfileName config args) existingProfile = Some base
        /\ p = cycleProfile adapter (cycleProfileName config args) existingProfile
                 base (cycleRecords args fetched)
        /\ throwsSync
             (orDefault (nightscoutTreatmentsHandler args)
                (reportTreatmentsToNightscout services)
                (cycleTreatments adapter args fetched)) = false.
Proof.
  pose proof (syncDiasendDataToNightscout_calls config services adapter args rt) as Hc.
  destruct (cycleFetch_calls_no_handler config services args rt) as [Hno _].
  cbv zeta in Hc.
  destruct (outcome (cycleFetch config services args rt)) as [fetched|e].
  - destruct Hc as (identified & Hid & Hc).
    pose proof (cycleTreatments_identified adapter args fetched identified Hid) as Hts.
    destruct (orDefault (nightscoutProfileLoader args) _ _) as [existingProfile|e].
    + destruct (mergeBase _ existingProfile) as [base|] eqn:Hb; rewrite Hc; split.
      * intros Hin. apply in_app_or in Hin as [Hin|Hin]; [destruct (Hno _ Hin)|].
        destruct Hin as [Hin|[Hin|Hin]]; try discriminate Hin.
        destruct (throwsSync _) eqn:Hsync; [destruct Hin|].
        destruct Hin as [Hin|[]]. injection Hin as <-.
        exists fetched, existingProfile, base. rewrite Hts. auto.
      * intros (f & e & b & [= <-] & [= <-] & Hb' & -> & Hsync).
        rewrite Hb in Hb'. injection Hb' as <-. rewrite Hts in Hsync.
        rewrite Hsync. apply in_or_app. right. simpl. auto.
      * intros Hin. apply in_app_or in Hin as [Hin|Hin]; [destruct (Hno _ Hin)|].
        destruct Hin as [Hin|[]]. discriminate Hin.
      * intros (f & e & b & _ & [= <-] & Hb' & _). congruence.
    + rewrite Hc. split.
      * intros Hin. apply in_app_or in Hin as [Hin|Hin]; [destruct (Hno _ Hin)|].
        destruct Hin as [Hin|[]]. discriminate Hin.
      * intros (f & e' & b & _ & Hl & _). discriminate Hl.
  - rewrite Hc. split.
    + intros Hin. destruct (Hno _ Hin).
    + intros (f & e' & b & Hf & _). discriminate Hf.
Qed.

(** The treatments handler is only ever called with the treatments that
    [identifyTreatments] made of the cycle's records. *)
Lemma treatments_handler_call config services adapter args rt ts :
  In (CallTreatmentsHandler ts)
     (calls (syncDiasendDataToNightscout config services adapter args rt)) ->
  exists fetched identified,
    outcome (cycleFetch config services args rt) = Ok fetched
    /\ identifyTreatments (diasendRecordToNightscoutTreatment adapter)
         (cycleRecords args fetched) = Ok identified
    /\ ts = treatments identified.
Proof.
  pose proof (syncDiasendDataToNightscout_calls config services adapter args rt) as Hc.
  destruct (cycleFetch_calls_no_handler config services args rt) as [_ Hno].
  cbv zeta in Hc.
  destruct (outcome (cycleFetch config services args rt)) as [fetched|e].
  - destruct Hc as (identified & Hid & Hc).
    destruct (orDefault (nightscoutProfileLoader args) _ _) as [existingProfile|e];
      [destruct (mergeBase _ existingProfile) as [base|]|];
      rewrite Hc; intros Hin;
      (apply in_app_or in Hin as [Hin|Hin]; [destruct (Hno _ Hin)|]).
    + destruct Hin as [Hin|[Hin|Hin]]; try discriminate Hin.
      * injection Hin as <-. exists fetched, identified. auto.
      * destruct (throwsSync _); [destruct Hin|].
        destruct Hin as [Hin|[]]. discriminate Hin.
    + destruct Hin as [Hin|[]]. discriminate Hin.
    + destruct Hin as [Hin|[]]. discriminate Hin.
  - rewrite Hc. intros Hin. destruct (Hno _ Hin).
Qed.

(** *** Glucose records *)

(** C7: whenever the fetch of a treatments cycle returns, the batch given to
    [identifyTreatments] is the carried-forward records followed by freshly
    fetched records none of which is a glucose record, and the treatments
    handler is called with nothing but its treatments; the records given to
    [updateBasalProfile] are basal records; and [latestRecordDate] is taken
    over those same glucose-free fresh records. *)
Theorem glucose_excluded_from_treatments_cycle
    (config : Config) (services : Services) (adapter : Adapter)
    (args : SyncArgs) (rt : Runtime) (fetched : list PatientRecordWithDeviceData) :
  outcome (cycleFetch config services args rt) = Ok fetched ->
  let run := syncDiasendDataToNightscout config services adapter args rt in
  let fresh := Array_sort byCreatedAtDescending (freshRecords fetched) in
  let records := orDefault (previousRecords args) [] ++ fresh in
  let basalRecords := List.filter isBasal records in
  (forall r, In r fresh -> In r fetched /\ rtype r <> glucose)
  /\ (exists identified,
        identifyTreatments (diasendRecordToNightscoutTreatment adapter) records
        = Ok identified
        /\ forall ts, In (CallTreatmentsHandler ts) (calls run) ->
                      ts = treatments identified)
  /\ (forall r, In r basalRecords -> rtype r = insulin_basal /\ rtype r <> glucose)
  /\ (forall p, In (CallProfileHandler p) (calls run) ->
        exists existingProfile base,
          p = withStore existingProfile
                (<[cycleProfileName config args :=
                     withBasal base
                       (updateBasalProfile adapter (orDefault (basal base) [])
                          basalRecords)]>
                   (store existingProfile)))
  /\ (forall res, outcome run = Ok res ->
        Sync.latestRecordDate res = latest (rcreated_at <$> freshRecords fetched))
  /\ (forall r, In r (freshRecords fetched) -> rtype r <> glucose).
Proof.
  intros Hfetch run fresh records basalRecords.
  split.
  { intros r Hr. apply Array_sort_In in Hr. split.
    - unfold freshRecords in Hr. apply filter_In in Hr. tauto.
    - exact (freshRecords_no_glucose _ _ Hr). }
  split.
  { eexists. split; [apply identifyTreatments_spec|].
    intros ts Hts.
    apply treatments_handler_call in Hts as (fetched' & identified & Hf & Hid & ->).
    rewrite Hfetch in Hf. injection Hf as <-.
    fold (freshRecords fetched) in *. unfold cycleRecords in Hid.
    fold fresh in Hid. fold records in Hid.
    rewrite identifyTreatments_spec in Hid. injection Hid as <-. reflexivity. }
  split.
  { intros r Hr. apply filter_In in Hr as [_ Hr]. unfold isBasal in Hr.
    apply bool_decide_eq_true_1 in Hr. split; [exact Hr|congruence]. }
  split.
  { intros p Hp.
    apply profile_handler_call in Hp as (fetched' & existingProfile & base
                                         & Hf & _ & _ & -> & _).
    rewrite Hfetch in Hf. injection Hf as <-. exists existingProfile, base.
    reflexivity. }
  split; [|apply freshRecords_no_glucose].
  intros res Hrun.
  destruct (syncDiasendDataToNightscout_inv _ _ _ _ _ _ Hrun)
    as (fetched' & identified & existingProfile & base & echoed
          & Hfetch' & _ & _ & _ & _ & _ & _ & _ & Hlatest & _).
  rewrite Hfetch in Hfetch'. injection Hfetch' as <-. exact Hlatest.
Qed.

Lemma glucose_excluded_from_treatments_cycle_witness :
  exists res,
    outcome (syncDiasendDataToNightscout Sample.config
               (Sample.services Sample.dayFetch) Sample.adapter
               (Sample.from 0) Sample.start) = Ok res
    /\ Sync.latestRecordDate res = Some 1500000%Z.
Proof.
  destruct (outcome (syncDiasendDataToNightscout Sample.config
               (Sample.services Sample.dayFetch) Sample.adapter
               (Sample.from 0) Sample.start)) as [res|e] eqn:Hrun;
    [|vm_compute in Hrun; discriminate Hrun].
  exists res. split; [reflexivity|].
  destruct (glucose_excluded_from_treatments_cycle Sample.config
              (Sample.services Sample.dayFetch) Sample.adapter
              (Sample.from 0) Sample.start
              (flatMapRecords Sample.dayFetch 100) eq_refl)
    as (_ & _ & _ & _ & Hlatest & _).
  rewrite (Hlatest res Hrun). reflexivity.
Defined.

(** *** The profile update *)

(** C8: the profile a cycle hands to the profile handler is the loaded profile
    with one store entry replaced, the one under [nightscoutProfileName]:
    [defaultProfile] and every other property of the profile are those of the
    loaded profile, every store entry under another name is unchanged, and the
    entry under the name keeps every property of its merge base except
    [basal], which is the merged schedule.  Built on objects the way the code
    builds it, with three object literals and their spreads, the updated
    profile is a new object and no object that existed before is written to:
    the loaded profile reads back unchanged. *)
Theorem profile_update_frame
    (config : Config) (services : Services) (adapter : Adapter)
    (args : SyncArgs) (rt : Runtime) (updatedProfile : Profile) :
  let name := cycleProfileName config args in
  let run := syncDiasendDataToNightscout config services adapter args rt in
  In (CallProfileHandler updatedProfile) (calls run) ->
  exists fetched existingProfile base,
    outcome (cycleFetch config services args rt) = Ok fetched
    /\ orDefault (nightscoutProfileLoader args) (fetchProfile services) tt
       = Ok existingProfile
    /\ (forall p, In (CallProfileHandler p) (calls run) -> p = updatedProfile)
    /\ defaultProfile updatedProfile = defaultProfile existingProfile
    /\ profile_fields updatedProfile = profile_fields existingProfile
    /\ (forall k, k <> name ->
          store updatedProfile !! k = store existingProfile !! k)
    /\ mergeBase name existingProfile = Some base
    /\ (forall c, store existingProfile !! name = Some c -> base = c)
    /\ (exists target,
          store updatedProfile !! name = Some target
          /\ config_fields target = config_fields base
          /\ basal target =
               Some (updateBasalProfile adapter (orDefault (basal base) [])
                       (List.filter isBasal (cycleRecords args fetched))))
    /\ forall heap ref,
         ProfileObjects.readProfile heap ref = Some existingProfile ->
         exists newRef heap',
           ProfileObjects.updatedProfile
             (fun b => updateBasalProfile adapter b
                         (List.filter isBasal (cycleRecords args fetched)))
             name heap ref = Some (newRef, heap')
           /\ ProfileObjects.extends heap heap'
           /\ heap !! newRef = None
           /\ ProfileObjects.readProfile heap' newRef = Some updatedProfile
           /\ ProfileObjects.readProfile heap' ref = Some existingProfile.
Proof.
  intros name run Hin.
  pose proof Hin as Hcall.
  apply profile_handler_call in Hcall as (fetched & existingProfile & base
                                          & Hfetch & Hloaded & Hbase & Hp & _).
  fold name in Hbase, Hp.
  exists fetched, existingProfile, base.
  split; [exact Hfetch|]. split; [exact Hloaded|]. split.
  { intros p Hq.
    apply profile_handler_call in Hq as (fetched' & existingProfile' & base'
                                         & Hfetch' & Hloaded' & Hbase' & -> & _).
    fold name in Hbase'.
    rewrite Hfetch in Hfetch'. injection Hfetch' as <-.
    rewrite Hloaded in Hloaded'. injection Hloaded' as <-.
    rewrite Hbase in Hbase'. injection Hbase' as <-. symmetry. exact Hp. }
  subst updatedProfile.
  split; [reflexivity|]. split; [reflexivity|]. split.
  { intros k Hk. unfold cycleProfile. cbn [store withStore].
    apply lookup_insert_ne. congruence. }
  split; [exact Hbase|]. split.
  { intros c Hc. unfold mergeBase, hasProperty, getProperty in Hbase.
    rewrite Hc in Hbase. cbn in Hbase. congruence. }
  split.
  { eexists. split.
    { unfold cycleProfile. cbn [store withStore]. apply lookup_insert_eq. }
    split; reflexivity. }
  intros heap ref Hread.
  exact (updatedProfile_refines _ name heap ref existingProfile base Hread Hbase).
Qed.

Lemma profile_update_frame_witness :
  exists updatedProfile,
    In (CallProfileHandler updatedProfile)
       (calls (syncDiasendDataToNightscout Sample.config
                 (Sample.services Sample.dayFetch) Sample.adapter
                 (SecondCycle.withProfile SecondCycle.namedProfile) Sample.start))
    /\ store updatedProfile !! "Default" = Some Sample.baseConfig
    /\ defaultProfile updatedProfile = "Default".
Proof.
  assert (Hcalled : exists p,
            In (CallProfileHandler p)
               (calls (syncDiasendDataToNightscout Sample.config
                         (Sample.services Sample.dayFetch) Sample.adapter
                         (SecondCycle.withProfile SecondCycle.namedProfile) Sample.start))).
  { eexists. apply profile_handler_call.
    eexists. eexists. eexists.
    split; [reflexivity|]. split; [reflexivity|]. split; [reflexivity|].
    split; reflexivity. }
  destruct Hcalled as [updatedProfile Hin].
  destruct (profile_update_frame _ _ _ _ _ updatedProfile Hin)
    as (fetched & existingProfile & base
          & _ & Hloaded & _ & Hdefault & _ & Hothers & _).
  exists updatedProfile. split; [exact Hin|].
  cbn in Hloaded. injection Hloaded as Hloaded. subst existingProfile.
  split.
  - rewrite (Hothers "Default") by discriminate. reflexivity.
  - rewrite Hdefault. reflexivity.
Defined.

(** C10: when [nightscoutProfileName] is not a key of the store of the loaded
    profile (the code's test [in] finds it neither among the entries nor
    among the names every object inherits) and the store has an entry under
    [defaultProfile], that entry is the merge base, and the profile handler,
    reached unless the call of the treatments handler throws at once, is
    called with the store of the loaded profile plus one entry under
    [nightscoutProfileName]: the properties of the base with [basal]
    replaced by the merged schedule.  The entry under [defaultProfile] and
    every other entry are unchanged. *)
Theorem missing_profile_name_uses_default
    (config : Config) (services : Services) (adapter : Adapter)
    (args : SyncArgs) (rt : Runtime)
    (fetched : list PatientRecordWithDeviceData) (loaded : Profile)
    (base : ProfileConfig) :
  let name := cycleProfileName config args in
  let run := syncDiasendDataToNightscout config services adapter args rt in
  outcome (cycleFetch config services args rt) = Ok fetched ->
  orDefault (nightscoutProfileLoader args) (fetchProfile services) tt = Ok loaded ->
  hasProperty (store loaded) name = false ->
  store loaded !! defaultProfile loaded = Some base ->
  throwsSync
    (orDefault (nightscoutTreatmentsHandler args) (reportTreatmentsToNightscout services)
       (cycleTreatments adapter args fetched)) = false ->
  exists updatedProfile target,
    In (CallProfileHandler updatedProfile) (calls run)
    /\ (forall p, In (CallProfileHandler p) (calls run) -> p = updatedProfile)
    /\ mergeBase name loaded = Some base
    /\ store updatedProfile = <[name := target]> (store loaded)
    /\ basal target =
         Some (updateBasalProfile adapter (orDefault (basal base) [])
                 (List.filter isBasal (cycleRecords args fetched)))
    /\ config_fields target = config_fields base
    /\ dom (store updatedProfile) = {[name]} ∪ dom (store loaded)
    /\ (name ∉ dom (store loaded))
    /\ store updatedProfile !! defaultProfile loaded = Some base
    /\ (forall k c, store loaded !! k = Some c ->
          store updatedProfile !! k = Some c)
    /\ defaultProfile updatedProfile = defaultProfile loaded.
Proof.
  intros name run Hfetch Hload Hmissing Hdefault Hsync.
  assert (Hown : store loaded !! name = None).
  { unfold hasProperty, getProperty in Hmissing.
    destruct (store loaded !! name); [discriminate Hmissing|reflexivity]. }
  assert (Hbase : mergeBase name loaded = Some base).
  { unfold mergeBase. rewrite Hmissing. unfold getProperty. rewrite Hdefault.
    reflexivity. }
  exists (cycleProfile adapter name loaded base (cycleRecords args fetched)).
  exists (withBasal base
            (updateBasalProfile adapter (orDefault (basal base) [])
               (List.filter isBasal (cycleRecords args fetched)))).
  assert (Hne : forall k c, store loaded !! k = Some c -> name <> k)
    by (intros k c Hk ->; congruence).
  split.
  { apply profile_handler_call. exists fetched, loaded, base. auto. }
  split.
  { intros p Hp.
    apply profile_handler_call in Hp as (fetched' & loaded' & base'
                                         & Hfetch' & Hload' & Hbase' & -> & _).
    fold name in Hbase'.
    rewrite Hfetch in Hfetch'. injection Hfetch' as <-.
    rewrite Hload in Hload'. injection Hload' as <-.
    rewrite Hbase in Hbase'. injection Hbase' as <-. reflexivity. }
  split; [exact Hbase|]. split; [reflexivity|].
  split; [reflexivity|]. split; [reflexivity|]. split.
  { unfold cycleProfile. cbn [store withStore]. apply dom_insert_L. }
  split; [apply not_elem_of_dom; exact Hown|]. split.
  { unfold cycleProfile. cbn [store withStore].
    rewrite lookup_insert_ne by exact (Hne _ _ Hdefault). exact Hdefault. }
  split; [|reflexivity].
  intros k c Hk. unfold cycleProfile. cbn [store withStore].
  rewrite lookup_insert_ne by exact (Hne _ _ Hk). exact Hk.
Qed.

Lemma missing_profile_name_uses_default_witness :
  exists updatedProfile,
    In (CallProfileHandler updatedProfile)
       (calls (syncDiasendDataToNightscout Sample.config
                 (Sample.services Sample.dayFetch) Sample.adapter
                 (Sample.from 0) Sample.start))
    /\ dom (store updatedProfile) = {["Diasend"; "Default"]}
    /\ store updatedProfile !! "Default" = Some Sample.baseConfig.
Proof.
  destruct (missing_profile_name_uses_default Sample.config
              (Sample.services Sample.dayFetch) Sample.adapter
              (Sample.from 0) Sample.start
              (flatMapRecords Sample.dayFetch 100) Sample.loadedProfile
              Sample.baseConfig eq_refl eq_refl eq_refl eq_refl eq_refl)
    as (updatedProfile & target & Hin & _ & _ & _ & _ & _ & Hdom & _ & Hdefault & _).
  exists updatedProfile. split; [exact Hin|]. split.
  - rewrite Hdom. cbn. rewrite dom_singleton_L. reflexivity.
  - exact Hdefault.
Defined.

(** A name every object inherits is a key for the code's test: with no entry
    of its own under such a name, the merge base is the inherited member,
    which has no [basal] and no property to keep, whatever the entry under
    [defaultProfile] is. *)
Lemma inherited_name_is_merge_base name (loaded : Profile) :
  store loaded !! name = None ->
  In name Object_prototype ->
  mergeBase name loaded = Some inheritedMember.
Proof.
  intros Hown Hin. unfold mergeBase, hasProperty, getProperty. rewrite Hown.
  rewrite bool_decide_eq_true_2 by (apply list_elem_of_In, Hin). reflexivity.
Qed.

(** When the loaded profile has neither an entry under the name nor one under
    [defaultProfile], the cycle throws before either handler is called. *)
Lemma missing_merge_base_throws config services adapter args rt fetched loaded :
  outcome (cycleFetch config services args rt) = Ok fetched ->
  orDefault (nightscoutProfileLoader args) (fetchProfile services) tt = Ok loaded ->
  mergeBase (cycleProfileName config args) loaded = None ->
  calls (syncDiasendDataToNightscout config services adapter args rt)
  = calls (cycleFetch config services args rt) ++ [CallProfileLoader]
  /\ forall p,
       ~ In (CallProfileHandler p)
            (calls (syncDiasendDataToNightscout config services adapter args rt)).
Proof.
  intros Hfetch Hload Hbase. split.
  - pose proof (syncDiasendDataToNightscout_calls config services adapter args rt) as Hc.
    cbv zeta in Hc. rewrite Hfetch in Hc. destruct Hc as (identified & _ & Hc).
    rewrite Hload, Hbase in Hc. exact Hc.
  - intros p Hp.
    apply profile_handler_call in Hp as (f & l & b & _ & Hl & Hb & _).
    rewrite Hload in Hl. injection Hl as <-. congruence.
Qed.

(** *** A cycle whose collaborators all succeed returns *)

Lemma syncDiasendDataToNightscout_returns config services adapter args rt
    token batches existingProfile base :
  credentialsMissing config (diasendUsername args) (diasendPassword args) = false ->
  (forall i s u p, obtainDiasendAccessToken services i s u p = Ok token) ->
  (forall a b, getPatientData services token a b = Ok batches) ->
  orDefault (nightscoutProfileLoader args) (fetchProfile services) tt
  = Ok existingProfile ->
  mergeBase (cycleProfileName config args) existingProfile = Some base ->
  (forall ts, exists echoed,
     orDefault (nightscoutTreatmentsHandler args)
       (reportTreatmentsToNightscout services) ts = Fulfils echoed) ->
  (forall p, exists stored,
     orDefault (nightscoutProfileHandler args) (updateProfile services) p
     = Fulfils stored) ->
  exists res,
    outcome (syncDiasendDataToNightscout config services adapter args rt) = Ok res.
Proof.
  intros Hcred Htoken Hdata Hload Hbase Htreat Hprof.
  unfold credentialsMissing in Hcred. apply orb_false_iff in Hcred as [Hu Hp].
  unfold syncDiasendDataToNightscout, bind. cbn [clock outcome after].
  unfold getDiasendPatientData. rewrite Hu, Hp.
  unfold bind, await, allocRecords. cbn [outcome after].
  rewrite Htoken. cbn [outcome after]. rewrite Hdata. cbn [outcome after lift].
  rewrite identifyTreatments_spec. cbn [outcome after].
  rewrite Hload. cbn [outcome after].
  fold (cycleProfileName config args).
  fold (mergeBase (cycleProfileName config args) existingProfile).
  rewrite Hbase.
  match goal with
  | |- context [orDefault (nightscoutTreatmentsHandler args) _ ?ts] =>
      destruct (Htreat ts) as [echoed ->]
  end.
  match goal with
  | |- context [orDefault (nightscoutProfileHandler args) _ ?p] =>
      destruct (Hprof p) as [stored ->]
  end.
  cbn [await_all Promise_all ret outcome after]. eexists. reflexivity.
Qed.

(** ** The time cursor *)

Lemma latest_Permutation l l' : l ≡ₚ l' -> latest l = latest l'.
Proof.
  intros Hp.
  destruct (latest l) as [m|] eqn:Hl, (latest l') as [m'|] eqn:Hl'.
  - destruct (latest_is_max _ _ Hl) as [Hin Hmax].
    destruct (latest_is_max _ _ Hl') as [Hin' Hmax'].
    f_equal. apply Z.le_antisymm.
    + apply Hmax'. apply list_elem_of_In. rewrite <- Hp. apply list_elem_of_In, Hin.
    + apply Hmax. apply list_elem_of_In. rewrite Hp. apply list_elem_of_In, Hin'.
  - apply latest_None in Hl'. subst l'. apply Permutation_nil_r in Hp. subst l.
    discriminate Hl.
  - apply latest_None in Hl. subst l. apply Permutation_nil_l in Hp. subst l'.
    discriminate Hl'.
  - reflexivity.
Qed.

Lemma withDateTo_restore state :
  withDateTo (withDateTo state None) (dateTo state) = state.
Proof. destruct state; reflexivity. Qed.

Lemma syncDiasendGlucoseToNightscout_latest config services adapter args rt r :
  outcome (syncDiasendGlucoseToNightscout config services adapter args rt) = Ok r ->
  Glucose.latestRecordDate r = latest (date <$> Glucose.entries r).
Proof.
  unfold syncDiasendGlucoseToNightscout. intros Hrun.
  apply bind_outcome_Ok in Hrun as (today & [= <-] & Hrun).
  apply bind_outcome_Ok in Hrun as (fetched & _ & Hrun).
  apply bind_outcome_Ok in Hrun as (echoed & _ & Hrun).
  destruct echoed as [|e echoed].
  - cbn in Hrun. injection Hrun as <-. reflexivity.
  - change (0 <? length (e :: echoed))%nat with true in Hrun. cbv iota in Hrun.
    cbn [ret outcome] in Hrun. injection Hrun as <-.
    cbn [Glucose.entries Glucose.latestRecordDate].
    transitivity (latest (date <$> e :: echoed));
      [exact (head_sorted_latest date (e :: echoed))|].
    apply latest_Permutation, fmap_Permutation. symmetry.
    exact (Array_sort_Permutation byDateDescending (e :: echoed)).
Qed.

Lemma next_cursor_cases (d : Z) (current : option Z) (stamps : list Z) :
  current = Some d ->
  (forall t, In t stamps -> (d <= t)%Z) ->
  let next :=
    match latest stamps with
    | Some latestRecordDate => Some (latestRecordDate + 1000)%Z
    | None => current
    end in
  (stamps <> [] ->
     exists m, latest stamps = Some m /\ next = Some (m + 1000)%Z /\ (d < m + 1000)%Z)
  /\ (stamps = [] -> next = Some d).
Proof.
  intros -> Hwindow next. subst next. split.
  - intros Hne. destruct (latest stamps) as [m|] eqn:Hl.
    + exists m. split; [reflexivity|]. split; [reflexivity|].
      destruct (latest_is_max _ _ Hl) as [Hin _]. specialize (Hwindow m Hin). lia.
    + apply latest_None in Hl. contradiction.
  - intros ->. reflexivity.
Qed.

(** C3, as stated, fails in the treatments feed, both ways.  A cycle whose
    only fetched record cannot be resolved processes nothing (it reports no
    treatment and merges no basal record), yet its step moves [dateFrom]
    past that record; and a cycle that resolves and reports a carried-forward
    record while its fetch is empty processes a record, yet its step leaves
    [dateFrom] where it was. *)
Lemma cursor_does_not_follow_processed :
  (exists next,
     outcome (treatmentsStep Sample.config (Sample.services Sample.brokenFetch)
                Sample.adapter (Sample.from 0) Sample.start) = Ok next
     /\ processedRecords Sample.config (Sample.services Sample.brokenFetch)
          Sample.adapter (Sample.from 0) Sample.start = []
     /\ dateFrom next = Some 1801000%Z
     /\ ~ cursorFollowsProcessed Sample.config (Sample.services Sample.brokenFetch)
            Sample.adapter (Sample.from 0) Sample.start)
  /\ (exists next,
        outcome (treatmentsStep Sample.config (Sample.services []) Sample.adapter
                   (withPreviousRecords (Sample.from 0) (Some [Records.lateCarbs]))
                   Sample.start) = Ok next
        /\ processedRecords Sample.config (Sample.services []) Sample.adapter
             (withPreviousRecords (Sample.from 0) (Some [Records.lateCarbs]))
             Sample.start = [Records.lateCarbs]
        /\ dateFrom next = Some 0%Z
        /\ ~ cursorFollowsProcessed Sample.config (Sample.services [])
               Sample.adapter
               (withPreviousRecords (Sample.from 0) (Some [Records.lateCarbs]))
               Sample.start).
Proof.
  split.
  - destruct (outcome (treatmentsStep Sample.config (Sample.services Sample.brokenFetch)
                Sample.adapter (Sample.from 0) Sample.start))
      as [next|e] eqn:Hstep; [|vm_compute in Hstep; discriminate Hstep].
    assert (Hnext : dateFrom next = Some 1801000%Z).
    { pose proof Hstep as H. vm_compute in H. injection H as <-. reflexivity. }
    exists next. split; [reflexivity|]. split; [reflexivity|].
    split; [exact Hnext|]. intros Hstated.
    destruct (Hstated 0%Z (flatMapRecords Sample.brokenFetch 100) next
                eq_refl eq_refl) as [_ Hnone].
    + intros r [<-|[]]. vm_compute. discriminate.
    + exact Hstep.
    + specialize (Hnone eq_refl). rewrite Hnext in Hnone. discriminate Hnone.
  - destruct (outcome (treatmentsStep Sample.config (Sample.services []) Sample.adapter
                (withPreviousRecords (Sample.from 0) (Some [Records.lateCarbs]))
                Sample.start))
      as [next|e] eqn:Hstep; [|vm_compute in Hstep; discriminate Hstep].
    assert (Hnext : dateFrom next = Some 0%Z).
    { pose proof Hstep as H. vm_compute in H. injection H as <-. reflexivity. }
    exists next. split; [reflexivity|]. split; [reflexivity|].
    split; [exact Hnext|]. intros Hstated.
    destruct (Hstated 0%Z [] next eq_refl eq_refl) as [Hsome _].
    + intros r [].
    + exact Hstep.
    + destruct (Hsome ltac:(discriminate)) as (d' & Hd' & Hlt).
      rewrite Hnext in Hd'. injection Hd' as <-. lia.
Qed.

(** C3 (amended): in both feeds, when the step of a cycle returns and none of
    the timestamps its cursor is taken over (those of the echoed entries; those
    of the freshly fetched records other than glucose records, resolved or
    not) is earlier than the current [dateFrom], the next [dateFrom] is the
    latest of them plus one second, which is strictly later than the current
    one, if there is any, and is the current one if there is none. *)
Theorem cursor_monotonicity
    (config : Config) (services : Services) (adapter : Adapter)
    (feed : Feed) (state next : SyncArgs) (rt : Runtime) (d : Z) :
  dateFrom state = Some d ->
  outcome (stepOf config services adapter feed state rt) = Ok next ->
  exists stamps,
    cursorTimestamps config services adapter feed state rt = Ok stamps
    /\ ((forall t, In t stamps -> (d <= t)%Z) ->
        (stamps <> [] ->
           exists m, latest stamps = Some m
                     /\ dateFrom next = Some (m + 1000)%Z
                     /\ (d < m + 1000)%Z)
        /\ (stamps = [] -> dateFrom next = Some d)).
Proof.
  intros Hd Hstep. destruct feed; cbn [stepOf cursorTimestamps] in *.
  - unfold entriesStep in Hstep. rewrite withDateTo_restore in Hstep.
    apply bind_outcome_Ok in Hstep as (r & Hrun & Hnext).
    cbn [ret outcome] in Hnext. injection Hnext as <-.
    rewrite Hrun. eexists. split; [reflexivity|]. intros Hwindow.
    cbn [dateFrom withDateFrom withDateTo].
    rewrite (syncDiasendGlucoseToNightscout_latest _ _ _ _ _ _ Hrun).
    exact (next_cursor_cases d _ _ Hd Hwindow).
  - unfold treatmentsStep in Hstep. rewrite withDateTo_restore in Hstep.
    apply bind_outcome_Ok in Hstep as (r & Hrun & Hnext).
    cbn [ret outcome] in Hnext. injection Hnext as <-.
    cycle_stages Hrun. rewrite Hfetch. eexists. split; [reflexivity|].
    intros Hwindow. cbn [dateFrom withDateFrom withDateTo withPreviousRecords].
    rewrite Hlatest. exact (next_cursor_cases d _ _ Hd Hwindow).
Qed.

Lemma cursor_monotonicity_witness :
  (exists next,
     outcome (entriesStep Sample.config (Sample.services Sample.dayFetch)
                Sample.adapter (Sample.from 1000000) Sample.start) = Ok next
     /\ dateFrom next = Some 1901000%Z)
  /\ (exists next,
        outcome (treatmentsStep Sample.config (Sample.services Sample.dayFetch)
                   Sample.adapter (Sample.from 1000000) Sample.start) = Ok next
        /\ dateFrom next = Some 1501000%Z)
  /\ (exists next,
        outcome (treatmentsStep Sample.config (Sample.services [])
                   Sample.adapter (Sample.from 1000000) Sample.start) = Ok next
        /\ dateFrom next = Some 1000000%Z).
Proof.
  split; [|split].
  - destruct (outcome (entriesStep Sample.config (Sample.services Sample.dayFetch)
                Sample.adapter (Sample.from 1000000) Sample.start))
      as [next|e] eqn:Hstep; [|vm_compute in Hstep; discriminate Hstep].
    exists next. split; [reflexivity|].
    destruct (cursor_monotonicity Sample.config (Sample.services Sample.dayFetch)
                Sample.adapter EntriesFeed (Sample.from 1000000) next Sample.start
                1000000%Z eq_refl Hstep) as (stamps & Hstamps & Hcursor).
    vm_compute in Hstamps. injection Hstamps as Hstamps. subst stamps.
    destruct Hcursor as [Hsome _].
    { intros t [<-|[<-|[]]]; lia. }
    destruct (Hsome ltac:(discriminate)) as (m & Hm & Hnext & _).
    vm_compute in Hm. injection Hm as Hm. subst m. exact Hnext.
  - destruct (outcome (treatmentsStep Sample.config (Sample.services Sample.dayFetch)
                Sample.adapter (Sample.from 1000000) Sample.start))
      as [next|e] eqn:Hstep; [|vm_compute in Hstep; discriminate Hstep].
    exists next. split; [reflexivity|].
    destruct (cursor_monotonicity Sample.config (Sample.services Sample.dayFetch)
                Sample.adapter TreatmentsFeed (Sample.from 1000000) next Sample.start
                1000000%Z eq_refl Hstep) as (stamps & Hstamps & Hcursor).
    vm_compute in Hstamps. injection Hstamps as Hstamps. subst stamps.
    destruct Hcursor as [Hsome _].
    { intros t [<-|[<-|[<-|[]]]]; lia. }
    destruct (Hsome ltac:(discriminate)) as (m & Hm & Hnext & _).
    vm_compute in Hm. injection Hm as Hm. subst m. exact Hnext.
  - destruct (outcome (treatmentsStep Sample.config (Sample.services [])
                Sample.adapter (Sample.from 1000000) Sample.start))
      as [next|e] eqn:Hstep; [|vm_compute in Hstep; discriminate Hstep].
    exists next. split; [reflexivity|].
    destruct (cursor_monotonicity Sample.config (Sample.services [])
                Sample.adapter TreatmentsFeed (Sample.from 1000000) next Sample.start
                1000000%Z eq_refl Hstep) as (stamps & Hstamps & Hcursor).
    vm_compute in Hstamps. injection Hstamps as Hstamps. subst stamps.
    destruct Hcursor as [_ Hnone]; [intros t []|]. exact (Hnone eq_refl).
Defined.

(** ** Carry-forward along a run of the treatments loop *)

Lemma withDevice_oids d l ref :
  oid <$> withDevice d l ref = seq ref (length l).
Proof.
  revert ref. induction l as [|r l IH]; intros ref; [reflexivity|].
  cbn [withDevice fmap list_fmap length seq oid]. f_equal. apply IH.
Qed.

Lemma flatMapRecords_oids batches ref :
  oid <$> flatMapRecords batches ref = seq ref (length (flatMapRecords batches ref)).
Proof.
  revert ref. induction batches as [|b batches IH]; intros ref; [reflexivity|].
  cbn [flatMapRecords]. rewrite fmap_app, length_app, seq_app.
  rewrite withDevice_oids, IH.
  rewrite <- (length_fmap oid (withDevice _ _ _)), withDevice_oids, length_seq.
  reflexivity.
Qed.

(** What a fetch allocates: consecutive fresh references, one per record. *)
Lemma cycleFetch_alloc config services args rt :
  match outcome (cycleFetch config services args rt) with
  | Ok fetched =>
      oid <$> fetched = seq (nextRef rt) (length fetched)
      /\ nextRef (after (cycleFetch config services args rt))
         = nextRef rt + length fetched
  | Throw _ => after (cycleFetch config services args rt) = rt
  end.
Proof.
  unfold cycleFetch, getDiasendPatientData.
  destruct (notConfigured _); [reflexivity|].
  destruct (notConfigured _); [reflexivity|].
  unfold bind, await, allocRecords. cbn [outcome calls after].
  destruct (obtainDiasendAccessToken _ _ _ _ _) as [token|e]; cbn [outcome after];
    [|reflexivity].
  destruct (getPatientData _ _ _ _) as [batches|e]; cbn [outcome after nextRef];
    [|reflexivity].
  split; [apply flatMapRecords_oids|reflexivity].
Qed.

(** After its fetch a treatments cycle allocates no record object. *)
Lemma syncDiasendDataToNightscout_after config services adapter args rt :
  after (syncDiasendDataToNightscout config services adapter args rt)
  = after (cycleFetch config services args rt).
Proof.
  unfold syncDiasendDataToNightscout.
  rewrite bind_after. cbn [clock outcome after]. cbv beta.
  rewrite bind_after. fold (cycleFetch config services args rt).
  destruct (outcome (cycleFetch config services args rt)) as [fetched|e];
    [|reflexivity].
  rewrite bind_after. cbn [lift outcome after].
  destruct (identifyTreatments _ _) as [identified|e]; [|reflexivity].
  rewrite bind_after. cbn [await outcome after].
  destruct (orDefault (nightscoutProfileLoader args) _ _) as [existingProfile|e];
    [|reflexivity].
  destruct (asProfileConfig _); [|reflexivity].
  rewrite bind_after.
  destruct (orDefault (nightscoutTreatmentsHandler args) _ _) as [echoed|ea ta|ea];
    destruct (orDefault (nightscoutProfileHandler args) _ _) as [stored|eb tb|eb];
    cbn [await_all Promise_all outcome after]; try destruct (ta <=? tb)%Z;
    reflexivity.
Qed.

Lemma treatmentsStep_after config services adapter state rt :
  after (treatmentsStep config services adapter state rt)
  = after (cycleFetch config services state rt).
Proof.
  unfold treatmentsStep. rewrite withDateTo_restore.
  rewrite <- (syncDiasendDataToNightscout_after config services adapter).
  rewrite bind_after.
  destruct (outcome (syncDiasendDataToNightscout _ _ _ _ _)); reflexivity.
Qed.

Lemma cycleFetch_nextRef_mono config services args rt :
  nextRef rt <= nextRef (after (cycleFetch config services args rt)).
Proof.
  pose proof (cycleFetch_alloc config services args rt) as H.
  destruct (outcome (cycleFetch config services args rt)).
  - destruct H as [_ ->]. lia.
  - rewrite H. lia.
Qed.

Lemma List_filter_sublist {A} (f : A -> bool) l : List.filter f l `sublist_of` l.
Proof.
  induction l as [|x l IH]; cbn [List.filter]; [constructor|].
  destruct (f x); [apply sublist_skip|apply sublist_cons]; exact IH.
Qed.

Lemma List_filter_none {A} (f : A -> bool) l :
  (forall x, In x l -> f x = false) -> List.filter f l = [].
Proof.
  induction l as [|x l IH]; intros H; [reflexivity|].
  cbn [List.filter]. rewrite (H x (or_introl eq_refl)).
  apply IH. intros y Hy. apply H. right. exact Hy.
Qed.

Lemma previous_record_dropped previous p :
  In p previous ->
  (Array_indexOf same_object previous p =? -1)%Z = false.
Proof.
  intros Hp. apply Z.eqb_neq. intros Habsent.
  rewrite Array_indexOf_absent in Habsent. specialize (Habsent p Hp).
  unfold same_object in Habsent. rewrite Nat.eqb_refl in Habsent. discriminate.
Qed.

(** The records a cycle hands on are a selection of its sorted fresh records. *)
Lemma unprocessed_of_fresh resolve previous fresh identified :
  identifyTreatments resolve (previous ++ fresh) = Ok identified ->
  List.filter (fun record => (Array_indexOf same_object previous record =? -1)%Z)
    (unprocessedRecords identified) `sublist_of` fresh.
Proof.
  rewrite identifyTreatments_spec. intros [= <-]. cbn [unprocessedRecords].
  rewrite !List.filter_app.
  rewrite (List_filter_none _ (List.filter _ (List.filter _ previous))).
  - cbn [app]. etransitivity; [apply List_filter_sublist|].
    etransitivity; apply List_filter_sublist.
  - intros p Hp. apply filter_In in Hp as [Hp _]. apply filter_In in Hp as [Hp _].
    apply previous_record_dropped, Hp.
Qed.

(** What one step of the treatments loop carries forward are distinct
    objects, all allocated by this very step. *)
Lemma treatmentsStep_carried config services adapter state rt :
  let run := treatmentsStep config services adapter state rt in
  NoDup (carriedForward run)
  /\ forall o, In o (carriedForward run) -> nextRef rt <= o < nextRef (after run).
Proof.
  intros run. unfold carriedForward.
  destruct (outcome run) as [next|e] eqn:Hstep;
    [|split; [constructor|intros o []]].
  subst run. rewrite treatmentsStep_after.
  unfold treatmentsStep in Hstep. rewrite withDateTo_restore in Hstep.
  apply bind_outcome_Ok in Hstep as (res & Hrun & Hnext).
  cbn [ret outcome] in Hnext. injection Hnext as <-.
  cbn [previousRecords withPreviousRecords orDefault].
  cycle_stages Hrun.
  pose proof (cycleFetch_alloc config services state rt) as Halloc.
  rewrite Hfetch in Halloc. destruct Halloc as [Hoids ->].
  assert (Hsub : oid <$> Sync.unprocessedRecords res ⊆+ oid <$> fetched).
  { rewrite Hunprocessed.
    pose proof (unprocessed_of_fresh _ _ _ _ Hidentified) as Hs.
    etransitivity; [apply sublist_submseteq, fmap_sublist, Hs|].
    rewrite (Array_sort_Permutation byCreatedAtDescending (freshRecords fetched)).
    apply sublist_submseteq, fmap_sublist, List_filter_sublist. }
  rewrite Hoids in Hsub. split.
  - apply submseteq_Permutation in Hsub as [k Hk].
    pose proof (NoDup_seq (nextRef rt) (length fetched)) as Hnd.
    rewrite Hk in Hnd. apply NoDup_app in Hnd. tauto.
  - intros o Ho. apply list_elem_of_In in Ho.
    pose proof (elem_of_submseteq _ _ _ Ho Hsub) as Hin.
    apply elem_of_seq in Hin. lia.
Qed.

(** Along any run of the treatments loop, whatever its policy on failed
    steps, no record object is carried forward twice: the references handed
    from each cycle to the next are pairwise distinct over the whole run. *)
Lemma carried_forward_at_most_once config services adapter policy
    pollingIntervalMs iterations :
  let L := {| intervalMs := pollingIntervalMs;
              loopingFun := treatmentsStep config services adapter;
              label := "Treatments" |} in
  forall state rt,
    NoDup (concat (carriedForward <$> Looper_loop policy L iterations state rt))
    /\ forall o,
         In o (concat (carriedForward <$> Looper_loop policy L iterations state rt)) ->
         nextRef rt <= o.
Proof.
  intros L. induction iterations as [|n IH]; intros state rt.
  { split; [constructor|intros o []]. }
  cbn [Looper_loop fmap list_fmap concat loopingFun L].
  destruct (treatmentsStep_carried config services adapter state rt) as [Hnd Hrange].
  pose proof (cycleFetch_nextRef_mono config services state rt) as Hmono.
  rewrite <- (treatmentsStep_after config services adapter) in Hmono.
  set (run := treatmentsStep config services adapter state rt) in *.
  assert (Hrest : forall state' rt',
            nextRef (after run) <= nextRef rt' ->
            NoDup (carriedForward run
                     ++ concat (carriedForward <$> Looper_loop policy L n state' rt'))
            /\ forall o,
                 In o (carriedForward run
                         ++ concat (carriedForward <$> Looper_loop policy L n state' rt')) ->
                 nextRef rt <= o).
  { intros state' rt' Hle. destruct (IH state' rt') as [Hnd' Hlow]. split.
    - apply NoDup_app. split; [exact Hnd|]. split; [|exact Hnd'].
      intros o Ho Ho'. apply list_elem_of_In in Ho, Ho'.
      specialize (Hrange o Ho). specialize (Hlow o Ho'). lia.
    - intros o Ho. apply in_app_or in Ho as [Ho|Ho].
      + specialize (Hrange o Ho). lia.
      + specialize (Hlow o Ho). lia. }
  destruct (outcome run) as [next|e] eqn:Hout.
  - apply Hrest. cbn. lia.
  - destruct policy.
    + apply Hrest. cbn. lia.
    + apply Hrest. lia.
    + cbn [fmap list_fmap concat]. rewrite app_nil_r. split; [exact Hnd|].
      intros o Ho. specialize (Hrange o Ho). lia.
Qed.

(** ** Missing credentials *)

Lemma getDiasendPatientData_not_configured services u p i s a b rt :
  notConfigured u || notConfigured p = true ->
  failsBeforeAnyCall (getDiasendPatientData services u p i s a b rt).
Proof.
  unfold getDiasendPatientData, failsBeforeAnyCall. intros H.
  destruct (notConfigured u); [split; [reflexivity|eexists; reflexivity]|].
  destruct (notConfigured p); [split; [reflexivity|eexists; reflexivity]|].
  discriminate H.
Qed.

Lemma failsBeforeAnyCall_bind {A B} (m : Async A) (f : A -> Async B) rt :
  failsBeforeAnyCall (m rt) -> failsBeforeAnyCall (bind m f rt).
Proof.
  intros [Hcalls [e He]]. destruct (bind_Throw m f rt e He) as [Ho Hc].
  split; [congruence|]. exists e. exact Ho.
Qed.

Lemma cycle_not_configured config services adapter args rt :
  credentialsMissing config (diasendUsername args) (diasendPassword args) = true ->
  failsBeforeAnyCall (syncDiasendGlucoseToNightscout config services adapter args rt)
  /\ failsBeforeAnyCall (syncDiasendDataToNightscout config services adapter args rt).
Proof.
  intros Hmissing.
  pose proof (fun i s a b =>
    getDiasendPatientData_not_configured services _ _ i s a b rt Hmissing) as Hfetch.
  split.
  - unfold syncDiasendGlucoseToNightscout.
    match goal with
    | |- failsBeforeAnyCall (bind clock ?k rt) =>
        change (failsBeforeAnyCall
                  {| calls := calls (k (now rt) rt); after := after (k (now rt) rt);
                     outcome := outcome (k (now rt) rt) |})
    end.
    cbv beta.
    match goal with
    | |- failsBeforeAnyCall {| calls := calls ?r; after := _; outcome := _ |} =>
        assert (Hr : failsBeforeAnyCall r) by (apply failsBeforeAnyCall_bind, Hfetch);
        exact Hr
    end.
  - unfold syncDiasendDataToNightscout.
    match goal with
    | |- failsBeforeAnyCall (bind clock ?k rt) =>
        change (failsBeforeAnyCall
                  {| calls := calls (k (now rt) rt); after := after (k (now rt) rt);
                     outcome := outcome (k (now rt) rt) |})
    end.
    cbv beta.
    match goal with
    | |- failsBeforeAnyCall {| calls := calls ?r; after := _; outcome := _ |} =>
        assert (Hr : failsBeforeAnyCall r) by (apply failsBeforeAnyCall_bind, Hfetch);
        exact Hr
    end.
Qed.

Lemma step_not_configured config services adapter feed state rt :
  credentialsMissing config (diasendUsername state) (diasendPassword state) = true ->
  failsBeforeAnyCall (stepOf config services adapter feed state rt).
Proof.
  intros Hmissing.
  destruct (cycle_not_configured config services adapter state rt Hmissing) as [He Ht].
  destruct feed; cbn [stepOf]; unfold entriesStep, treatmentsStep;
    rewrite withDateTo_restore; apply failsBeforeAnyCall_bind; assumption.
Qed.

(** A loop whose step fails before any call in every state that satisfies
    [P] never performs a call when started in such a state, whatever the
    policy on failed steps and however long it runs. *)
Lemma Looper_loop_never_calls {S} (P : S -> Prop) policy (L : Looper S) :
  (forall state rt, P state -> failsBeforeAnyCall (loopingFun L state rt)) ->
  forall iterations state rt,
    P state -> Forall failsBeforeAnyCall (Looper_loop policy L iterations state rt).
Proof.
  intros Hstep. induction iterations as [|n IH]; intros state rt HP; cbn [Looper_loop].
  - constructor.
  - pose proof (Hstep state rt HP) as Hfail. constructor; [exact Hfail|].
    destruct Hfail as [_ [e ->]]. destruct policy; auto.
Qed.

(** C6, as stated, fails for [startSynchronization]: without a username it
    throws nothing and starts both loops; the error is thrown later, by the
    step of each loop. *)
Lemma startSynchronization_starts_without_credentials :
  credentialsMissing NoCredentials.config None None = true
  /\ ~ noLoopStarted
         (startSynchronization NoCredentials.config (Sample.services [])
            Sample.adapter None noArgs Sample.start)
  /\ exists entriesLoop treatmentsLoop,
       startSynchronization NoCredentials.config (Sample.services [])
         Sample.adapter None noArgs Sample.start
       = Ok [entriesLoop; treatmentsLoop]
       /\ label (looper entriesLoop) = "Entries"
       /\ label (looper treatmentsLoop) = "Treatments"
       /\ outcome (loopingFun (looper entriesLoop) (initialState entriesLoop)
                     Sample.start)
          = Throw "Diasend Username not configured"
       /\ outcome (loopingFun (looper treatmentsLoop) (initialState treatmentsLoop)
                     Sample.start)
          = Throw "Diasend Username not configured".
Proof.
  split; [reflexivity|]. split.
  - cbn. discriminate.
  - eexists. eexists. split; [reflexivity|].
    repeat split; vm_compute; reflexivity.
Qed.

(** C6 (amended): with a username or password absent,
    [startPumpSettingsSynchronization] throws at start-up and starts no loop;
    [startSynchronization] starts its two loops all the same, but every cycle
    of either loop throws in [getDiasendPatientData] before any collaborator
    is called: no token request, fetch, report, profile load or profile
    update is ever invoked, whatever the loop does after a failed step. *)
Theorem missing_credentials_reach_no_collaborator
    (config : Config) (services : Services) (adapter : Adapter)
    (username password : option string) :
  credentialsMissing config username password = true ->
  (forall pargs,
     pump_diasendUsername pargs = username ->
     pump_diasendPassword pargs = password ->
     noLoopStarted (startPumpSettingsSynchronization config services adapter pargs)
     /\ exists e, startPumpSettingsSynchronization config services adapter pargs = Throw e)
  /\ (forall args rt,
        diasendUsername args = username ->
        diasendPassword args = password ->
        failsBeforeAnyCall (syncDiasendGlucoseToNightscout config services adapter args rt)
        /\ failsBeforeAnyCall (syncDiasendDataToNightscout config services adapter args rt))
  /\ (forall args pollingIntervalMs rt,
        diasendUsername args = username ->
        diasendPassword args = password ->
        exists entriesLoop treatmentsLoop,
          startSynchronization config services adapter pollingIntervalMs args rt
          = Ok [entriesLoop; treatmentsLoop]
          /\ forall loop, In loop [entriesLoop; treatmentsLoop] ->
             forall policy iterations rt',
               Forall failsBeforeAnyCall
                 (Looper_loop policy (looper loop) iterations (initialState loop) rt')).
Proof.
  intros Hmissing. split; [|split].
  - intros pargs <- <-. unfold startPumpSettingsSynchronization.
    unfold credentialsMissing in Hmissing.
    destruct (notConfigured (orElse (pump_diasendUsername pargs) _));
      [split; [exact I|eexists; reflexivity]|].
    destruct (notConfigured (orElse (pump_diasendPassword pargs) _));
      [split; [exact I|eexists; reflexivity]|].
    discriminate Hmissing.
  - intros args rt <- <-. apply cycle_not_configured, Hmissing.
  - intros args pollingIntervalMs rt <- <-. eexists. eexists.
    split; [reflexivity|].
    intros loop Hloop policy iterations rt'.
    set (P := fun state : SyncArgs =>
                credentialsMissing config (diasendUsername state) (diasendPassword state)
                = true).
    destruct Hloop as [<-|[<-|[]]]; cbn [looper initialState].
    + apply (Looper_loop_never_calls P); [|exact Hmissing].
      intros state rt0 HP. exact (step_not_configured _ _ _ EntriesFeed _ _ HP).
    + apply (Looper_loop_never_calls P); [|exact Hmissing].
      intros state rt0 HP. exact (step_not_configured _ _ _ TreatmentsFeed _ _ HP).
Qed.

Lemma missing_credentials_reach_no_collaborator_witness :
  startPumpSettingsSynchronization NoCredentials.config (Sample.services [])
    Sample.adapter NoCredentials.pumpArgs
  = Throw "Diasend Username not configured"
  /\ Forall failsBeforeAnyCall
       (Looper_loop LogAndContinue
          {| intervalMs := interval;
             loopingFun := treatmentsStep NoCredentials.config (Sample.services [])
                             Sample.adapter;
             label := "Treatments" |}
          3 (withDateFrom noArgs (Some (7200000 - interval)%Z)) Sample.start).
Proof.
  destruct (missing_credentials_reach_no_collaborator NoCredentials.config
              (Sample.services []) Sample.adapter None None eq_refl)
    as (Hpump & _ & Hloops).
  split.
  - destruct (Hpump NoCredentials.pumpArgs eq_refl eq_refl) as [_ [e He]].
    rewrite He. vm_compute in He. symmetry. exact He.
  - destruct (Hloops noArgs None Sample.start eq_refl eq_refl)
      as (entriesLoop & treatmentsLoop & Hstart & Hnever).
    cbn in Hstart. injection Hstart as <- <-.
    apply (Hnever _ (or_intror (or_introl eq_refl)) LogAndContinue 3%nat Sample.start).
Defined.

(** ** The basal profile merger *)

Section BasalMergeFacts.
Import SpecAdapter.
Variable toTimeBasedValue : PatientRecordWithDeviceData -> TimeBasedValue.

Lemma toPair_ofPair p : toPair (ofPair p) = p.
Proof. destruct p; reflexivity. Qed.

Lemma laterWins_app (l1 l2 : list (nat * Z)) :
  laterWins (l1 ++ l2) = laterWins l2 ∪ laterWins l1.
Proof. unfold laterWins. rewrite reverse_app. apply list_to_map_app. Qed.

#[local] Instance earlierTime_total : Total earlierTime.
Proof. intros a b. unfold earlierTime. lia. Qed.

#[local] Instance earlierTime_trans : Transitive earlierTime.
Proof. intros a b c. unfold earlierTime. lia. Qed.

Lemma toPair_scheduleOf (m : gmap nat Z) :
  toPair <$> scheduleOf m = merge_sort earlierTime (map_to_list m).
Proof.
  unfold scheduleOf. rewrite <- list_fmap_compose.
  rewrite <- (list_fmap_id (merge_sort _ _)) at 2.
  apply list_fmap_ext. intros _ p _. apply toPair_ofPair.
Qed.

(** Reading a schedule back from its ordered sequence gives the schedule. *)
Lemma laterWins_scheduleOf (m : gmap nat Z) :
  laterWins (toPair <$> scheduleOf m) = m.
Proof.
  rewrite toPair_scheduleOf. unfold laterWins.
  rewrite <- (list_to_map_to_list m) at 2.
  symmetry. apply list_to_map_proper; [apply NoDup_fst_map_to_list|].
  rewrite reverse_Permutation, merge_sort_Permutation. reflexivity.
Qed.

Lemma strictly_sorted (l : list (nat * Z)) :
  StronglySorted earlierTime l -> NoDup (l.*1) ->
  StronglySorted (fun a b => a.1 < b.1) l.
Proof.
  induction 1 as [|x l Hl IH Hx]; intros Hnd; [constructor|].
  rewrite fmap_cons in Hnd. apply NoDup_cons in Hnd as [Hnotin Hnd].
  constructor; [exact (IH Hnd)|].
  apply Forall_forall. intros y Hy.
  rewrite Forall_forall in Hx. specialize (Hx y Hy). unfold earlierTime in Hx.
  assert (x.1 <> y.1).
  { intros Heq. apply Hnotin. rewrite Heq. apply list_elem_of_fmap. eauto. }
  lia.
Qed.

Lemma scheduleOf_sorted (m : gmap nat Z) :
  StronglySorted (fun a b => time a < time b) (scheduleOf m)
  /\ NoDup (time <$> scheduleOf m).
Proof.
  assert (Hnd : NoDup ((merge_sort earlierTime (map_to_list m)).*1)).
  { rewrite merge_sort_Permutation. apply NoDup_fst_map_to_list. }
  split.
  - unfold scheduleOf.
    apply (StronglySorted_fmap ofPair (fun a b => a.1 < b.1)); [auto|].
    apply strictly_sorted; [|exact Hnd].
    apply StronglySorted_merge_sort; apply _.
  - unfold scheduleOf. rewrite <- list_fmap_compose. exact Hnd.
Qed.

(** C9: merging the same observed records a second time changes nothing, and
    the merged schedule is strictly ascending in its time of day, so no
    time of day occurs twice; this holds whatever the conversion of a
    record into a time-of-day/rate pair is. *)
Theorem updateBasalProfile_idempotent
    (basalProfile : list TimeBasedValue)
    (basalRecords : list PatientRecordWithDeviceData) :
  let merged := updateBasalProfile toTimeBasedValue basalProfile basalRecords in
  updateBasalProfile toTimeBasedValue merged basalRecords = merged
  /\ StronglySorted (fun a b => time a < time b) merged
  /\ NoDup (time <$> merged).
Proof.
  intros merged. split; [|apply scheduleOf_sorted].
  subst merged. unfold updateBasalProfile at 1 2. f_equal.
  rewrite laterWins_app. unfold updateBasalProfile.
  rewrite laterWins_scheduleOf, laterWins_app.
  rewrite (assoc_L (∪)), (idemp_L (∪)). reflexivity.
Qed.
End BasalMergeFacts.

(** The merge on a concrete schedule: the rate observed at 00:30 replaces
    the stored one, the rate at 06:00 is added, midnight is kept. *)
Example updateBasalProfile_example :
  SpecAdapter.updateBasalProfile SpecAdapter.minuteOfDay
    [{| time := 30; rate := 700%Z |}; {| time := 0; rate := 500%Z |}]
    [Records.mkRecord 7 insulin_basal 1800000 (Some 900%Z);
     Records.mkRecord 8 insulin_basal 21600000 (Some 1100%Z)]
  = [{| time := 0; rate := 500%Z |}; {| time := 30; rate := 900%Z |};
     {| time := 360; rate := 1100%Z |}].
Proof. vm_compute. reflexivity. Qed.

(** ** The cycles, call by call *)

(** The fetch of a cycle in full: which calls it makes, what it allocates and
    how it ends. *)
Lemma cycleFetch_run config services args rt :
  cycleFetch config services args rt =
    if notConfigured (orElse (diasendUsername args) (config_diasend_username config))
    then throw "Diasend Username not configured" rt
    else if notConfigured (orElse (diasendPassword args) (config_diasend_password config))
    then throw "Diasend Password not configured" rt
    else
      match obtainDiasendAccessToken services (effectiveClientId config args)
              (effectiveClientSecret config args) (effectiveUsername config args)
              (effectivePassword config args) with
      | Throw e =>
          {| calls := [tokenCall config args]; after := rt; outcome := Throw e |}
      | Ok token =>
          match getPatientData services token (windowStart args rt) (windowEnd args rt) with
          | Throw e =>
              {| calls := [tokenCall config args; fetchCall token args rt];
                 after := rt; outcome := Throw e |}
          | Ok batches =>
              {| calls := [tokenCall config args; fetchCall token args rt];
                 after := {| nextRef :=
                               nextRef rt + length (flatMapRecords batches (nextRef rt));
                             now := now rt |};
                 outcome := Ok (flatMapRecords batches (nextRef rt)) |}
          end
      end.
Proof.
  unfold cycleFetch, getDiasendPatientData, tokenCall, fetchCall, effectiveClientId,
    effectiveClientSecret, effectiveUsername, effectivePassword, windowStart, windowEnd.
  destruct (notConfigured _); [reflexivity|].
  destruct (notConfigured _); [reflexivity|].
  unfold bind, await, allocRecords. cbn [outcome calls after].
  destruct (obtainDiasendAccessToken _ _ _ _ _) as [token|e]; [|reflexivity].
  cbn [outcome calls after].
  destruct (getPatientData _ _ _ _) as [batches|e]; reflexivity.
Qed.

Lemma bind_outcome {A B} (m : Async A) (f : A -> Async B) rt :
  outcome (bind m f rt) =
    match outcome (m rt) with
    | Ok a => outcome (f a (after (m rt)))
    | Throw e => Throw e
    end.
Proof. unfold bind. destruct (outcome (m rt)); reflexivity. Qed.

(** The glucose cycle in full. *)
Lemma syncDiasendGlucoseToNightscout_run config services adapter args rt :
  let run := syncDiasendGlucoseToNightscout config services adapter args rt in
  let fetch := cycleFetch config services args rt in
  match outcome fetch with
  | Throw e => calls run = calls fetch /\ outcome run = Throw e
  | Ok fetched =>
      let sent :=
        map (diasendGlucoseRecordToNightscoutEntry adapter)
          (List.filter isGlucose fetched) in
      calls run = calls fetch ++ [CallEntriesHandler sent]
      /\ outcome run =
           match orDefault (nightscoutEntriesHandler args)
                   (reportEntriesToNightscout services) sent with
           | Throw e => Throw e
           | Ok echoed =>
               Ok {| Glucose.entries := Array_sort byDateDescending echoed;
                     Glucose.latestRecordDate := latest (date <$> echoed) |}
           end
  end.
Proof.
  intros run fetch. subst run. unfold syncDiasendGlucoseToNightscout.
  rewrite bind_calls, bind_outcome. cbn [clock outcome after calls app]. cbv beta.
  rewrite bind_calls, bind_outcome.
  fold (cycleFetch config services args rt). fold fetch.
  destruct (outcome fetch) as [fetched|e]; [|split; reflexivity].
  cbv zeta. rewrite bind_calls, bind_outcome. cbn [await outcome calls after].
  destruct (orDefault (nightscoutEntriesHandler args) _ _) as [echoed|e];
    [|split; reflexivity].
  destruct echoed as [|x echoed].
  - cbn. split; reflexivity.
  - change (0 <? length (x :: echoed))%nat with true. cbv iota.
    cbn [ret calls outcome]. rewrite app_nil_r. split; [reflexivity|].
    do 2 f_equal. exact (head_sorted_latest date (x :: echoed)).
Qed.

Lemma await_all_outcome {A B} ca (pa : Answer A) cb (pb : Answer B) rt :
  outcome (await_all ca pa cb pb rt) = settledTogether pa pb.
Proof. destruct pa, pb; reflexivity. Qed.

Lemma await_all_calls {A B} ca (pa : Answer A) cb (pb : Answer B) rt :
  calls (await_all ca pa cb pb rt) = ca :: if throwsSync pa then [] else [cb].
Proof. destruct pa, pb; reflexivity. Qed.

(** How the treatments cycle ends, stage by stage. *)
Lemma syncDiasendDataToNightscout_outcome config services adapter args rt :
  let run := syncDiasendDataToNightscout config services adapter args rt in
  let name := cycleProfileName config args in
  match outcome (cycleFetch config services args rt) with
  | Throw e => outcome run = Throw e
  | Ok fetched =>
      exists identified,
        identifyTreatments (diasendRecordToNightscoutTreatment adapter)
          (cycleRecords args fetched) = Ok identified
        /\ match orDefault (nightscoutProfileLoader args) (fetchProfile services) tt with
           | Throw e => outcome run = Throw e
           | Ok existingProfile =>
               match mergeBase name existingProfile with
               | None =>
                   outcome run =
                     Throw "TypeError: Cannot read properties of undefined (reading 'basal')"
               | Some base =>
                   outcome run =
                     match settledTogether
                             (orDefault (nightscoutTreatmentsHandler args)
                                (reportTreatmentsToNightscout services)
                                (treatments identified))
                             (orDefault (nightscoutProfileHandler args)
                                (updateProfile services)
                                (cycleProfile adapter name existingProfile base
                                   (cycleRecords args fetched))) with
                     | Ok reported =>
                         Ok {| Sync.treatments := orDefault (fst reported) [];
                               Sync.profile := snd reported;
                               Sync.latestRecordDate :=
                                 latest (rcreated_at <$> freshRecords fetched);
                               Sync.unprocessedRecords :=
                                 List.filter
                                   (fun record =>
                                      (Array_indexOf same_object
                                         (orDefault (previousRecords args) []) record
                                       =? -1)%Z)
                                   (unprocessedRecords identified) |}
                     | Throw e => Throw e
                     end
               end
           end
  end.
Proof.
  intros run name. subst run. unfold syncDiasendDataToNightscout.
  rewrite bind_outcome. cbn [clock outcome after]. cbv beta.
  rewrite bind_outcome. fold (cycleFetch config services args rt).
  destruct (outcome (cycleFetch config services args rt)) as [fetched|e];
    [|reflexivity].
  rewrite !sorted_when_nonempty, !latest_when_nonempty.
  fold (freshRecords fetched). fold (cycleRecords args fetched).
  fold (cycleProfileName config args). fold name.
  rewrite bind_outcome. cbn [lift outcome after].
  rewrite identifyTreatments_spec. eexists. split; [reflexivity|].
  rewrite bind_outcome. cbn [await outcome after].
  destruct (orDefault (nightscoutProfileLoader args) _ _) as [existingProfile|e];
    [|reflexivity].
  fold (mergeBase name existingProfile).
  destruct (mergeBase name existingProfile) as [base|]; [|reflexivity].
  fold (cycleProfile adapter name existingProfile base (cycleRecords args fetched)).
  rewrite bind_outcome, await_all_outcome.
  destruct (settledTogether _ _) as [reported|e]; reflexivity.
Qed.

(** * Further properties of the code *)

(** ** Fetching from the source *)

Lemma credentials_present config args :
  credentialsMissing config (diasendUsername args) (diasendPassword args) = false ->
  notConfigured (orElse (diasendUsername args) (config_diasend_username config)) = false
  /\ notConfigured (orElse (diasendPassword args) (config_diasend_password config)) = false.
Proof. unfold credentialsMissing. apply orb_false_iff. Qed.

(** X1: a failure of the source is not masked and stops the cycle at once.
    When the token request or the fetch throws, either cycle throws the very
    same error, and its only calls are the token request and, if the token
    was obtained, the fetch: no report, profile load or profile update
    follows. *)
Theorem source_failure_propagates
    (config : Config) (services : Services) (adapter : Adapter)
    (args : SyncArgs) (rt : Runtime) (e : string) :
  credentialsMissing config (diasendUsername args) (diasendPassword args) = false ->
  outcome (cycleFetch config services args rt) = Throw e ->
  let glucoseRun := syncDiasendGlucoseToNightscout config services adapter args rt in
  let dataRun := syncDiasendDataToNightscout config services adapter args rt in
  let sourceCalls :=
    match obtainDiasendAccessToken services (effectiveClientId config args)
            (effectiveClientSecret config args) (effectiveUsername config args)
            (effectivePassword config args) with
    | Throw _ => [tokenCall config args]
    | Ok token => [tokenCall config args; fetchCall token args rt]
    end in
  outcome glucoseRun = Throw e /\ calls glucoseRun = sourceCalls
  /\ outcome dataRun = Throw e /\ calls dataRun = sourceCalls.
Proof.
  intros Hcred Hfail glucoseRun dataRun sourceCalls.
  destruct (credentials_present _ _ Hcred) as [Hu Hp].
  assert (Hcalls : calls (cycleFetch config services args rt) = sourceCalls).
  { subst sourceCalls. rewrite cycleFetch_run in Hfail |- *. rewrite Hu, Hp in *.
    destruct (obtainDiasendAccessToken _ _ _ _ _) as [token|e']; [|reflexivity].
    destruct (getPatientData _ _ _ _) as [batches|e']; [discriminate Hfail|reflexivity]. }
  pose proof (syncDiasendGlucoseToNightscout_run config services adapter args rt) as Hg.
  pose proof (syncDiasendDataToNightscout_outcome config services adapter args rt) as Hd.
  pose proof (syncDiasendDataToNightscout_calls config services adapter args rt) as Hc.
  cbv zeta in Hg, Hd, Hc. rewrite Hfail in Hg, Hd, Hc. destruct Hg as [Hg1 Hg2].
  subst glucoseRun dataRun. rewrite <- Hcalls. auto.
Qed.

Lemma source_failure_propagates_witness :
  outcome (syncDiasendDataToNightscout Sample.config Faulty.noToken Sample.adapter
             (Sample.from 0) Sample.start) = Throw "401 Unauthorized"
  /\ calls (syncDiasendDataToNightscout Sample.config Faulty.noToken Sample.adapter
              (Sample.from 0) Sample.start)
     = [CallObtainDiasendAccessToken "client" "client-secret" "patient" "secret"].
Proof.
  destruct (source_failure_propagates Sample.config Faulty.noToken Sample.adapter
              (Sample.from 0) Sample.start "401 Unauthorized" eq_refl eq_refl)
    as (_ & _ & Hout & Hcalls).
  split; [exact Hout|exact Hcalls].
Defined.

Lemma withDevice_tagged d l ref :
  (fun r => (device r, data r)) <$> withDevice d l ref = pair d <$> l.
Proof.
  revert ref. induction l as [|r l IH]; intros ref; [reflexivity|].
  cbn [withDevice fmap list_fmap device data]. f_equal. apply IH.
Qed.

Lemma flatMapRecords_tagged batches ref :
  (fun r => (device r, data r)) <$> flatMapRecords batches ref = taggedRecords batches.
Proof.
  revert ref. unfold taggedRecords.
  induction batches as [|b batches IH]; intros ref; [reflexivity|].
  cbn [flatMapRecords fmap list_fmap concat].
  rewrite fmap_app, withDevice_tagged. f_equal. apply IH.
Qed.

(** X2: what a fetch returns is what the source sent, flattened: every record
    of every device batch, in order, with its data untouched and tagged with
    the device of its own batch; and each is a new object, with a reference
    that no earlier object has. *)
Theorem fetched_records_keep_data_and_device
    (config : Config) (services : Services) (args : SyncArgs) (rt : Runtime)
    (fetched : list PatientRecordWithDeviceData) :
  outcome (cycleFetch config services args rt) = Ok fetched ->
  exists token batches,
    obtainDiasendAccessToken services (effectiveClientId config args)
      (effectiveClientSecret config args) (effectiveUsername config args)
      (effectivePassword config args) = Ok token
    /\ getPatientData services token (windowStart args rt) (windowEnd args rt)
       = Ok batches
    /\ (fun r => (device r, data r)) <$> fetched = taggedRecords batches
    /\ NoDup (oid <$> fetched)
    /\ (forall r, In r fetched ->
          nextRef rt <= oid r < nextRef (after (cycleFetch config services args rt))).
Proof.
  intros Hfetch. pose proof (cycleFetch_alloc config services args rt) as Halloc.
  rewrite Hfetch in Halloc. destruct Halloc as [Hoids Hnext].
  rewrite cycleFetch_run in Hfetch.
  destruct (notConfigured _); [discriminate Hfetch|].
  destruct (notConfigured _); [discriminate Hfetch|].
  destruct (obtainDiasendAccessToken _ _ _ _ _) as [token|e']; [|discriminate Hfetch].
  destruct (getPatientData _ _ _ _) as [batches|e'] eqn:Hdata; [|discriminate Hfetch].
  cbn [outcome] in Hfetch. injection Hfetch as Hfetched.
  exists token, batches. split; [reflexivity|]. split; [exact Hdata|]. split.
  { rewrite <- Hfetched. apply flatMapRecords_tagged. }
  split.
  { rewrite Hoids. apply NoDup_seq. }
  intros r Hr. rewrite Hnext.
  assert (Ho : oid r ∈ oid <$> fetched).
  { apply list_elem_of_fmap. exists r. split; [reflexivity|apply list_elem_of_In, Hr]. }
  rewrite Hoids in Ho. apply elem_of_seq in Ho. lia.
Qed.

Lemma fetched_records_keep_data_and_device_witness :
  exists fetched,
    outcome (cycleFetch Sample.config (Sample.services Sample.dayFetch)
               (Sample.from 0) Sample.start) = Ok fetched
    /\ device <$> fetched = replicate 5 Records.pump
    /\ NoDup (oid <$> fetched).
Proof.
  destruct (fetched_records_keep_data_and_device Sample.config
              (Sample.services Sample.dayFetch) (Sample.from 0) Sample.start
              (flatMapRecords Sample.dayFetch 100) eq_refl)
    as (token & batches & _ & _ & _ & Hnodup & _).
  eexists. split; [reflexivity|]. split; [reflexivity|exact Hnodup].
Defined.

(** ** The glucose cycle *)

(** X3: once the fetch has returned, the glucose cycle calls the entries
    handler exactly once, with the entries of the glucose records of the
    fetch in fetch order and of nothing else; it does so even when the fetch
    holds no glucose record, with an empty list. *)
Theorem glucose_cycle_reports_glucose_only
    (config : Config) (services : Services) (adapter : Adapter)
    (args : SyncArgs) (rt : Runtime) (fetched : list PatientRecordWithDeviceData) :
  outcome (cycleFetch config services args rt) = Ok fetched ->
  let run := syncDiasendGlucoseToNightscout config services adapter args rt in
  let sent :=
    diasendGlucoseRecordToNightscoutEntry adapter <$> List.filter isGlucose fetched in
  In (CallEntriesHandler sent) (calls run)
  /\ (forall es, In (CallEntriesHandler es) (calls run) -> es = sent)
  /\ length (List.filter (fun c => negb (isSourceCall c)) (calls run)) = 1
  /\ ((forall r, In r fetched -> rtype r <> glucose) -> sent = []).
Proof.
  intros Hfetch run sent.
  pose proof (syncDiasendGlucoseToNightscout_run config services adapter args rt) as Hrun.
  cbv zeta in Hrun. rewrite Hfetch in Hrun. destruct Hrun as [Hcalls _].
  fold run in Hcalls. change (map ?f ?l) with (f <$> l) in Hcalls. fold sent in Hcalls.
  assert (Hsource : forall c, In c (calls (cycleFetch config services args rt)) ->
                      isSourceCall c = true).
  { intros c Hc. apply cycleFetch_calls in Hc as [(?&?&?&?&->)|(?&?&?&->)]; reflexivity. }
  rewrite Hcalls. split; [apply in_or_app; right; simpl; auto|]. split.
  { intros es Hes. apply in_app_or in Hes as [Hes|Hes].
    - apply Hsource in Hes. discriminate Hes.
    - destruct Hes as [[= <-]|[]]. reflexivity. }
  split.
  { rewrite List.filter_app, (List_filter_none _ (calls _)); [reflexivity|].
    intros c Hc. rewrite (Hsource c Hc). reflexivity. }
  intros Hnone. subst sent. rewrite (List_filter_none isGlucose fetched); [reflexivity|].
  intros r Hr. unfold isGlucose. apply bool_decide_eq_false_2, Hnone, Hr.
Qed.

Lemma glucose_cycle_reports_glucose_only_witness :
  In (CallEntriesHandler
        [{| date := 1000000; sgv := 110; entry_device := "pump" |};
         {| date := 1900000; sgv := 140; entry_device := "pump" |}])
     (calls (syncDiasendGlucoseToNightscout Sample.config
               (Sample.services Sample.dayFetch) Sample.adapter
               (Sample.from 0) Sample.start)).
Proof.
  destruct (glucose_cycle_reports_glucose_only Sample.config
              (Sample.services Sample.dayFetch) Sample.adapter
              (Sample.from 0) Sample.start
              (flatMapRecords Sample.dayFetch 100) eq_refl)
    as (Hin & _).
  exact Hin.
Defined.

(** X4: the glucose cycle returns what the sink echoed, reordered latest
    first, and takes [latestRecordDate] from that echo, not from what it
    sent: it is the latest date echoed, and [null] exactly when the sink
    echoes nothing. *)
Theorem glucose_cycle_returns_echo_latest_first
    (config : Config) (services : Services) (adapter : Adapter)
    (args : SyncArgs) (rt : Runtime) (r : Glucose.result) :
  outcome (syncDiasendGlucoseToNightscout config services adapter args rt) = Ok r ->
  exists fetched echoed,
    outcome (cycleFetch config services args rt) = Ok fetched
    /\ orDefault (nightscoutEntriesHandler args) (reportEntriesToNightscout services)
         (diasendGlucoseRecordToNightscoutEntry adapter <$> List.filter isGlucose fetched)
       = Ok echoed
    /\ Glucose.entries r ≡ₚ echoed
    /\ StronglySorted (fun a b => (date b <= date a)%Z) (Glucose.entries r)
    /\ Glucose.latestRecordDate r = latest (date <$> echoed)
    /\ Glucose.latestRecordDate r = date <$> head (Glucose.entries r)
    /\ (Glucose.latestRecordDate r = None <-> echoed = []).
Proof.
  intros Hok.
  pose proof (syncDiasendGlucoseToNightscout_run config services adapter args rt) as Hrun.
  cbv zeta in Hrun.
  destruct (outcome (cycleFetch config services args rt)) as [fetched|e];
    [|destruct Hrun as [_ Hrun]; congruence].
  destruct Hrun as [_ Hrun]. rewrite Hok in Hrun.
  change (map ?f ?l) with (f <$> l) in Hrun.
  destruct (orDefault (nightscoutEntriesHandler args) _ _) as [echoed|e] eqn:Hecho;
    [|discriminate Hrun].
  injection Hrun as ->. exists fetched, echoed.
  cbn [Glucose.entries Glucose.latestRecordDate].
  split; [reflexivity|]. split; [exact Hecho|].
  split; [apply Array_sort_Permutation|].
  split; [exact (Array_sort_descending date echoed)|].
  split; [reflexivity|].
  split; [symmetry; exact (head_sorted_latest date echoed)|].
  rewrite latest_None. destruct echoed; split; intros H; try discriminate H; reflexivity.
Qed.

Lemma glucose_cycle_returns_echo_latest_first_witness :
  exists r,
    outcome (syncDiasendGlucoseToNightscout Sample.config
               (Sample.services Sample.dayFetch) Sample.adapter
               (Sample.from 0) Sample.start) = Ok r
    /\ date <$> Glucose.entries r = [1900000%Z; 1000000%Z]
    /\ Glucose.latestRecordDate r = Some 1900000%Z.
Proof.
  destruct (outcome (syncDiasendGlucoseToNightscout Sample.config
               (Sample.services Sample.dayFetch) Sample.adapter
               (Sample.from 0) Sample.start)) as [r|e] eqn:Hrun;
    [|vm_compute in Hrun; discriminate Hrun].
  destruct (glucose_cycle_returns_echo_latest_first _ _ _ _ _ _ Hrun)
    as (fetched & echoed & _ & _ & _ & _ & _ & Hhead & _).
  exists r. split; [reflexivity|].
  vm_compute in Hrun. injection Hrun as <-. split; reflexivity.
Defined.

(** ** The treatments cycle: failures of the sink *)

(** X5: when the profile cannot be loaded, or its store has no property,
    own or inherited, under the profile name nor under its default name, the
    treatments cycle throws (the loader's error, or a [TypeError]) right
    after the load: neither handler is called, so the treatments it has
    identified are not reported. *)
Theorem profile_unavailable_blocks_report
    (config : Config) (services : Services) (adapter : Adapter)
    (args : SyncArgs) (rt : Runtime) (fetched : list PatientRecordWithDeviceData) :
  outcome (cycleFetch config services args rt) = Ok fetched ->
  match orDefault (nightscoutProfileLoader args) (fetchProfile services) tt with
  | Throw _ => True
  | Ok existingProfile => mergeBase (cycleProfileName config args) existingProfile = None
  end ->
  let run := syncDiasendDataToNightscout config services adapter args rt in
  outcome run =
    match orDefault (nightscoutProfileLoader args) (fetchProfile services) tt with
    | Throw e => Throw e
    | Ok _ => Throw "TypeError: Cannot read properties of undefined (reading 'basal')"
    end
  /\ calls run = calls (cycleFetch config services args rt) ++ [CallProfileLoader]
  /\ (forall ts, ~ In (CallTreatmentsHandler ts) (calls run))
  /\ (forall p, ~ In (CallProfileHandler p) (calls run)).
Proof.
  intros Hfetch Hprofile run.
  pose proof (syncDiasendDataToNightscout_outcome config services adapter args rt) as Ho.
  pose proof (syncDiasendDataToNightscout_calls config services adapter args rt) as Hc.
  cbv zeta in Ho, Hc. rewrite Hfetch in Ho, Hc.
  destruct Ho as (identified & _ & Ho). destruct Hc as (identified' & _ & Hc).
  fold run in Ho, Hc.
  assert (Hcalls : calls run
                   = calls (cycleFetch config services args rt) ++ [CallProfileLoader]).
  { destruct (orDefault (nightscoutProfileLoader args) _ _) as [existingProfile|e];
      [rewrite Hprofile in Hc|]; exact Hc. }
  destruct (cycleFetch_calls_no_handler config services args rt) as [Hnop Hnot].
  split.
  { destruct (orDefault (nightscoutProfileLoader args) _ _) as [existingProfile|e];
      [rewrite Hprofile in Ho|]; exact Ho. }
  split; [exact Hcalls|]. rewrite Hcalls.
  split; intros x Hx; apply in_app_or in Hx as [Hx|[Hx|[]]];
    try discriminate Hx; [exact (Hnot _ Hx)|exact (Hnop _ Hx)].
Qed.

Lemma profile_unavailable_blocks_report_witness :
  outcome (syncDiasendDataToNightscout Sample.config Faulty.noProfile Sample.adapter
             (Sample.from 0) Sample.start) = Throw "profile unavailable"
  /\ forall ts,
       ~ In (CallTreatmentsHandler ts)
            (calls (syncDiasendDataToNightscout Sample.config Faulty.noProfile
                      Sample.adapter (Sample.from 0) Sample.start)).
Proof.
  destruct (profile_unavailable_blocks_report Sample.config Faulty.noProfile
              Sample.adapter (Sample.from 0) Sample.start
              (flatMapRecords Sample.dayFetch 100) eq_refl I)
    as (Hout & _ & Hnone & _).
  split; [exact Hout|exact Hnone].
Defined.

(** X6: the report of the treatments and the update of the profile are issued
    together.  Once the profile is loaded and has a merge base, the
    treatments handler is called, and then the profile handler, whatever
    promise the treatments handler has returned: a report that is rejected
    does not hold back the profile update.  Only when the call of the
    treatments handler throws before it returns a promise is the profile
    handler not called.  The cycle returns exactly when both promises
    fulfil; it throws the error of the call that threw, else that of the one
    promise that rejects, else, when both reject, that of the first to
    reject. *)
Theorem handlers_issued_together
    (config : Config) (services : Services) (adapter : Adapter)
    (args : SyncArgs) (rt : Runtime) (fetched : list PatientRecordWithDeviceData)
    (existingProfile : Profile) (base : ProfileConfig) :
  outcome (cycleFetch config services args rt) = Ok fetched ->
  orDefault (nightscoutProfileLoader args) (fetchProfile services) tt
  = Ok existingProfile ->
  mergeBase (cycleProfileName config args) existingProfile = Some base ->
  let run := syncDiasendDataToNightscout config services adapter args rt in
  let sent := cycleTreatments adapter args fetched in
  let updatedProfile :=
    cycleProfile adapter (cycleProfileName config args) existingProfile base
      (cycleRecords args fetched) in
  let reported :=
    orDefault (nightscoutTreatmentsHandler args)
      (reportTreatmentsToNightscout services) sent in
  let stored :=
    orDefault (nightscoutProfileHandler args) (updateProfile services)
      updatedProfile in
  calls run
  = calls (cycleFetch config services args rt)
      ++ CallProfileLoader :: CallTreatmentsHandler sent
      :: (if throwsSync reported then [] else [CallProfileHandler updatedProfile])
  /\ ((exists res, outcome run = Ok res)
      <-> (exists echoed, reported = Fulfils echoed) /\ (exists p, stored = Fulfils p))
  /\ (forall e, reported = ThrowsSync e ->
        outcome run = Throw e /\ forall p, ~ In (CallProfileHandler p) (calls run))
  /\ (forall e t p, reported = Rejects e t -> stored = Fulfils p ->
        outcome run = Throw e /\ In (CallProfileHandler updatedProfile) (calls run))
  /\ (forall echoed e t, reported = Fulfils echoed -> stored = Rejects e t ->
        outcome run = Throw e)
  /\ (forall e, throwsSync reported = false -> stored = ThrowsSync e ->
        outcome run = Throw e)
  /\ (forall ea ta eb tb, reported = Rejects ea ta -> stored = Rejects eb tb ->
        outcome run = Throw (if (ta <=? tb)%Z then ea else eb)).
Proof.
  intros Hfetch Hload Hbase run sent updatedProfile reported stored.
  pose proof (syncDiasendDataToNightscout_outcome config services adapter args rt) as Ho.
  pose proof (syncDiasendDataToNightscout_calls config services adapter args rt) as Hc.
  destruct (cycleFetch_calls_no_handler config services args rt) as [Hno _].
  cbv zeta in Ho, Hc. rewrite Hfetch in Ho, Hc.
  destruct Ho as (identified & Hid & Ho). destruct Hc as (identified' & Hid' & Hc).
  rewrite Hid in Hid'. injection Hid' as <-.
  rewrite Hload, Hbase in Ho, Hc. fold run in Ho, Hc.
  rewrite <- (cycleTreatments_identified adapter args fetched identified Hid) in Ho, Hc.
  fold sent in Ho, Hc. fold updatedProfile in Ho, Hc.
  fold reported in Ho, Hc. fold stored in Ho.
  clearbody reported stored.
  split; [exact Hc|].
  assert (Hnot : throwsSync reported = true ->
                 forall q, ~ In (CallProfileHandler q) (calls run)).
  { intros Hs q Hq. rewrite Hc, Hs in Hq.
    apply in_app_or in Hq as [Hq|[Hq|[Hq|[]]]];
      [exact (Hno _ Hq)|discriminate Hq|discriminate Hq]. }
  assert (Hcalled : throwsSync reported = false ->
                    In (CallProfileHandler updatedProfile) (calls run)).
  { intros Hs. rewrite Hc, Hs. apply in_or_app. right. simpl. auto. }
  rewrite Ho. clear Ho Hc.
  split.
  { split.
    - intros [res Hres].
      destruct reported as [x|ea ta|ea], stored as [y|eb tb|eb];
        cbn [settledTogether Promise_all] in Hres; try discriminate Hres;
        [eauto|destruct (ta <=? tb)%Z; discriminate Hres].
    - intros [[x ->] [y ->]]. cbn [settledTogether Promise_all]. eauto. }
  split.
  { intros e ->. split; [reflexivity|]. apply Hnot. reflexivity. }
  split.
  { intros e t p -> ->. split; [reflexivity|]. apply Hcalled. reflexivity. }
  split; [intros echoed e t -> ->; reflexivity|].
  split.
  { intros e Hsync ->. destruct reported; try discriminate Hsync; reflexivity. }
  intros ea ta eb tb -> ->. cbn [settledTogether Promise_all].
  destruct (ta <=? tb)%Z; reflexivity.
Qed.

Lemma handlers_issued_together_witness :
  (outcome (syncDiasendDataToNightscout Sample.config Faulty.rejectingTreatments
              Sample.adapter (Sample.from 0) Sample.start)
   = Throw "500 Internal Server Error"
   /\ exists p,
        In (CallProfileHandler p)
           (calls (syncDiasendDataToNightscout Sample.config Faulty.rejectingTreatments
                     Sample.adapter (Sample.from 0) Sample.start)))
  /\ (outcome (syncDiasendDataToNightscout Sample.config Faulty.throwingTreatments
                 Sample.adapter (Sample.from 0) Sample.start)
      = Throw "sink not configured"
      /\ forall p,
           ~ In (CallProfileHandler p)
                (calls (syncDiasendDataToNightscout Sample.config
                          Faulty.throwingTreatments Sample.adapter (Sample.from 0)
                          Sample.start))).
Proof.
  split.
  - destruct (handlers_issued_together Sample.config Faulty.rejectingTreatments
                Sample.adapter (Sample.from 0) Sample.start
                (flatMapRecords Sample.dayFetch 100) Sample.loadedProfile
                Sample.baseConfig eq_refl eq_refl eq_refl)
      as (_ & _ & _ & Hreject & _).
    destruct (Hreject "500 Internal Server Error" 0%Z
                (cycleProfile Sample.adapter "Diasend" Sample.loadedProfile
                   Sample.baseConfig
                   (cycleRecords (Sample.from 0) (flatMapRecords Sample.dayFetch 100)))
                eq_refl eq_refl) as [Hout Hcalled].
    split; [exact Hout|]. eexists. exact Hcalled.
  - destruct (handlers_issued_together Sample.config Faulty.throwingTreatments
                Sample.adapter (Sample.from 0) Sample.start
                (flatMapRecords Sample.dayFetch 100) Sample.loadedProfile
                Sample.baseConfig eq_refl eq_refl eq_refl)
      as (_ & _ & Hthrows & _).
    exact (Hthrows "sink not configured" eq_refl).
Defined.

(** ** The treatments cycle: what is resolved, reported and handed on *)

Lemma List_filter_all {A} (f : A -> bool) l :
  (forall x, In x l -> f x = true) -> List.filter f l = l.
Proof.
  induction l as [|x l IH]; intros H; [reflexivity|].
  cbn [List.filter]. rewrite (H x (or_introl eq_refl)). f_equal.
  apply IH. intros y Hy. apply H. right. exact Hy.
Qed.

(** X7: a cycle whose fetch is empty and which carries nothing forward still
    goes to the sink: once the profile is loaded and has a merge base, it
    reports an empty list of treatments and, unless that call throws at
    once, writes the profile, with the basal schedule that merging no record
    gives; its cursor is [null] and it hands nothing on. *)
Theorem empty_cycle_still_writes_profile
    (config : Config) (services : Services) (adapter : Adapter)
    (args : SyncArgs) (rt : Runtime) (existingProfile : Profile) (base : ProfileConfig) :
  outcome (cycleFetch config services args rt) = Ok [] ->
  orDefault (previousRecords args) [] = [] ->
  orDefault (nightscoutProfileLoader args) (fetchProfile services) tt
  = Ok existingProfile ->
  mergeBase (cycleProfileName config args) existingProfile = Some base ->
  throwsSync
    (orDefault (nightscoutTreatmentsHandler args)
       (reportTreatmentsToNightscout services) []) = false ->
  let run := syncDiasendDataToNightscout config services adapter args rt in
  In (CallTreatmentsHandler []) (calls run)
  /\ (exists p target,
        In (CallProfileHandler p) (calls run)
        /\ store p = <[cycleProfileName config args := target]> (store existingProfile)
        /\ basal target
           = Some (updateBasalProfile adapter (orDefault (basal base) []) [])
        /\ config_fields target = config_fields base
        /\ defaultProfile p = defaultProfile existingProfile
        /\ profile_fields p = profile_fields existingProfile)
  /\ forall res, outcome run = Ok res ->
       Sync.latestRecordDate res = None /\ Sync.unprocessedRecords res = [].
Proof.
  intros Hfetch Hprev Hload Hbase Hsync run.
  pose proof (syncDiasendDataToNightscout_outcome config services adapter args rt) as Ho.
  pose proof (syncDiasendDataToNightscout_calls config services adapter args rt) as Hc.
  cbv zeta in Ho, Hc. rewrite Hfetch in Ho, Hc.
  destruct Ho as (identified & Hid & Ho). destruct Hc as (identified' & Hid' & Hc).
  rewrite Hid in Hid'. injection Hid' as <-.
  rewrite Hload, Hbase in Ho, Hc. fold run in Ho, Hc.
  assert (Hrecords : cycleRecords args [] = []).
  { unfold cycleRecords. rewrite Hprev. reflexivity. }
  rewrite Hrecords in Hid, Hc, Ho. cbn in Hid. injection Hid as <-.
  cbn [treatments unprocessedRecords] in Hc, Ho. rewrite Hsync in Hc.
  split; [rewrite Hc; apply in_or_app; right; simpl; auto|].
  split.
  { eexists. eexists. split; [rewrite Hc; apply in_or_app; right; simpl; auto|].
    unfold cycleProfile. cbn [store withStore defaultProfile profile_fields].
    split; [reflexivity|]. repeat split. }
  intros res Hres. rewrite Hres in Ho.
  destruct (settledTogether _ _) as [reported|e]; [|discriminate Ho].
  injection Ho as ->. split; reflexivity.
Qed.

Lemma empty_cycle_still_writes_profile_witness :
  In (CallTreatmentsHandler [])
     (calls (syncDiasendDataToNightscout Sample.config (Sample.services [])
               Sample.adapter (Sample.from 0) Sample.start))
  /\ exists p,
       In (CallProfileHandler p)
          (calls (syncDiasendDataToNightscout Sample.config (Sample.services [])
                    Sample.adapter (Sample.from 0) Sample.start))
       /\ dom (store p) = {["Diasend"; "Default"]}.
Proof.
  destruct (empty_cycle_still_writes_profile Sample.config (Sample.services [])
              Sample.adapter (Sample.from 0) Sample.start Sample.loadedProfile
              Sample.baseConfig eq_refl eq_refl eq_refl eq_refl eq_refl)
    as (Ht & (p & target & Hp & Hstore & _) & _).
  split; [exact Ht|]. exists p. split; [exact Hp|].
  rewrite Hstore. cbn. rewrite dom_insert_L, dom_singleton_L. reflexivity.
Defined.

Lemma cycleRecords_candidates args fetched :
  List.filter isCarbOrBolus (cycleRecords args fetched)
  = List.filter isCarbOrBolus (orDefault (previousRecords args) [])
      ++ List.filter isCarbOrBolus
           (Array_sort byCreatedAtDescending (freshRecords fetched)).
Proof. unfold cycleRecords. apply List.filter_app. Qed.

(** X8: carried-forward and fresh records are resolved together.  The
    treatments a cycle reports are those of the carried-forward carb and
    bolus records, in the order they were handed on, followed by those of the
    fresh ones, latest first; and each record, carried or fresh, is resolved
    against one and the same context: the carb and bolus records of both. *)
Theorem carried_and_fresh_resolved_together
    (config : Config) (services : Services) (adapter : Adapter)
    (args : SyncArgs) (rt : Runtime) (fetched : list PatientRecordWithDeviceData)
    (ts : list Treatment) :
  outcome (cycleFetch config services args rt) = Ok fetched ->
  In (CallTreatmentsHandler ts)
     (calls (syncDiasendDataToNightscout config services adapter args rt)) ->
  let carried := List.filter isCarbOrBolus (orDefault (previousRecords args) []) in
  let fresh :=
    List.filter isCarbOrBolus
      (Array_sort byCreatedAtDescending (freshRecords fetched)) in
  let resolve :=
    resolvedTreatment (diasendRecordToNightscoutTreatment adapter) (carried ++ fresh) in
  ts = omap resolve carried ++ omap resolve fresh
  /\ StronglySorted (fun a b => (rcreated_at b <= rcreated_at a)%Z) fresh.
Proof.
  intros Hfetch Hts carried fresh resolve.
  apply treatments_handler_call in Hts as (fetched' & identified & Hf & Hid & ->).
  rewrite Hfetch in Hf. injection Hf as <-.
  rewrite identifyTreatments_spec in Hid. injection Hid as <-.
  cbn [treatments]. rewrite cycleRecords_candidates.
  fold carried. fold fresh. fold resolve. split; [apply omap_app|].
  subst fresh.
  assert (Hsorted : StronglySorted (fun a b => (rcreated_at b <= rcreated_at a)%Z)
                      (Array_sort byCreatedAtDescending (freshRecords fetched)))
    by exact (Array_sort_descending rcreated_at (freshRecords fetched)).
  revert Hsorted. generalize (Array_sort byCreatedAtDescending (freshRecords fetched)).
  intros l Hl. induction Hl as [|x l Hl IH Hx]; cbn [List.filter]; [constructor|].
  destruct (isCarbOrBolus x); [|exact IH].
  constructor; [exact IH|].
  apply Forall_forall. intros y Hy. rewrite Forall_forall in Hx. apply Hx.
  apply list_elem_of_In in Hy. apply filter_In in Hy as [Hy _].
  apply list_elem_of_In, Hy.
Qed.

Lemma carried_and_fresh_resolved_together_witness :
  exists ts,
    In (CallTreatmentsHandler ts)
       (calls (syncDiasendDataToNightscout Sample.config
                 (Sample.services Sample.dayFetch) Sample.adapter
                 (withPreviousRecords (Sample.from 0) (Some [Records.lateCarbs]))
                 Sample.start))
    /\ length ts = 2.
Proof.
  assert (Hcalled : exists ts,
            In (CallTreatmentsHandler ts)
               (calls (syncDiasendDataToNightscout Sample.config
                         (Sample.services Sample.dayFetch) Sample.adapter
                         (withPreviousRecords (Sample.from 0) (Some [Records.lateCarbs]))
                         Sample.start))).
  { eexists. vm_compute. do 3 right. left. reflexivity. }
  destruct Hcalled as [ts Hin]. exists ts. split; [exact Hin|].
  destruct (carried_and_fresh_resolved_together Sample.config
              (Sample.services Sample.dayFetch) Sample.adapter
              (withPreviousRecords (Sample.from 0) (Some [Records.lateCarbs]))
              Sample.start (flatMapRecords Sample.dayFetch 100) ts eq_refl Hin)
    as [-> _].
  reflexivity.
Defined.



(** X10: a fresh record that fails to resolve is never lost.  When the
    carried-forward records are objects that existed before the cycle, the
    records the cycle hands on are exactly the fresh carb and bolus records
    whose resolution threw, latest first. *)
Theorem failed_fresh_records_handed_on
    (config : Config) (services : Services) (adapter : Adapter)
    (args : SyncArgs) (rt : Runtime) (res : Sync.result) :
  (forall p, In p (orDefault (previousRecords args) []) -> oid p < nextRef rt) ->
  outcome (syncDiasendDataToNightscout config services adapter args rt) = Ok res ->
  exists fetched,
    outcome (cycleFetch config services args rt) = Ok fetched
    /\ Sync.unprocessedRecords res =
         List.filter
           (deferred (diasendRecordToNightscoutTreatment adapter)
              (List.filter isCarbOrBolus (cycleRecords args fetched)))
           (List.filter isCarbOrBolus
              (Array_sort byCreatedAtDescending (freshRecords fetched))).
Proof.
  intros Hold Hrun. cycle_stages Hrun. exists fetched. split; [exact Hfetch|].
  rewrite Hunprocessed. rewrite identifyTreatments_spec in Hidentified.
  injection Hidentified as <-. cbn [unprocessedRecords].
  rewrite cycleRecords_candidates at 2. rewrite !List.filter_app.
  rewrite (List_filter_none _ (List.filter _ (List.filter _ (orDefault _ _)))).
  - cbn [app]. apply List_filter_all. intros r Hr.
    apply filter_In in Hr as [Hr _]. apply filter_In in Hr as [Hr _].
    apply Array_sort_In in Hr.
    apply Z.eqb_eq, Array_indexOf_absent. intros p Hp.
    apply same_object_false. specialize (Hold p Hp).
    pose proof (cycleFetch_alloc config services args rt) as Halloc.
    rewrite Hfetch in Halloc. destruct Halloc as [Hoids _].
    assert (Ho : oid r ∈ oid <$> fetched).
    { apply list_elem_of_fmap. exists r. split; [reflexivity|].
      apply list_elem_of_In. unfold freshRecords in Hr. apply filter_In in Hr. tauto. }
    rewrite Hoids in Ho. apply elem_of_seq in Ho. lia.
  - intros p Hp. apply filter_In in Hp as [Hp _]. apply filter_In in Hp as [Hp _].
    apply previous_record_dropped, Hp.
Qed.

Lemma failed_fresh_records_handed_on_witness :
  exists res,
    outcome (syncDiasendDataToNightscout Sample.config
               (Sample.services Sample.brokenFetch) Sample.adapter
               SecondCycle.retry Sample.start) = Ok res
    /\ oid <$> Sync.unprocessedRecords res = [100].
Proof.
  destruct (outcome (syncDiasendDataToNightscout Sample.config
               (Sample.services Sample.brokenFetch) Sample.adapter
               SecondCycle.retry Sample.start)) as [res|e] eqn:Hrun;
    [|vm_compute in Hrun; discriminate Hrun].
  exists res. split; [reflexivity|].
  destruct (failed_fresh_records_handed_on Sample.config
              (Sample.services Sample.brokenFetch) Sample.adapter
              SecondCycle.retry Sample.start res) as (fetched & Hfetch & ->).
  - intros p [<-|[]]. cbn. lia.
  - exact Hrun.
  - vm_compute in Hfetch. injection Hfetch as Hfetch. subst fetched. reflexivity.
Defined.

(** ** From one cycle to the next *)

Lemma stepOf_inv config services adapter feed state rt next :
  outcome (stepOf config services adapter feed state rt) = Ok next ->
  match feed with
  | EntriesFeed =>
      exists r,
        outcome (syncDiasendGlucoseToNightscout config services adapter state rt) = Ok r
        /\ next = withDateFrom (withDateTo state None)
                    match Glucose.latestRecordDate r with
                    | Some latestRecordDate => Some (latestRecordDate + 1000)%Z
                    | None => dateFrom state
                    end
  | TreatmentsFeed =>
      exists r,
        outcome (syncDiasendDataToNightscout config services adapter state rt) = Ok r
        /\ next = withPreviousRecords
                    (withDateFrom (withDateTo state None)
                       match Sync.latestRecordDate r with
                       | Some latestRecordDate => Some (latestRecordDate + 1000)%Z
                       | None => dateFrom state
                       end)
                    (Some (Sync.unprocessedRecords r))
  end.
Proof.
  destruct feed; cbn [stepOf]; unfold entriesStep, treatmentsStep;
    rewrite withDateTo_restore; intros Hstep;
    apply bind_outcome_Ok in Hstep as (r & Hrun & Hnext);
    cbn [ret outcome] in Hnext; injection Hnext as <-; exists r;
    (split; [exact Hrun|reflexivity]).
Qed.

Lemma stepOf_calls config services adapter feed state rt :
  calls (stepOf config services adapter feed state rt)
  = match feed with
    | EntriesFeed => calls (syncDiasendGlucoseToNightscout config services adapter state rt)
    | TreatmentsFeed => calls (syncDiasendDataToNightscout config services adapter state rt)
    end.
Proof.
  destruct feed; cbn [stepOf]; unfold entriesStep, treatmentsStep;
    rewrite withDateTo_restore, bind_calls;
    match goal with |- context [outcome ?r] => destruct (outcome r) end;
    cbn [ret calls]; rewrite ?app_nil_r; reflexivity.
Qed.

Lemma handed_on_are_carb_or_bolus config services adapter args rt res r :
  outcome (syncDiasendDataToNightscout config services adapter args rt) = Ok res ->
  In r (Sync.unprocessedRecords res) -> isCarbOrBolus r = true.
Proof.
  intros Hrun Hr. cycle_stages Hrun.
  rewrite Hunprocessed in Hr. apply filter_In in Hr as [Hr _].
  rewrite identifyTreatments_spec in Hidentified. injection Hidentified as <-.
  cbn [unprocessedRecords] in Hr. apply filter_In in Hr as [Hr _].
  apply filter_In in Hr. tauto.
Qed.

(** X11: the records a treatments step hands on are carb and bolus records
    only, so in the cycle that follows the basal merge sees none of them:
    the profile it writes is merged from the basal records of its own fetch,
    latest first. *)
Theorem basal_merge_sees_fresh_records_only
    (config : Config) (services services' : Services) (adapter : Adapter)
    (state next : SyncArgs) (rt rt' : Runtime)
    (fetched : list PatientRecordWithDeviceData) (p : Profile) :
  outcome (treatmentsStep config services adapter state rt) = Ok next ->
  outcome (cycleFetch config services' next rt') = Ok fetched ->
  In (CallProfileHandler p)
     (calls (syncDiasendDataToNightscout config services' adapter next rt')) ->
  (forall r, In r (orDefault (previousRecords next) []) -> isCarbOrBolus r = true)
  /\ exists existingProfile base,
       p = withStore existingProfile
             (<[cycleProfileName config next :=
                  withBasal base
                    (updateBasalProfile adapter (orDefault (basal base) [])
                       (List.filter isBasal
                          (Array_sort byCreatedAtDescending (freshRecords fetched))))]>
                (store existingProfile)).
Proof.
  intros Hstep Hfetch Hp.
  apply (stepOf_inv config services adapter TreatmentsFeed) in Hstep
    as (r & Hrun & Hnext).
  assert (Hkind : forall x, In x (orDefault (previousRecords next) []) ->
                    isCarbOrBolus x = true).
  { intros x Hx. rewrite Hnext in Hx. cbn in Hx.
    exact (handed_on_are_carb_or_bolus _ _ _ _ _ _ _ Hrun Hx). }
  split; [exact Hkind|].
  apply profile_handler_call in Hp as (fetched' & existingProfile & base
                                       & Hf & _ & _ & -> & _).
  rewrite Hfetch in Hf. injection Hf as <-.
  exists existingProfile, base. unfold cycleProfile, cycleRecords.
  rewrite List.filter_app, (List_filter_none isBasal (orDefault _ _)); [reflexivity|].
  intros x Hx. specialize (Hkind x Hx). unfold isCarbOrBolus in Hkind.
  unfold isBasal. destruct (rtype x); try discriminate Hkind; reflexivity.
Qed.

Lemma basal_merge_sees_fresh_records_only_witness :
  exists next p,
    outcome (treatmentsStep Sample.config (Sample.services Sample.brokenFetch)
               Sample.adapter (Sample.from 0) Sample.start) = Ok next
    /\ (forall r, In r (orDefault (previousRecords next) []) -> isCarbOrBolus r = true)
    /\ In (CallProfileHandler p)
          (calls (syncDiasendDataToNightscout Sample.config
                    (Sample.services Sample.dayFetch) Sample.adapter next
                    {| nextRef := 101; now := 7500000 |})).
Proof.
  destruct (outcome (treatmentsStep Sample.config (Sample.services Sample.brokenFetch)
               Sample.adapter (Sample.from 0) Sample.start)) as [next|e] eqn:Hstep;
    [|vm_compute in Hstep; discriminate Hstep].
  assert (Hcalled : exists p,
            In (CallProfileHandler p)
               (calls (syncDiasendDataToNightscout Sample.config
                         (Sample.services Sample.dayFetch) Sample.adapter next
                         {| nextRef := 101; now := 7500000 |}))).
  { pose proof Hstep as Hnext. vm_compute in Hnext. injection Hnext as <-.
    eexists. vm_compute. do 4 right. left. reflexivity. }
  destruct Hcalled as [p Hp]. exists next, p. split; [reflexivity|].
  assert (Hfetch : exists fetched,
            outcome (cycleFetch Sample.config (Sample.services Sample.dayFetch) next
                       {| nextRef := 101; now := 7500000 |}) = Ok fetched).
  { pose proof Hstep as Hnext. vm_compute in Hnext. injection Hnext as <-.
    eexists. reflexivity. }
  destruct Hfetch as [fetched Hfetch].
  destruct (basal_merge_sees_fresh_records_only Sample.config
              (Sample.services Sample.brokenFetch) (Sample.services Sample.dayFetch)
              Sample.adapter (Sample.from 0) next Sample.start
              {| nextRef := 101; now := 7500000 |} fetched p Hstep Hfetch Hp)
    as [Hkind _].
  split; [exact Hkind|exact Hp].
Defined.

Lemma cycleFetch_window config services args rt token a b :
  In (CallGetPatientData token a b) (calls (cycleFetch config services args rt)) ->
  a = windowStart args rt /\ b = windowEnd args rt
  /\ obtainDiasendAccessToken services (effectiveClientId config args)
       (effectiveClientSecret config args) (effectiveUsername config args)
       (effectivePassword config args) = Ok token.
Proof.
  rewrite cycleFetch_run.
  destruct (notConfigured _); [intros []|].
  destruct (notConfigured _); [intros []|].
  destruct (obtainDiasendAccessToken _ _ _ _ _) as [token'|e].
  - destruct (getPatientData _ _ _ _) as [batches|e]; cbn [calls];
      unfold tokenCall, fetchCall;
      (intros [H|[H|[]]]; [discriminate H|injection H as <- <- <-; auto]).
  - unfold tokenCall. intros [H|[]]. discriminate H.
Qed.

Lemma step_calls_source config services adapter feed state rt c :
  In c (calls (stepOf config services adapter feed state rt)) ->
  isSourceCall c = true ->
  In c (calls (cycleFetch config services state rt)).
Proof.
  rewrite stepOf_calls. intros Hc Hsource. destruct feed.
  - pose proof (syncDiasendGlucoseToNightscout_run config services adapter state rt) as Hr.
    cbv zeta in Hr.
    destruct (outcome (cycleFetch config services state rt)); destruct Hr as [Hr _];
      rewrite Hr in Hc; [|exact Hc].
    apply in_app_or in Hc as [Hc|[<-|[]]]; [exact Hc|discriminate Hsource].
  - pose proof (syncDiasendDataToNightscout_calls config services adapter state rt) as Hr.
    cbv zeta in Hr.
    destruct (outcome (cycleFetch config services state rt));
      [|rewrite Hr in Hc; exact Hc].
    destruct Hr as (identified & _ & Hr).
    destruct (orDefault (nightscoutProfileLoader state) _ _) as [existingProfile|e];
      [destruct (mergeBase _ existingProfile)|];
      rewrite Hr in Hc; (apply in_app_or in Hc as [Hc|Hc]; [exact Hc|]);
      try destruct (throwsSync _); cbn [In] in Hc;
      intuition (subst; discriminate Hsource).
Qed.



(** X13: no record object is handed on twice.  What a treatments step hands
    on are distinct objects created by its own fetch, so none of them is
    among the records handed on by any step that runs later, whatever state
    that step starts from. *)
Theorem handed_on_once
    (config : Config) (services : Services) (adapter : Adapter)
    (state state' : SyncArgs) (rt rt' : Runtime) (o : nat) :
  nextRef (after (treatmentsStep config services adapter state rt)) <= nextRef rt' ->
  In o (carriedForward (treatmentsStep config services adapter state rt)) ->
  ~ In o (carriedForward (treatmentsStep config services adapter state' rt'))
  /\ NoDup (carriedForward (treatmentsStep config services adapter state rt)).
Proof.
  intros Hlater Ho.
  destruct (treatmentsStep_carried config services adapter state rt) as [Hnd Hrange].
  destruct (treatmentsStep_carried config services adapter state' rt') as [_ Hrange'].
  split; [|exact Hnd]. intros Ho'.
  specialize (Hrange o Ho). specialize (Hrange' o Ho'). lia.
Qed.

Lemma handed_on_once_witness :
  In 100 (carriedForward
            (treatmentsStep Sample.config (Sample.services Sample.brokenFetch)
               Sample.adapter (Sample.from 0) Sample.start))
  /\ ~ In 100 (carriedForward
                 (treatmentsStep Sample.config (Sample.services Sample.brokenFetch)
                    Sample.adapter SecondCycle.retry
                    {| nextRef := 101; now := 7500000 |})).
Proof.
  assert (Hin : In 100 (carriedForward
                          (treatmentsStep Sample.config
                             (Sample.services Sample.brokenFetch) Sample.adapter
                             (Sample.from 0) Sample.start)))
    by (vm_compute; auto).
  split; [exact Hin|].
  apply (handed_on_once Sample.config (Sample.services Sample.brokenFetch)
           Sample.adapter (Sample.from 0) SecondCycle.retry Sample.start
           {| nextRef := 101; now := 7500000 |} 100); [vm_compute; lia|exact Hin].
Defined.

(** ** The entry points *)

(** X14: [startSynchronization] never throws and starts both loops from one
    and the same state.  The first fetch of either loop asks for the window
    from the given [dateFrom], or from five minutes before the start when
    none is given, whatever the polling interval is; the ten-minute default
    of the cycle functions never applies. *)
Theorem loops_first_fetch_window
    (config : Config) (services : Services) (adapter : Adapter)
    (pollingIntervalMs : option Z) (args : SyncArgs) (rt : Runtime) :
  exists entriesLoop treatmentsLoop,
    startSynchronization config services adapter pollingIntervalMs args rt
    = Ok [entriesLoop; treatmentsLoop]
    /\ initialState entriesLoop = initialState treatmentsLoop
    /\ intervalMs (looper entriesLoop) = orDefault pollingIntervalMs 300000%Z
    /\ intervalMs (looper treatmentsLoop) = orDefault pollingIntervalMs 300000%Z
    /\ forall loop, In loop [entriesLoop; treatmentsLoop] ->
       forall rt' token a b,
         In (CallGetPatientData token a b)
            (calls (loopingFun (looper loop) (initialState loop) rt')) ->
         a = orDefault (dateFrom args) (now rt - 300000)%Z
         /\ b = orDefault (dateTo args) (now rt').
Proof.
  eexists. eexists. split; [reflexivity|]. cbn [initialState looper intervalMs].
  split; [reflexivity|]. split; [reflexivity|]. split; [reflexivity|].
  intros loop Hloop rt' token a b Hcall.
  assert (Hwindow : In (CallGetPatientData token a b)
                       (calls (cycleFetch config services
                                 (withDateFrom args
                                    (Some (orDefault (dateFrom args) (now rt - interval)%Z)))
                                 rt'))).
  { destruct Hloop as [<-|[<-|[]]]; cbn [initialState looper loopingFun] in Hcall.
    - exact (step_calls_source config services adapter EntriesFeed _ _ _ Hcall eq_refl).
    - exact (step_calls_source config services adapter TreatmentsFeed _ _ _ Hcall eq_refl). }
  apply cycleFetch_window in Hwindow as (-> & -> & _). split; reflexivity.
Qed.

(** X15: [startPumpSettingsSynchronization] checks the credentials before the
    profile name.  It returns without a loop and without an error exactly
    when both credentials are there and the profile name is not; it starts
    its one loop, "Pump Settings", every twelve hours unless told otherwise,
    exactly when all three are there; and it throws in every other case. *)
Theorem pump_settings_start_cases
    (config : Config) (services : Services) (adapter : Adapter)
    (args : PumpSettingsArgs) :
  let missing :=
    credentialsMissing config (pump_diasendUsername args) (pump_diasendPassword args) in
  let unnamed :=
    notConfigured
      (orElse (pump_nightscoutProfileName args) (config_nightscout_profileName config)) in
  let started := startPumpSettingsSynchronization config services adapter args in
  ((exists e, started = Throw e) <-> missing = true)
  /\ (started = Ok [] <-> missing = false /\ unnamed = true)
  /\ ((exists loop, started = Ok [loop]) <-> missing = false /\ unnamed = false)
  /\ forall loop, started = Ok [loop] ->
       label (looper loop) = "Pump Settings"
       /\ intervalMs (looper loop)
          = orDefault (pump_pollingIntervalMs args) 43200000%Z.
Proof.
  intros missing unnamed started. subst missing unnamed started.
  unfold startPumpSettingsSynchronization, credentialsMissing.
  destruct (notConfigured (orElse (pump_diasendUsername args) _)); cbn [orb].
  { split; [split; eauto|]. split; [split; [intros [=]|intros [[=] _]]|].
    split; [split; [intros [? [=]]|intros [[=] _]]|intros ? [=]]. }
  destruct (notConfigured (orElse (pump_diasendPassword args) _)).
  { split; [split; eauto|]. split; [split; [intros [=]|intros [[=] _]]|].
    split; [split; [intros [? [=]]|intros [[=] _]]|intros ? [=]]. }
  destruct (notConfigured (orElse (pump_nightscoutProfileName args) _)).
  { split; [split; [intros [? [=]]|intros [=]]|]. split; [split; auto|].
    split; [split; [intros [? [=]]|intros [_ [=]]]|intros ? [=]]. }
  split; [split; [intros [? [=]]|intros [=]]|].
  split; [split; [intros [=]|intros [_ [=]]]|].
  split; [split; [auto|eauto]|]. intros loop [= <-]. split; reflexivity.
Qed.

Lemma pumpSettingsStep_run services adapter u pw name loader handler flag rt :
  let run := pumpSettingsStep services adapter u pw name loader handler flag tt rt in
  let login := CallGetAuthenticatedScrapingClient u pw in
  match getAuthenticatedScrapingClient services u pw with
  | Throw e => calls run = [login] /\ outcome run = Throw e
  | Ok userId =>
      match getPumpSettings services userId with
      | Throw e => calls run = [login; CallGetPumpSettings userId] /\ outcome run = Throw e
      | Ok settings =>
          match loader tt with
          | Throw e =>
              calls run = [login; CallGetPumpSettings userId; CallProfileLoader]
              /\ outcome run = Throw e
          | Ok existing =>
              let updated :=
                updateNightScoutProfileWithPumpSettings adapter existing settings
                  flag name in
              calls run = [login; CallGetPumpSettings userId; CallProfileLoader;
                           CallProfileHandler updated]
              /\ outcome run = match settled (handler updated) with
                               | Ok _ => Ok tt
                               | Throw e => Throw e
                               end
          end
      end
  end.
Proof.
  cbv zeta. unfold pumpSettingsStep, bind, await, ret. cbn [outcome calls after].
  destruct (getAuthenticatedScrapingClient services u pw) as [userId|e];
    cbn [outcome calls after]; [|split; reflexivity].
  destruct (getPumpSettings services userId) as [settings|e];
    cbn [outcome calls after]; [|split; reflexivity].
  destruct (loader tt) as [existing|e]; cbn [outcome calls after]; [|split; reflexivity].
  destruct (settled (handler _)) as [stored|e]; cbn [outcome calls after];
    split; reflexivity.
Qed.

(** X16: one cycle of the pump-settings loop.  It logs in with the configured
    credentials first; the profile is loaded only after the pump settings
    have been scraped, and written only after it has been loaded; what is
    written is the adapter's update of the loaded profile with the scraped
    settings, under the configured profile name and with the basal rate
    imported unless told otherwise; any failure ends the cycle there, with
    that error. *)
Theorem pump_settings_cycle
    (config : Config) (services : Services) (adapter : Adapter)
    (args : PumpSettingsArgs) (loop : Loop unit) (rt : Runtime) :
  startPumpSettingsSynchronization config services adapter args = Ok [loop] ->
  let run := loopingFun (looper loop) (initialState loop) rt in
  let username :=
    orDefault (orElse (pump_diasendUsername args) (config_diasend_username config)) "" in
  let password :=
    orDefault (orElse (pump_diasendPassword args) (config_diasend_password config)) "" in
  let name :=
    orDefault
      (orElse (pump_nightscoutProfileName args) (config_nightscout_profileName config))
      "" in
  let loader :=
    orDefault (pump_nightscoutProfileLoader args) (fetchProfile services) in
  let handler :=
    orDefault (pump_nightscoutProfileHandler args) (updateProfile services) in
  head (calls run) = Some (CallGetAuthenticatedScrapingClient username password)
  /\ username <> "" /\ password <> "" /\ name <> ""
  /\ (In CallProfileLoader (calls run) ->
      exists userId settings,
        getAuthenticatedScrapingClient services username password = Ok userId
        /\ getPumpSettings services userId = Ok settings)
  /\ (forall p, In (CallProfileHandler p) (calls run) ->
      exists userId settings existing,
        getAuthenticatedScrapingClient services username password = Ok userId
        /\ getPumpSettings services userId = Ok settings
        /\ loader tt = Ok existing
        /\ p = updateNightScoutProfileWithPumpSettings adapter existing settings
                 (orDefault (pump_importBasalRate args) true) name)
  /\ (outcome run = Ok tt
      <-> exists p stored,
            In (CallProfileHandler p) (calls run) /\ handler p = Fulfils stored).
Proof.
  intros Hstart run username password name loader handler.
  unfold startPumpSettingsSynchronization in Hstart.
  destruct (notConfigured (orElse (pump_diasendUsername args) _)) eqn:Hu;
    [discriminate Hstart|].
  destruct (notConfigured (orElse (pump_diasendPassword args) _)) eqn:Hp;
    [discriminate Hstart|].
  destruct (notConfigured (orElse (pump_nightscoutProfileName args) _)) eqn:Hn;
    [discriminate Hstart|].
  injection Hstart as <-. subst run. cbn [looper loopingFun initialState].
  fold username password name loader handler.
  assert (Hfilled : forall s, notConfigured s = false -> orDefault s "" <> "").
  { intros [s|]; cbn; [|discriminate]. destruct (decide (s = "")); congruence. }
  pose proof (pumpSettingsStep_run services adapter username password name loader
                handler (orDefault (pump_importBasalRate args) true) rt) as Hrun.
  cbv zeta in Hrun.
  set (run := pumpSettingsStep services adapter username password name loader handler
                (orDefault (pump_importBasalRate args) true) tt rt) in *.
  split.
  { destruct (getAuthenticatedScrapingClient services username password) as [userId|e];
      [destruct (getPumpSettings services userId) as [settings|e];
       [destruct (loader tt) as [existing|e]|]|];
      destruct Hrun as [-> _]; reflexivity. }
  split; [exact (Hfilled _ Hu)|]. split; [exact (Hfilled _ Hp)|].
  split; [exact (Hfilled _ Hn)|].
  destruct (getAuthenticatedScrapingClient services username password)
    as [userId|e] eqn:Hlogin.
  - destruct (getPumpSettings services userId) as [settings|e] eqn:Hsettings.
    + destruct (loader tt) as [existing|e] eqn:Hload; destruct Hrun as [Hc Ho];
        rewrite Hc, Ho.
      * split; [intros _; exists userId, settings; split; [reflexivity|exact Hsettings]|].
        split.
        { intros p [H|[H|[H|[H|[]]]]]; try discriminate H.
          injection H as <-. exists userId, settings, existing.
          split; [reflexivity|]. split; [exact Hsettings|]. split; reflexivity. }
        split.
        { intros Hok.
          match type of Hok with
          | context [handler ?u] =>
              destruct (handler u) as [stored|e' t'|e'] eqn:Hh;
                [exists u, stored; split; [simpl; auto 6|exact Hh]
                |discriminate Hok|discriminate Hok]
          end. }
        { intros (p & stored & [H|[H|[H|[H|[]]]]] & Hh); try discriminate H.
          injection H as <-. rewrite Hh. reflexivity. }
      * split; [intros _; exists userId, settings; split; [reflexivity|exact Hsettings]|].
        split.
        { intros p [H|[H|[H|[]]]]; discriminate H. }
        split; [intros [=]|].
        intros (p & stored & [H|[H|[H|[]]]] & _); discriminate H.
    + destruct Hrun as [Hc Ho]; rewrite Hc, Ho. split.
      { intros [H|[H|[]]]; discriminate H. }
      split; [intros p [H|[H|[]]]; discriminate H|].
      split; [intros [=]|]. intros (p & stored & [H|[H|[]]] & _); discriminate H.
  - destruct Hrun as [Hc Ho]; rewrite Hc, Ho. split.
    { intros [H|[]]; discriminate H. }
    split; [intros p [H|[]]; discriminate H|].
    split; [intros [=]|]. intros (p & stored & [H|[]] & _); discriminate H.
Qed.

Lemma pump_settings_cycle_witness :
  exists loop,
    startPumpSettingsSynchronization Sample.config Faulty.noPumpSettings
      Sample.adapter NoCredentials.pumpArgs = Ok [loop]
    /\ calls (loopingFun (looper loop) (initialState loop) Sample.start)
       = [CallGetAuthenticatedScrapingClient "patient" "secret";
          CallGetPumpSettings "user-id"]
    /\ ~ In CallProfileLoader
           (calls (loopingFun (looper loop) (initialState loop) Sample.start)).
Proof.
  eexists. split; [reflexivity|]. split; [reflexivity|].
  intros Hloaded.
  destruct (pump_settings_cycle Sample.config Faulty.noPumpSettings Sample.adapter
              NoCredentials.pumpArgs _ Sample.start eq_refl)
    as (_ & _ & _ & _ & Hsettings & _).
  destruct (Hsettings Hloaded) as (userId & settings & Hlogin & Hpump).
  cbn in Hlogin. injection Hlogin as <-. discriminate Hpump.
Defined.

(** ** identifyTreatments, once more *)

(** X17: [identifyTreatments] sees carb and bolus records only.  Two batches
    with the same carb and bolus records in the same order give the same
    result, whatever glucose or basal records lie between them; the context
    the resolver is given is the filtered batch, never the full one. *)
Theorem identifyTreatments_sees_carb_and_bolus_only
    (resolve : Resolver) (records records' : list PatientRecordWithDeviceData) :
  List.filter isCarbOrBolus records = List.filter isCarbOrBolus records' ->
  identifyTreatments resolve records = identifyTreatments resolve records'
  /\ identifyTreatments resolve records
     = identifyTreatments resolve (List.filter isCarbOrBolus records).
Proof.
  intros Hsame. rewrite !identifyTreatments_spec. cbv zeta.
  rewrite <- Hsame. split; [reflexivity|].
  assert (Hidem : List.filter isCarbOrBolus (List.filter isCarbOrBolus records)
                  = List.filter isCarbOrBolus records).
  { apply List_filter_all. intros r Hr. apply filter_In in Hr. tauto. }
  rewrite Hidem. reflexivity.
Qed.

Lemma identifyTreatments_sees_carb_and_bolus_only_witness :
  identifyTreatments Records.resolver
    (Records.mkRecord 9 glucose 500 (Some 120%Z) :: Records.meal
       ++ [Records.mkRecord 10 insulin_basal 900 (Some 800%Z)])
  = identifyTreatments Records.resolver Records.meal.
Proof.
  destruct (identifyTreatments_sees_carb_and_bolus_only Records.resolver
              (Records.mkRecord 9 glucose 500 (Some 120%Z) :: Records.meal
                 ++ [Records.mkRecord 10 insulin_basal 900 (Some 800%Z)])
              Records.meal eq_refl) as [Hsame _].
  exact Hsame.
Defined.

(** X18: [identifyTreatments] neither invents nor reorders.  The unprocessed
    records are records of the batch, in batch order and each no more often
    than the batch has it; and the treatments and unprocessed records
    together are no more than the carb and bolus records of the batch. *)
Theorem identifyTreatments_output_bounded
    (resolve : Resolver) (records : list PatientRecordWithDeviceData) :
  exists out,
    identifyTreatments resolve records = Ok out
    /\ unprocessedRecords out `sublist_of` records
    /\ (forall r, In r (unprocessedRecords out) -> isCarbOrBolus r = true)
    /\ length (treatments out) + length (unprocessedRecords out)
       <= length (List.filter isCarbOrBolus records)
    /\ length (List.filter isCarbOrBolus records) <= length records.
Proof.
  eexists. split; [apply identifyTreatments_spec|]. cbn [treatments unprocessedRecords].
  split; [etransitivity; apply List_filter_sublist|]. split.
  { intros r Hr. apply filter_In in Hr as [Hr _]. apply filter_In in Hr. tauto. }
  split.
  - pose proof (outcome_lengths resolve (List.filter isCarbOrBolus records)
                  (List.filter isCarbOrBolus records)). lia.
  - apply sublist_length, List_filter_sublist.
Qed.

(** ** What a cycle never calls *)

(** X19: the two feeds keep to their own collaborators.  Besides the token
    request and the fetch, the glucose cycle only ever calls the entries
    handler, and the treatments cycle only ever the profile loader, the
    treatments handler and the profile handler; neither logs in to scrape or
    asks for pump settings, and the treatments cycle never reports an
    entry. *)
Theorem feeds_keep_to_their_collaborators
    (config : Config) (services : Services) (adapter : Adapter)
    (args : SyncArgs) (rt : Runtime) (c : Call) :
  (In c (calls (syncDiasendGlucoseToNightscout config services adapter args rt)) ->
   match c with
   | CallObtainDiasendAccessToken _ _ _ _ | CallGetPatientData _ _ _
   | CallEntriesHandler _ => True
   | _ => False
   end)
  /\ (In c (calls (syncDiasendDataToNightscout config services adapter args rt)) ->
      match c with
      | CallObtainDiasendAccessToken _ _ _ _ | CallGetPatientData _ _ _
      | CallProfileLoader | CallTreatmentsHandler _ | CallProfileHandler _ => True
      | _ => False
      end).
Proof.
  assert (Hsource : forall x, In x (calls (cycleFetch config services args rt)) ->
                      match x with
                      | CallObtainDiasendAccessToken _ _ _ _ | CallGetPatientData _ _ _ =>
                          True
                      | _ => False
                      end).
  { intros x Hx. apply cycleFetch_calls in Hx as [(?&?&?&?&->)|(?&?&?&->)]; exact I. }
  split; intros Hc.
  - pose proof (syncDiasendGlucoseToNightscout_run config services adapter args rt) as Hr.
    cbv zeta in Hr.
    destruct (outcome (cycleFetch config services args rt)); destruct Hr as [Hr _];
      rewrite Hr in Hc.
    + apply in_app_or in Hc as [Hc|[<-|[]]]; [|exact I].
      specialize (Hsource c Hc). destruct c; tauto.
    + specialize (Hsource c Hc). destruct c; tauto.
  - pose proof (syncDiasendDataToNightscout_calls config services adapter args rt) as Hr.
    cbv zeta in Hr.
    destruct (outcome (cycleFetch config services args rt)).
    + destruct Hr as (identified & _ & Hr).
      destruct (orDefault (nightscoutProfileLoader args) _ _) as [existingProfile|e];
        [destruct (mergeBase _ existingProfile)|];
        rewrite Hr in Hc; apply in_app_or in Hc as [Hc|Hc];
        try (specialize (Hsource c Hc); destruct c; tauto);
        try destruct (throwsSync _); cbn [In] in Hc; intuition (subst; exact I).
    + rewrite Hr in Hc. specialize (Hsource c Hc). destruct c; tauto.
Qed.

Lemma feeds_keep_to_their_collaborators_witness :
  ~ In CallProfileLoader
       (calls (syncDiasendGlucoseToNightscout Sample.config
                 (Sample.services Sample.dayFetch) Sample.adapter
                 (Sample.from 0) Sample.start)).
Proof.
  intros Hin.
  exact (proj1 (feeds_keep_to_their_collaborators Sample.config
                  (Sample.services Sample.dayFetch) Sample.adapter
                  (Sample.from 0) Sample.start CallProfileLoader) Hin).
Defined.

(** ** The cursor is not clamped *)

(** X20: the next [dateFrom] follows the latest timestamp the cursor is taken
    over and nothing else.  Whenever a step returns, the next [dateFrom] is
    the latest of the timestamps of the echoed entries (entries feed) or of
    the freshly fetched records other than glucose records (treatments
    feed) plus one second if there is any, and the current [dateFrom],
    present or not, if there is none; the current cursor is not compared
    with it, so records stamped before the window move the cursor back. *)
Theorem cursor_follows_latest_record
    (config : Config) (services : Services) (adapter : Adapter)
    (feed : Feed) (state next : SyncArgs) (rt : Runtime) :
  outcome (stepOf config services adapter feed state rt) = Ok next ->
  exists stamps,
    cursorTimestamps config services adapter feed state rt = Ok stamps
    /\ dateFrom next =
         match latest stamps with
         | Some latestRecordDate => Some (latestRecordDate + 1000)%Z
         | None => dateFrom state
         end.
Proof.
  intros Hstep. apply stepOf_inv in Hstep.
  destruct feed; destruct Hstep as (r & Hrun & ->); cbn [cursorTimestamps].
  - rewrite Hrun. eexists. split; [reflexivity|].
    cbn [dateFrom withDateFrom withDateTo].
    rewrite (syncDiasendGlucoseToNightscout_latest _ _ _ _ _ _ Hrun). reflexivity.
  - cycle_stages Hrun. rewrite Hfetch. eexists. split; [reflexivity|].
    cbn [dateFrom withDateFrom withDateTo withPreviousRecords].
    rewrite Hlatest. reflexivity.
Qed.

Lemma cursor_follows_latest_record_witness :
  exists next,
    outcome (entriesStep Sample.config (Sample.services Sample.dayFetch)
               Sample.adapter (Sample.from 5000000) Sample.start) = Ok next
    /\ dateFrom next = Some 1901000%Z.
Proof.
  destruct (outcome (entriesStep Sample.config (Sample.services Sample.dayFetch)
               Sample.adapter (Sample.from 5000000) Sample.start))
    as [next|e] eqn:Hstep; [|vm_compute in Hstep; discriminate Hstep].
  exists next. split; [reflexivity|].
  destruct (cursor_follows_latest_record Sample.config
              (Sample.services Sample.dayFetch) Sample.adapter EntriesFeed
              (Sample.from 5000000) next Sample.start Hstep)
    as (stamps & Hstamps & ->).
  vm_compute in Hstamps. injection Hstamps as <-. reflexivity.
Defined.

(** ** Which error, and when *)

Lemma cycles_fail_with_fetch config services adapter args rt e :
  outcome (cycleFetch config services args rt) = Throw e ->
  outcome (syncDiasendGlucoseToNightscout config services adapter args rt) = Throw e
  /\ outcome (syncDiasendDataToNightscout config services adapter args rt) = Throw e.
Proof.
  intros Hfetch.
  pose proof (syncDiasendGlucoseToNightscout_run config services adapter args rt) as Hg.
  pose proof (syncDiasendDataToNightscout_outcome config services adapter args rt) as Hd.
  cbv zeta in Hg, Hd. rewrite Hfetch in Hg, Hd. destruct Hg as [_ Hg]. auto.
Qed.

(** X21: the username is checked before the password, and an empty argument
    is not replaced by the configured default.  With the username absent,
    both cycles and [startPumpSettingsSynchronization] throw "Diasend
    Username not configured", whether the password is there or not; they
    throw "Diasend Password not configured" only when the username is there;
    and a username or password given as the empty string fails in the same
    way even when the configuration holds one. *)
Theorem username_checked_before_password
    (config : Config) (services : Services) (adapter : Adapter)
    (args : SyncArgs) (pargs : PumpSettingsArgs) (rt : Runtime) :
  let errors :=
    [thrown (outcome (syncDiasendGlucoseToNightscout config services adapter args rt));
     thrown (outcome (syncDiasendDataToNightscout config services adapter args rt))] in
  let username := orElse (diasendUsername args) (config_diasend_username config) in
  let password := orElse (diasendPassword args) (config_diasend_password config) in
  let noUsername := Some "Diasend Username not configured" in
  let noPassword := Some "Diasend Password not configured" in
  (notConfigured username = true -> errors = [noUsername; noUsername])
  /\ (notConfigured username = false -> notConfigured password = true ->
      errors = [noPassword; noPassword])
  /\ (diasendUsername args = Some "" -> errors = [noUsername; noUsername])
  /\ (notConfigured username = false -> diasendPassword args = Some "" ->
      errors = [noPassword; noPassword])
  /\ (notConfigured (orElse (pump_diasendUsername pargs) (config_diasend_username config))
      = true ->
      thrown (startPumpSettingsSynchronization config services adapter pargs)
      = noUsername)
  /\ (notConfigured (orElse (pump_diasendUsername pargs) (config_diasend_username config))
      = false ->
      notConfigured (orElse (pump_diasendPassword pargs) (config_diasend_password config))
      = true ->
      thrown (startPumpSettingsSynchronization config services adapter pargs)
      = noPassword).
Proof.
  cbv zeta.
  assert (HU : notConfigured (orElse (diasendUsername args) (config_diasend_username config))
               = true ->
               [thrown (outcome (syncDiasendGlucoseToNightscout config services adapter
                                   args rt));
                thrown (outcome (syncDiasendDataToNightscout config services adapter
                                   args rt))]
               = [Some "Diasend Username not configured";
                  Some "Diasend Username not configured"]).
  { intros Hu.
    destruct (cycles_fail_with_fetch config services adapter args rt
                "Diasend Username not configured") as [-> ->]; [|reflexivity].
    rewrite cycleFetch_run, Hu. reflexivity. }
  assert (HP : notConfigured (orElse (diasendUsername args) (config_diasend_username config))
               = false ->
               notConfigured (orElse (diasendPassword args) (config_diasend_password config))
               = true ->
               [thrown (outcome (syncDiasendGlucoseToNightscout config services adapter
                                   args rt));
                thrown (outcome (syncDiasendDataToNightscout config services adapter
                                   args rt))]
               = [Some "Diasend Password not configured";
                  Some "Diasend Password not configured"]).
  { intros Hu Hp.
    destruct (cycles_fail_with_fetch config services adapter args rt
                "Diasend Password not configured") as [-> ->]; [|reflexivity].
    rewrite cycleFetch_run, Hu, Hp. reflexivity. }
  split; [exact HU|]. split; [exact HP|].
  split; [intros Hempty; apply HU; rewrite Hempty; reflexivity|].
  split; [intros Hu Hempty; apply (HP Hu); rewrite Hempty; reflexivity|].
  unfold startPumpSettingsSynchronization.
  split; [intros ->; reflexivity|intros -> ->; reflexivity].
Qed.

Lemma username_checked_before_password_witness :
  thrown (outcome (syncDiasendDataToNightscout Sample.config
                     (Sample.services Sample.dayFetch) Sample.adapter
                     EmptyUsername.args Sample.start))
  = Some "Diasend Username not configured".
Proof.
  destruct (username_checked_before_password Sample.config
              (Sample.services Sample.dayFetch) Sample.adapter EmptyUsername.args
              NoCredentials.pumpArgs Sample.start) as (_ & _ & Hempty & _).
  exact (f_equal (fun errors => nth 1 errors None) (Hempty eq_refl)).
Defined.

(** X22: what a treatments cycle returns is what the sink answered, not what
    it was sent.  A cycle that returns has made five calls, each once and in
    this order: token, fetch, profile load, treatments report, profile
    update; its [treatments] are those the treatments handler resolved with,
    or the empty list when it resolved with nothing, and its [profile] is
    the one the profile handler resolved with. *)
Theorem treatments_cycle_returns_sink_answers
    (config : Config) (services : Services) (adapter : Adapter)
    (args : SyncArgs) (rt : Runtime) (res : Sync.result) :
  outcome (syncDiasendDataToNightscout config services adapter args rt) = Ok res ->
  exists token sent updatedProfile echoed,
    calls (syncDiasendDataToNightscout config services adapter args rt)
    = [tokenCall config args; fetchCall token args rt; CallProfileLoader;
       CallTreatmentsHandler sent; CallProfileHandler updatedProfile]
    /\ orDefault (nightscoutTreatmentsHandler args)
         (reportTreatmentsToNightscout services) sent = Fulfils echoed
    /\ orDefault (nightscoutProfileHandler args) (updateProfile services)
         updatedProfile = Fulfils (Sync.profile res)
    /\ Sync.treatments res = orDefault echoed []
    /\ (echoed = None -> Sync.treatments res = []).
Proof.
  intros Hrun.
  destruct (syncDiasendDataToNightscout_inv _ _ _ _ _ _ Hrun)
    as (fetched & identified & loaded & base & echoed
          & Hfetch & _ & _ & _ & Hechoed & Hstored & Hcalls & Htreatments & _ & _).
  cbv zeta in Hstored, Hcalls.
  rewrite cycleFetch_run in Hfetch, Hcalls.
  destruct (notConfigured _); [discriminate Hfetch|].
  destruct (notConfigured _); [discriminate Hfetch|].
  destruct (obtainDiasendAccessToken _ _ _ _ _) as [token|e]; [|discriminate Hfetch].
  destruct (getPatientData _ _ _ _) as [batches|e]; [|discriminate Hfetch].
  cbn [calls app] in Hcalls.
  exists token, (treatments identified),
    (cycleProfile adapter (cycleProfileName config args) loaded base
       (cycleRecords args fetched)), echoed.
  split; [exact Hcalls|]. split; [exact Hechoed|]. split; [exact Hstored|].
  split; [exact Htreatments|]. intros ->. exact Htreatments.
Qed.

Lemma treatments_cycle_returns_sink_answers_witness :
  exists res,
    outcome (syncDiasendDataToNightscout Sample.config SilentSink.services
               Sample.adapter (Sample.from 0) Sample.start) = Ok res
    /\ Sync.treatments res = [].
Proof.
  destruct (outcome (syncDiasendDataToNightscout Sample.config SilentSink.services
               Sample.adapter (Sample.from 0) Sample.start)) as [res|e] eqn:Hrun;
    [|vm_compute in Hrun; discriminate Hrun].
  destruct (treatments_cycle_returns_sink_answers Sample.config SilentSink.services
              Sample.adapter (Sample.from 0) Sample.start res Hrun)
    as (token & sent & updatedProfile & echoed & _ & Hechoed & _ & _ & Hnone).
  exists res. split; [reflexivity|]. apply Hnone.
  vm_compute in Hechoed. congruence.
Defined.

(** X23: a step adds no call and no failure of its own, and swallows none.
    The calls of a step are those of its cycle; the step throws exactly when
    its cycle throws, with the same error, so a failed cycle yields no next
    state: neither the cursor nor the records to hand on are updated by
    it. *)
Theorem step_fails_exactly_when_cycle_fails
    (config : Config) (services : Services) (adapter : Adapter)
    (feed : Feed) (state : SyncArgs) (rt : Runtime) :
  calls (stepOf config services adapter feed state rt)
  = cycleCalls config services adapter feed state rt
  /\ thrown (outcome (stepOf config services adapter feed state rt))
     = cycleError config services adapter feed state rt
  /\ (cycleError config services adapter feed state rt = None
      <-> exists next, outcome (stepOf config services adapter feed state rt) = Ok next)
  /\ (cycleError config services adapter feed state rt <> None ->
      carriedForward (stepOf config services adapter feed state rt) = []).
Proof.
  split; [apply stepOf_calls|].
  assert (Herr : thrown (outcome (stepOf config services adapter feed state rt))
                 = cycleError config services adapter feed state rt).
  { destruct feed; cbn [stepOf cycleError]; unfold entriesStep, treatmentsStep;
      rewrite withDateTo_restore, bind_outcome;
      match goal with |- context [outcome ?r] => destruct (outcome r) end;
      reflexivity. }
  split; [exact Herr|]. rewrite <- Herr. unfold carriedForward.
  destruct (outcome (stepOf config services adapter feed state rt)) as [next|e];
    cbn [thrown].
  - split; [split; eauto|]. intros H. contradiction H. reflexivity.
  - split; [split; [intros [=]|intros [? [=]]]|reflexivity].
Qed.
